(** * PaperMemory: the popup's search, favorite, pagination and flashcard code

    A shallow embedding of the functions of [src/popup/js/memory.js] that
    filter, reverse and page the paper library, of [saveFavoriteItem], and of
    the AnkiConnect client's [addAnkiCard], followed by the properties
    established about them.

    Conventions of the embedding:
    - a JavaScript value is a [jsval]; a paper is a JavaScript object, hence a
      finite map from property names to values ([gmap string jsval]), and a
      missing property reads as [undefined];
    - strings are sequences of 8-bit code units, and [toLowerCase] folds the
      letters A-Z only (the library's text beyond ASCII is outside the model);
    - a number is an integer ([Z]) that a double holds; what [parseInt]
      reads is rounded to the nearest double, [NaN] is the [None] of
      [option Z] and [Infinity] stands as 2^1024, above every double;
      fractional numbers, and the integers from 10^21 on, which [String]
      writes with an exponent, are outside the model;
    - [global.state.papers] is a plain object: under the names that every
      object inherits ([inheritedKeys]) it holds an object that is no paper,
      and what is written to that object is outside the state;
    - the functions of memory.js read and write [global.state], the console
      and the DOM: they are computations of the monad [M] over [state], which
      also carries a thrown exception. *)

From Stdlib Require Import ZArith String Ascii List Bool Lia DecimalString.
From Stdlib Require Import Sorting.Sorted Sorting.Permutation.
From stdpp Require Import base option gmap strings list.

Set Warnings "-register-all".
Open Scope string_scope.
Open Scope list_scope.

(* ===================================================================== *)
(** * JavaScript values and string primitives *)
(* ===================================================================== *)

Module JS.

Inductive jsval : Type :=
  | JUndefined
  | JNull
  | JBool (b : bool)
  | JNum (n : Z)
  | JStr (s : string)
  | JArr (l : list jsval).

(** [Array.isArray(v)] and [typeof v === "string"]. *)
Definition isArray (v : jsval) : bool :=
  match v with JArr _ => true | _ => false end.

Definition isString (v : jsval) : bool :=
  match v with JStr _ => true | _ => false end.

(** Truthiness, as used by [||] and [if]. *)
Definition toBoolean (v : jsval) : bool :=
  match v with
  | JUndefined | JNull => false
  | JBool b => b
  | JNum n => negb (n =? 0)%Z
  | JStr s => negb (String.eqb s "")
  | JArr _ => true
  end.

Definition numberToString (n : Z) : string :=
  NilZero.string_of_int (Z.to_int n).

(** [String(v)]; an array prints as its elements joined by commas, where
    [undefined] and [null] elements print as the empty string. *)
Fixpoint toString (v : jsval) : string :=
  match v with
  | JUndefined => "undefined"
  | JNull => "null"
  | JBool true => "true"
  | JBool false => "false"
  | JNum n => numberToString n
  | JStr s => s
  | JArr l =>
      String.concat ","
        (List.map (fun x => match x with
                            | JUndefined | JNull => ""
                            | _ => toString x
                            end) l)
  end.

Definition joinElement (v : jsval) : string :=
  match v with JUndefined | JNull => "" | _ => toString v end.

(** [l.join(sep)]. *)
Definition join (sep : string) (l : list jsval) : string :=
  String.concat sep (List.map joinElement l).

(** ** Code units *)

Definition lowerChar (c : ascii) : ascii :=
  let n := nat_of_ascii c in
  if (65 <=? n)%nat && (n <=? 90)%nat then ascii_of_nat (n + 32) else c.

(** [s.toLowerCase()]. *)
Fixpoint toLowerCase (s : string) : string :=
  match s with
  | EmptyString => EmptyString
  | String c r => String (lowerChar c) (toLowerCase r)
  end.

(** [s.startsWith(w)]. *)
Fixpoint startsWith (s w : string) {struct w} : bool :=
  match w with
  | EmptyString => true
  | String a w' =>
      match s with
      | EmptyString => false
      | String b s' => Ascii.eqb a b && startsWith s' w'
      end
  end.

(** [s.includes(w)]. *)
Fixpoint includes (s w : string) : bool :=
  startsWith s w ||
  match s with
  | EmptyString => false
  | String _ s' => includes s' w
  end.

Fixpoint indexOfFrom (s w : string) (i : Z) : Z :=
  if startsWith s w then i
  else match s with
       | EmptyString => (-1)%Z
       | String _ s' => indexOfFrom s' w (i + 1)%Z
       end.

(** [s.indexOf(w)]: the first position of [w] in [s], or -1. *)
Definition indexOf (s w : string) : Z := indexOfFrom s w 0.

(** [c] is one of the code units of [s]. *)
Fixpoint hasChar (c : ascii) (s : string) : bool :=
  match s with
  | EmptyString => false
  | String a r => Ascii.eqb a c || hasChar c r
  end.

(** [s.split(sep)] for a separator of one code unit: [""] splits into [[""]]. *)
Fixpoint split (sep : ascii) (s : string) : list string :=
  match s with
  | EmptyString => [EmptyString]
  | String c r =>
      if Ascii.eqb c sep then EmptyString :: split sep r
      else match split sep r with
           | [] => [String c EmptyString]
           | w :: ws => String c w :: ws
           end
  end.

Fixpoint dropChars (n : nat) (s : string) : string :=
  match n, s with
  | O, _ => s
  | S n', String _ r => dropChars n' r
  | S _, EmptyString => EmptyString
  end.

(** [s.replace(pat, rep)] with a string pattern: only the first occurrence
    is replaced. *)
Fixpoint replaceFirst (pat rep s : string) : string :=
  if startsWith s pat then rep +:+ dropChars (String.length pat) s
  else match s with
       | EmptyString => EmptyString
       | String c r => String c (replaceFirst pat rep r)
       end.

(** [s.replace(/(<|>)/g, "")]: every code unit satisfying [drop] goes. *)
Fixpoint removeAll (drop : ascii -> bool) (s : string) : string :=
  match s with
  | EmptyString => EmptyString
  | String c r => if drop c then removeAll drop r else String c (removeAll drop r)
  end.

(** [s.replaceAll(a, b)] for one-unit strings [a] and [b]. *)
Fixpoint replaceAllChar (a b : ascii) (s : string) : string :=
  match s with
  | EmptyString => EmptyString
  | String c r =>
      String (if Ascii.eqb c a then b else c) (replaceAllChar a b r)
  end.

(** ** [parseInt(s, 10)] *)

Definition isWhiteSpace (c : ascii) : bool :=
  let n := nat_of_ascii c in
  ((9 <=? n)%nat && (n <=? 13)%nat) || (n =? 32)%nat || (n =? 160)%nat.

Definition digitOf (c : ascii) : option Z :=
  let n := nat_of_ascii c in
  if (48 <=? n)%nat && (n <=? 57)%nat then Some (Z.of_nat (n - 48)) else None.

Fixpoint trimStart (s : string) : string :=
  match s with
  | String c r => if isWhiteSpace c then trimStart r else s
  | EmptyString => EmptyString
  end.

(** The value of the longest prefix of digits after the digits [acc] already
    read. *)
Fixpoint readDigits (acc : Z) (s : string) : Z :=
  match s with
  | String c r =>
      match digitOf c with
      | Some d => readDigits (10 * acc + d) r
      | None => acc
      end
  | EmptyString => acc
  end.

(** The double nearest to the integer [n >= 0], ties going to the even
    significand: the integers below 2^53 are doubles; from there on a double
    keeps the 53 leading bits. What lies beyond the largest double becomes
    [Infinity], which stands as 2^1024. *)
Definition toDouble (n : Z) : Z :=
  if (n <? 2 ^ 53)%Z then n
  else
    let e := (Z.log2 n - 52)%Z in
    let q := (n / 2 ^ e)%Z in
    let r := (n mod 2 ^ e)%Z in
    let q' :=
      if (2 * r <? 2 ^ e)%Z then q
      else if (2 ^ e <? 2 * r)%Z then (q + 1)%Z
      else if Z.even q then q else (q + 1)%Z in
    Z.min (q' * 2 ^ e) (2 ^ 1024).

Definition parseUnsigned (s : string) : option Z :=
  match s with
  | String c r =>
      match digitOf c with
      | Some d => Some (toDouble (readDigits d r))
      | None => None
      end
  | EmptyString => None
  end.

(** [parseInt(s, 10)]: leading white space, an optional sign, then the
    longest run of digits, as the nearest double; [None] is [NaN]. *)
Definition parseIntStr (s : string) : option Z :=
  match trimStart s with
  | String "-" r => Z.opp <$> parseUnsigned r
  | String "+" r => parseUnsigned r
  | t => parseUnsigned t
  end.

(** [parseInt(v, 10)] applies [String(v)] first. *)
Definition parseInt (v : jsval) : option Z := parseIntStr (toString v).

(** Comparisons of numbers; any comparison with [NaN] is false. *)
Definition numStrictEq (a b : option Z) : bool :=
  match a, b with Some x, Some y => (x =? y)%Z | _, _ => false end.

Definition numGt (a b : option Z) : bool :=
  match a, b with Some x, Some y => (y <? x)%Z | _, _ => false end.

Definition numLt (a b : option Z) : bool :=
  match a, b with Some x, Some y => (x <? y)%Z | _, _ => false end.

End JS.

Export JS.

(* ===================================================================== *)
(** * The popup's state and its computations *)
(* ===================================================================== *)

Module Memory.

(** A paper record is a JavaScript object. *)
Abbreviation paper := (gmap string jsval).

(** [paper[key]]. *)
Definition prop (p : paper) (key : string) : jsval :=
  default JUndefined (p !! key).

Inductive exn : Type :=
  | TypeError (what : string).

(** What reaches the console: [logError(msg)], [log(msg)], [log(paper)],
    [log(error)] and [console.log("searchYears: ", years)]. *)
Inductive logEntry : Type :=
  | LogError (msg : string)
  | LogText (msg : string)
  | LogPaper (p : paper)
  | LogExn (e : exn)
  | LogYears (label : string) (years : list (option Z)).

(** [global.state], the console, and the rows of [#memory-table]. The page
    size [memoryItemsPerPage] is set outside memory.js. *)
Record state : Type := mkState {
  papers : gmap string paper;
  sortedPapers : list paper;
  papersList : list paper;
  showFavorites : bool;
  sortKey : string;
  currentMemoryPagination : nat;
  memoryItemsPerPage : nat;
  console : list logEntry;
  memoryTable : list string
}.

Definition setPapers (v : gmap string paper) (st : state) : state :=
  mkState v (sortedPapers st) (papersList st) (showFavorites st) (sortKey st)
    (currentMemoryPagination st) (memoryItemsPerPage st) (console st)
    (memoryTable st).

Definition setSortedPapers (v : list paper) (st : state) : state :=
  mkState (papers st) v (papersList st) (showFavorites st) (sortKey st)
    (currentMemoryPagination st) (memoryItemsPerPage st) (console st)
    (memoryTable st).

Definition setPapersList (v : list paper) (st : state) : state :=
  mkState (papers st) (sortedPapers st) v (showFavorites st) (sortKey st)
    (currentMemoryPagination st) (memoryItemsPerPage st) (console st)
    (memoryTable st).

Definition setCurrentMemoryPagination (v : nat) (st : state) : state :=
  mkState (papers st) (sortedPapers st) (papersList st) (showFavorites st)
    (sortKey st) v (memoryItemsPerPage st) (console st) (memoryTable st).

Definition setConsole (v : list logEntry) (st : state) : state :=
  mkState (papers st) (sortedPapers st) (papersList st) (showFavorites st)
    (sortKey st) (currentMemoryPagination st) (memoryItemsPerPage st) v
    (memoryTable st).

Definition setMemoryTable (v : list string) (st : state) : state :=
  mkState (papers st) (sortedPapers st) (papersList st) (showFavorites st)
    (sortKey st) (currentMemoryPagination st) (memoryItemsPerPage st)
    (console st) v.

(** ** The monad: state, and normal or abrupt completion *)

Inductive completion (A : Type) : Type :=
  | Normal (a : A)
  | Throw (e : exn).
Arguments Normal {A} a.
Arguments Throw {A} e.

Definition M (A : Type) : Type := state -> completion A * state.

#[global] Instance M_ret : MRet M := fun A a st => (Normal a, st).

#[global] Instance M_bind : MBind M := fun A B f m st =>
  match m st with
  | (Normal a, st') => f a st'
  | (Throw e, st') => (Throw e, st')
  end.

Definition get : M state := fun st => (Normal st, st).
Definition modify (f : state -> state) : M unit := fun st => (Normal tt, f st).
Definition throw {A} (e : exn) : M A := fun st => (Throw e, st).

(** [try { body } catch (error) { handler(error) }]. *)
Definition tryCatch {A} (body : M A) (handler : exn -> M A) : M A := fun st =>
  match body st with
  | (Normal a, st') => (Normal a, st')
  | (Throw e, st') => handler e st'
  end.

Definition emit (e : logEntry) : M unit :=
  modify (fun st => setConsole (console st ++ [e]) st).

Definition logError (msg : string) : M unit := emit (LogError msg).
Definition log (p : paper) : M unit := emit (LogPaper p).

(** The state with [ls] appended to the console. *)
Definition addLogs (ls : list logEntry) (st : state) : state :=
  setConsole (console st ++ ls) st.

(** The state a computation leaves, and how it completed. *)
Definition exec {A} (m : M A) (st : state) : state := snd (m st).
Definition outcome {A} (m : M A) (st : state) : completion A := fst (m st).

(** [for (const x of l) { acc = body(acc, x) }], for a loop whose body
    updates the local variable [acc]. *)
Fixpoint forOf {A B} (l : list A) (acc : B) (body : B -> A -> M B) : M B :=
  match l with
  | [] => mret acc
  | x :: r => acc' ← body acc x; forOf r acc' body
  end.

(** [l.map(f)] for a callback with effects, in index order. *)
Fixpoint mapM {A B} (f : A -> M B) (l : list A) : M (list B) :=
  match l with
  | [] => mret []
  | x :: r => y ← f x; ys ← mapM f r; mret (y :: ys)
  end.

(** ** Filtering *)

Definition contentKeys : list string :=
  ["title"; "author"; "note"; "tags"; "id"; "venue"].

(** The callback of [contentKeys.map] in [searchMemory]. *)
Definition contentOf (p : paper) (key : string) : M string :=
  match prop p key with
  | JArr l => mret (toLowerCase (join " " l))
  | JStr s => mret (toLowerCase s)
  | _ =>
      logError ("searchMemory: non-string & non-array content for key " +:+ key);;
      log p;;
      mret ""
  end.

(** [if (!global.state.showFavorites || paper.favorite) papersList.push(paper)]. *)
Definition pushIfShown (papersList : list paper) (p : paper) : M (list paper) :=
  st ← get;
  if negb (showFavorites st) || toBoolean (prop p "favorite")
  then mret (papersList ++ [p])
  else mret papersList.

Definition searchMemory (letters : string) : M unit :=
  let words := split " " (toLowerCase letters) in
  st ← get;
  papersList ← forOf (sortedPapers st) [] (fun papersList p =>
    contents ← mapM (contentOf p) contentKeys;
    if forallb (fun w => existsb (fun c => includes c w) contents) words
    then pushIfShown papersList p
    else mret papersList);
  modify (setPapersList papersList).

Inductive condition : Type := Smaller | Greater | Equal.

Definition yearCondition (letters : string) : condition :=
  if includes letters "<" then Smaller
  else if includes letters ">" then Greater
  else Equal.

Definition isAngle (c : ascii) : bool :=
  Ascii.eqb c "<" || Ascii.eqb c ">".

Definition searchYears (letters : string) : list (option Z) :=
  List.map parseIntStr
    (List.map (fun y => if (String.length y =? 4)%nat then y else "20" +:+ y)
       (List.filter (fun y => (0 <? String.length y)%nat)
          (split " "
             (replaceAllChar "," " "
                (toLowerCase (removeAll isAngle (replaceFirst "y:" "" letters))))))).

(** [compare(y, py)]: [y] is the year of the query, [py] the paper's. *)
Definition compare (c : condition) (y py : option Z) : bool :=
  match c with
  | Smaller => numGt y py
  | Greater => numLt y py
  | Equal => numStrictEq y py
  end.

Definition searchMemoryByYear (letters : string) : M unit :=
  let cond := yearCondition letters in
  let years := searchYears letters in
  emit (LogYears "searchYears: " years);;
  st ← get;
  papersList ← forOf (sortedPapers st) [] (fun papersList p =>
    let paperYear := parseInt (prop p "year") in
    if existsb (fun year => compare cond year paperYear) years
    then mret (papersList ++ [p])
    else mret papersList);
  modify (setPapersList papersList).

(** [t.toLowerCase()] on an element of [paper.tags]. *)
Definition tagToLowerCase (t : jsval) : M string :=
  match t with
  | JStr s => mret (toLowerCase s)
  | JUndefined | JNull =>
      throw (TypeError "Cannot read properties of undefined (reading 'toLowerCase')")
  | _ => throw (TypeError "t.toLowerCase is not a function")
  end.

(** [paper.tags.map((t) => t.toLowerCase())]. *)
Definition paperTagsOf (p : paper) : M (list string) :=
  match prop p "tags" with
  | JArr l => mapM tagToLowerCase l
  | JUndefined | JNull =>
      throw (TypeError "Cannot read properties of undefined (reading 'map')")
  | _ => throw (TypeError "paper.tags.map is not a function")
  end.

Definition searchMemoryByTags (letters : string) : M unit :=
  let tags := split " " (toLowerCase (replaceFirst "t:" "" letters)) in
  st ← get;
  papersList ← forOf (sortedPapers st) [] (fun papersList p =>
    paperTags ← paperTagsOf p;
    if forallb (fun t => existsb (fun pt => (0 <=? indexOf pt t)%Z) paperTags) tags
    then pushIfShown papersList p
    else mret papersList);
  modify (setPapersList papersList).

(** [(paper.codeLink || "").toLowerCase()]. *)
Definition paperCodeOf (p : paper) : M string :=
  let paperCode := if toBoolean (prop p "codeLink") then prop p "codeLink" else JStr "" in
  match paperCode with
  | JStr s => mret (toLowerCase s)
  | _ => throw (TypeError "paperCode.toLowerCase is not a function")
  end.

Definition searchMemoryByCode (letters : string) : M unit :=
  let words := split " " (toLowerCase (replaceFirst "c:" "" letters)) in
  st ← get;
  papersList ← forOf (sortedPapers st) [] (fun papersList p =>
    paperCode ← paperCodeOf p;
    if forallb (fun w => includes paperCode w) words
    then pushIfShown papersList p
    else mret papersList);
  modify (setPapersList papersList).

(** The four kinds of query and the function that serves each. Which kind a
    typed string is, the search handler decides from its prefix. *)
Inductive queryKind : Type := TextQuery | TagQuery | YearQuery | CodeQuery.

Definition search (kind : queryKind) (letters : string) : M unit :=
  match kind with
  | TextQuery => searchMemory letters
  | TagQuery => searchMemoryByTags letters
  | YearQuery => searchMemoryByYear letters
  | CodeQuery => searchMemoryByCode letters
  end.

(** ** Reversal *)


(** ** Favorites *)

(** The names under which every plain object, [global.state.papers] too,
    finds a property of [Object.prototype]: a function, or the prototype
    itself under ["__proto__"]. *)
Definition inheritedKeys : list string :=
  ["constructor"; "hasOwnProperty"; "isPrototypeOf"; "propertyIsEnumerable";
   "toLocaleString"; "toString"; "valueOf"; "__proto__";
   "__defineGetter__"; "__defineSetter__"; "__lookupGetter__"; "__lookupSetter__"].

(** [papers[id]] is inherited when no paper is stored under [id]. *)
Definition inherited (id : string) : bool := existsb (String.eqb id) inheritedKeys.

(** [global.state.papers[id][key] = v]. When no paper is stored under [id]
    it throws, [papers[id]] being [undefined], unless [id] is an inherited
    name: the property is then set on the inherited object, and no paper
    changes. *)
Definition assignPaperProp (id key : string) (v : jsval) : M unit :=
  st ← get;
  match papers st !! id with
  | Some p => modify (setPapers (<[id := <[key := v]> p]> (papers st)))
  | None =>
      if inherited id then mret tt
      else
        throw (TypeError ("Cannot set properties of undefined (setting '" +:+ key +:+ "')"))
  end.

(** The body of [saveFavoriteItem(id, favorite)] up to the write to
    [chrome.storage.local]; [now] is what [new Date().toJSON()] returns. The
    callback of the write, which updates the classes of the DOM and may
    re-sort and re-display, assigns to no paper and is not part of this
    definition. The records are held by value: the entries of [sortedPapers]
    and [papersList] that alias [papers[id]] are not followed. *)
Definition saveFavoriteItem (now : string) (id : string) (favorite : bool) : M unit :=
  assignPaperProp id "favorite" (JBool favorite);;
  assignPaperProp id "favoriteDate" (JStr now).

(** ** Display *)

(** [l.slice(start, stop)] for non-negative indices. *)
Definition slice {A} (start stop : nat) (l : list A) : list A :=
  take (stop - start) (drop start l).

(** What [displayOnScroll] measures: whether the table element is in the
    page, the bottom of its bounding rectangle and the height of the view, in
    whole pixels. *)
Record viewport : Type := mkViewport {
  tableElement : bool;
  bottom : Z;
  height : Z
}.

Section Display.

(** The HTML template of one paper; building it may throw. *)
Variable getMemoryItemHTML : paper -> exn + string.

(** The body of the loop of [displayMemoryTable]. *)
Definition pushItemHTML (table : list string) (p : paper) : M (list string) :=
  tryCatch
    (match getMemoryItemHTML p with
     | inr html => mret (table ++ [html])
     | inl e => throw e
     end)
    (fun error =>
       emit (LogText "displayMemoryTable error:");;
       emit (LogExn error);;
       log p;;
       mret table).

(** [displayMemoryTable(pagination)]; the rows are kept apart rather than
    concatenated into one HTML string. The listeners it adds afterwards
    and the duration it reports are left out. *)
Definition displayMemoryTable (pagination : nat) : M unit :=
  (if (pagination =? 0)%nat
   then modify (setMemoryTable []);; modify (setCurrentMemoryPagination 0)
   else mret tt);;
  st ← get;
  table ← forOf
    (slice (pagination * memoryItemsPerPage st)
           ((pagination + 1) * memoryItemsPerPage st) (papersList st))
    [] pushItemHTML;
  if (pagination =? 0)%nat
  then modify (setMemoryTable table)
  else modify (fun st' => setMemoryTable (memoryTable st' ++ table) st').

(** The function that [displayOnScroll] debounces, in the popup (where
    there is no [#papers-table-body]). *)
Definition displayOnScroll (v : viewport) : M unit :=
  if negb (tableElement v) then mret tt
  else
    st ← get;
    let currentPapers := currentMemoryPagination st * memoryItemsPerPage st in
    if (Z.abs (bottom v - height v) <? height v)%Z
       && (currentPapers <? length (papersList st))%nat
    then
      modify (fun st' =>
        setCurrentMemoryPagination (currentMemoryPagination st' + 1) st');;
      st' ← get;
      displayMemoryTable (currentMemoryPagination st')
    else mret tt.

End Display.

End Memory.

Export Memory.

(* ===================================================================== *)
(** * Sorting *)
(* ===================================================================== *)

Module Sort.


Section SortEngine.

(** The order in which the papers are to come: [before a b] when [a] may
    stand before [b]. *)
Variable before : paper -> paper -> bool.



End SortEngine.


End Sort.

Export Sort.


(* ===================================================================== *)
(** * The AnkiConnect client *)
(* ===================================================================== *)

Module Anki.

Record noteFields : Type := mkFields { Front : string; Back : string }.

Record noteOptions : Type := mkOptions {
  allowDuplicate : bool;
  duplicateScope : string
}.

Record note : Type := mkNote {
  deckName : string;
  modelName : string;
  fields : noteFields;
  tags : list jsval;
  options : noteOptions
}.

(** The [params] object of a request. *)
Inductive params : Type :=
  | NoParams
  | DeckParams (deck : string)
  | NoteParams (n : note).

(** The body that [ankiRequest] posts to the bridge. *)
Record request : Type := mkRequest {
  action : string;
  version : Z;
  reqParams : params
}.

(** What comes back from [fetch] and [response.json()]: the fetch is
    rejected (the bridge is unreachable or the 5 s timeout fires), the HTTP
    status is not ok, or the body [{result, error}] is delivered. *)
Inductive reply : Type :=
  | Rejected (reason : string)
  | Status (code : Z)
  | Data (result : jsval) (error : jsval).

Inductive error : Type :=
  | FetchError (reason : string)
  | Error (msg : string)
  | TypeError (what : string).

(** An asynchronous function of the client: it returns, throws, posts a
    request and goes on with the reply, or writes to the console. *)
Inductive prog (A : Type) : Type :=
  | Ret (a : A)
  | Raise (e : error)
  | Fetch (req : request) (k : reply -> prog A)
  | Console (msg : string) (k : prog A).
Arguments Ret {A} a.
Arguments Raise {A} e.
Arguments Fetch {A} req k.
Arguments Console {A} msg k.

Fixpoint bind {A B} (m : prog A) (f : A -> prog B) : prog B :=
  match m with
  | Ret a => f a
  | Raise e => Raise e
  | Fetch req k => Fetch req (fun r => bind (k r) f)
  | Console msg k => Console msg (bind k f)
  end.

#[global] Instance prog_ret : MRet prog := fun A a => Ret a.
#[global] Instance prog_bind : MBind prog := fun A B f m => bind m f.

(** [catch (error) { console.error(...); throw error; }] of [ankiRequest]. *)
Definition failed {A} (e : error) : prog A :=
  Console "AnkiConnect request failed:" (Raise e).

Definition ankiRequest (action : string) (p : params) : prog jsval :=
  Fetch (mkRequest action 6 p) (fun r =>
    match r with
    | Rejected reason => failed (FetchError reason)
    | Status code =>
        failed (Error ("HTTP error! status: " +:+ numberToString code))
    | Data result err =>
        if toBoolean err then failed (Error (toString err)) else Ret result
    end).

Definition getDeckNames : prog jsval := ankiRequest "deckNames" NoParams.

Definition createDeck (deckName : string) : prog jsval :=
  ankiRequest "createDeck" (DeckParams deckName).

(** [deckNames.includes('arxiv')] on whatever the bridge returned. *)
Definition includesArxiv (deckNames : jsval) : prog bool :=
  match deckNames with
  | JArr l =>
      Ret (existsb (fun d => match d with
                             | JStr s => String.eqb s "arxiv"
                             | _ => false
                             end) l)
  | JStr s => Ret (includes s "arxiv")
  | JUndefined | JNull =>
      Raise (TypeError "Cannot read properties of undefined (reading 'includes')")
  | _ => Raise (TypeError "deckNames.includes is not a function")
  end.

Definition ensureArxivDeck : prog unit :=
  deckNames ← getDeckNames;
  present ← includesArxiv deckNames;
  if negb present
  then createDeck "arxiv";; Console "Created arxiv deck" (Ret tt)
  else Ret tt.

(** The note both versions of [addAnkiCard] build. *)
Definition makeNote (deckName : string) (f : noteFields) (tags : list jsval) : note :=
  mkNote deckName "Basic" f tags (mkOptions true "deck").

(** The metadata that the newer [addAnkiCard] appends to the back field. *)
Definition paperMetadata (p : paper) : string :=
  let m0 := "<hr><small>" in
  let m1 :=
    if (match prop p "source" with JStr s => String.eqb s "arxiv" | _ => false end)
       && toBoolean (prop p "id")
    then m0 +:+ "<strong>arXiv:</strong> " +:+ toString (prop p "id") +:+ "<br>"
    else m0 in
  let m2 :=
    if toBoolean (prop p "title")
    then m1 +:+ "<strong>Title:</strong> " +:+ toString (prop p "title") +:+ "<br>"
    else m1 in
  let authors :=
    if toBoolean (prop p "authors") then prop p "authors" else prop p "author" in
  let m3 :=
    if toBoolean authors
    then m2 +:+ "<strong>Authors:</strong> " +:+ toString authors +:+ "<br>"
    else m2 in
  let m4 :=
    if toBoolean (prop p "year")
    then m3 +:+ "<strong>Year:</strong> " +:+ toString (prop p "year") +:+ "<br>"
    else m3 in
  m4 +:+ "</small>".

(** [addAnkiCard(deckName, front, back, tags, paper)], the version that
    takes the paper ([None] is the default [null]). *)
Definition addAnkiCard (deckName front back : string) (tags : list jsval)
    (p : option paper) : prog jsval :=
  (if String.eqb deckName "arxiv" then ensureArxivDeck else Ret tt);;
  let f :=
    match p with
    | Some p' => mkFields front (back +:+ paperMetadata p')
    | None => mkFields front back
    end in
  ankiRequest "addNote" (NoteParams (makeNote deckName f tags)).

(** [addAnkiCard(deckName, front, back, tags)], the version without the
    paper. *)
Definition addAnkiCardPlain (deckName front back : string) (tags : list jsval)
    : prog jsval :=
  (if String.eqb deckName "arxiv" then ensureArxivDeck else Ret tt);;
  ankiRequest "addNote" (NoteParams (makeNote deckName (mkFields front back) tags)).

(** ** Running a client function against a bridge *)

(** A bridge answers a request from its own state. *)
Definition bridge (S : Type) : Type := S -> request -> reply * S.

Record run_result (S A : Type) : Type := mkRun {
  returned : error + A;
  sent : list request;
  printed : list string;
  bridgeState : S
}.
Arguments mkRun {S A}.
Arguments returned {S A}.
Arguments sent {S A}.
Arguments printed {S A}.
Arguments bridgeState {S A}.

Fixpoint run {S A} (b : bridge S) (m : prog A) (s : S) : run_result S A :=
  match m with
  | Ret a => mkRun (inr a) [] [] s
  | Raise e => mkRun (inl e) [] [] s
  | Fetch req k =>
      let '(r, s') := b s req in
      let res := run b (k r) s' in
      mkRun (returned res) (req :: sent res) (printed res) (bridgeState res)
  | Console msg k =>
      let res := run b k s in
      mkRun (returned res) (sent res) (msg :: printed res) (bridgeState res)
  end.

(** The requests a client function may post, over all replies. *)
Inductive posts {A} : prog A -> request -> Prop :=
  | posts_here req k : posts (Fetch req k) req
  | posts_later req k r req' : posts (k r) req' -> posts (Fetch req k) req'
  | posts_console msg k req' : posts k req' -> posts (Console msg k) req'.

(** The note of an [addNote] request respects what [addAnkiCard] promises. *)
Definition basicDuplicable (n : note) : Prop :=
  modelName n = "Basic" /\
  allowDuplicate (options n) = true /\
  duplicateScope (options n) = "deck".

Definition wellFormedAddNote (req : request) : Prop :=
  action req = "addNote" ->
  exists n, reqParams req = NoteParams n /\ basicDuplicable n.

(** The error with which AnkiConnect refuses a note that duplicates one. *)
Definition duplicateMessage : string :=
  "cannot create note because it is a duplicate".

Definition isDuplicateRefusal (r : reply) : Prop :=
  match r with
  | Data _ err => toBoolean err = true /\ toString err = duplicateMessage
  | _ => False
  end.

(** A bridge honours [allowDuplicate] when it refuses as a duplicate only an
    [addNote] whose note does not allow duplicates. *)
Definition honoursAllowDuplicate {S} (b : bridge S) : Prop :=
  forall s req, isDuplicateRefusal (fst (b s req)) ->
    exists n, action req = "addNote" /\ reqParams req = NoteParams n /\
              allowDuplicate (options n) = false.

(** A run against [b] was refused as a duplicate: one of the requests it
    sent is one that [b] answers with the refusal. *)
Definition refused {S A} (b : bridge S) (m : prog A) (s : S) : Prop :=
  exists s0 req, In req (sent (run b m s)) /\ isDuplicateRefusal (fst (b s0 req)).

(** [m] fails with the duplicate message only when it was refused. *)
Definition failsOnlyRefused {A} (m : prog A) : Prop :=
  forall S (b : bridge S) (s : S),
    returned (run b m s) = inl (Error duplicateMessage) -> refused b m s.

End Anki.

(* ===================================================================== *)
(** * What the claims speak of *)
(* ===================================================================== *)

Module Spec.

(** [w] occurs in [s]. *)
Definition Substring (w s : string) : Prop :=
  exists pre post, s = pre +:+ w +:+ post.

(** The text under which a searchable field is matched: a string or the
    joined array, in lower case; anything else counts as the empty string. *)
Definition fieldText (v : jsval) : string :=
  match v with
  | JArr l => toLowerCase (join " " l)
  | JStr s => toLowerCase s
  | _ => ""
  end.

Definition tagText (t : jsval) : option string :=
  match t with JStr s => Some (toLowerCase s) | _ => None end.

Definition codeText (v : jsval) : string :=
  match v with JStr s => toLowerCase s | _ => "" end.

(** The field occurrences a token may be found in: for a text query the six
    searchable fields, for a tag query each tag of the paper, for a code
    query the code link. *)
Definition occurrences (kind : queryKind) (p : paper) : list string :=
  match kind with
  | TextQuery => List.map (fun key => fieldText (prop p key)) contentKeys
  | TagQuery =>
      match prop p "tags" with
      | JArr l => omap tagText l
      | _ => []
      end
  | CodeQuery => [codeText (prop p "codeLink")]
  | YearQuery => []
  end.

(** The operand of a query: the typed string less the prefix of its kind. *)
Definition operand (kind : queryKind) (letters : string) : string :=
  match kind with
  | TextQuery => letters
  | TagQuery => replaceFirst "t:" "" letters
  | YearQuery => replaceFirst "y:" "" letters
  | CodeQuery => replaceFirst "c:" "" letters
  end.

(** The tokens of the operand: lowered, then cut at each space. *)
Definition tokens (kind : queryKind) (letters : string) : list string :=
  split " " (toLowerCase (operand kind letters)).

(** Every token occurs in at least one field occurrence. *)
Definition Matches (kind : queryKind) (letters : string) (p : paper) : Prop :=
  Forall (fun w => Exists (Substring w) (occurrences kind p)) (tokens kind letters).

(** A string with each white-space code unit turned into a space. *)
Fixpoint spaced (s : string) : string :=
  match s with
  | EmptyString => EmptyString
  | String c r => String (if isWhiteSpace c then " "%char else c) (spaced r)
  end.

(** The tokens of the operand as the specification words them: lowered, and
    separated by white space, so that none of them is empty. *)
Definition whitespaceTokens (kind : queryKind) (letters : string) : list string :=
  List.filter (fun w => negb (String.eqb w ""))
    (split " " (spaced (toLowerCase (operand kind letters)))).

(** Every white-space-separated token occurs in at least one field
    occurrence: the condition of the specification, to be compared with
    [Matches]. *)
Definition MatchesWords (kind : queryKind) (letters : string) (p : paper) : Prop :=
  Forall (fun w => Exists (Substring w) (occurrences kind p))
    (whitespaceTokens kind letters).

(** The paper is a favorite ([paper.favorite] is truthy). *)
Definition Favorite (p : paper) : Prop := toBoolean (prop p "favorite") = true.

(** The conjunct of the favorites toggle. *)
Definition Shown (showFavorites : bool) (p : paper) : Prop :=
  showFavorites = true -> Favorite p.

(** A paper has the shape the filter of a kind relies on: for a tag query
    its [tags] is an array of strings, for a code query its [codeLink] is a
    string or falsy. *)
Definition wellShaped (kind : queryKind) (p : paper) : bool :=
  match kind with
  | TagQuery =>
      match prop p "tags" with
      | JArr l => forallb isString l
      | _ => false
      end
  | CodeQuery =>
      negb (toBoolean (prop p "codeLink")) || isString (prop p "codeLink")
  | TextQuery | YearQuery => true
  end.

(** A field of a text query is malformed when it is neither a string nor an
    array. *)
Definition malformed (v : jsval) : bool := negb (isString v || isArray v).

(** The paper with each malformed searchable field replaced by the empty
    string. *)
Definition sanitize (p : paper) : paper :=
  foldr (fun key q => if malformed (prop p key) then <[key := JStr ""]> q else q)
    p contentKeys.

(** The year of a paper as the year filter reads it. *)
Definition paperYear (p : paper) : option Z := parseInt (prop p "year").

(** The year filter's relation between a target year and the paper's year,
    as the code has it. *)
Definition yearRelation (c : condition) (target year : Z) : Prop :=
  match c with
  | Smaller => (year < target)%Z
  | Greater => (target < year)%Z
  | Equal => target = year
  end.

(** The relation of the year filter between a target of the query and the
    year of the paper; it fails when either is [NaN]. *)
Definition yearHolds (c : condition) (target year : option Z) : Prop :=
  match target, year with
  | Some y, Some py => yearRelation c y py
  | _, _ => False
  end.

(** Some target year of the query stands in the relation of its mode to the
    year of the paper. *)
Definition YearMatches (letters : string) (p : paper) : Prop :=
  Exists (fun target => yearHolds (yearCondition letters) target (paperYear p))
    (searchYears letters).

(** What [searchMemory] logs for one paper. *)
Definition contentLogs (p : paper) : list logEntry :=
  flat_map (fun key =>
      if malformed (prop p key)
      then [LogError ("searchMemory: non-string & non-array content for key " +:+ key);
            LogPaper p]
      else [])
    contentKeys.

(** The rows that the templates of a list of papers give, a paper whose
    template throws giving none; and what is logged for those. *)
Definition renderedRows (render : paper -> exn + string) (l : list paper)
    : list string :=
  flat_map (fun p => match render p with inr html => [html] | inl _ => [] end) l.

Definition renderLogs (render : paper -> exn + string) (l : list paper)
    : list logEntry :=
  flat_map (fun p =>
      match render p with
      | inr _ => []
      | inl e => [LogText "displayMemoryTable error:"; LogExn e; LogPaper p]
      end) l.

(** After the first page and any number of triggers, the table holds the
    rows of the first [(cursor + 1) * memoryItemsPerPage] papers. *)
Definition paged (render : paper -> exn + string) (l : list paper) (n c : nat)
    (st : state) : Prop :=
  papersList st = l /\ memoryItemsPerPage st = n /\
  currentMemoryPagination st = c /\
  memoryTable st = renderedRows render (take ((c + 1) * n) l).

(** The scroll position is near the end of the table. *)
Definition nearBottom (v : viewport) : Prop :=
  tableElement v = true /\ (Z.abs (bottom v - height v) < height v)%Z.

(** The condition under which the filter of a kind keeps a paper. *)
Definition Keeps (kind : queryKind) (letters : string) (fav : bool) (p : paper) : Prop :=
  match kind with
  | YearQuery => YearMatches letters p
  | _ => Matches kind letters p /\ Shown fav p
  end.

(** What a filter pass of a kind writes to the console. *)
Definition searchLogs (kind : queryKind) (letters : string) (l : list paper)
    : list logEntry :=
  match kind with
  | TextQuery => flat_map contentLogs l
  | YearQuery => [LogYears "searchYears: " (searchYears letters)]
  | TagQuery | CodeQuery => []
  end.

End Spec.

Export Spec.

(* ===================================================================== *)
(** * A small library, used to run the code on concrete inputs *)
(* ===================================================================== *)

Module Samples.

Definition samplePaper (id year : string) (tags : list string) (favorite : bool)
    : paper :=
  <["id" := JStr id]>
    (<["year" := JStr year]>
       (<["tags" := JArr (List.map JStr tags)]>
          (<["favorite" := JBool favorite]> ∅))).

Definition paper2019 : paper := samplePaper "1901.00001" "2019" ["nlp"] false.
Definition paper2021 : paper := samplePaper "2101.00002" "2021" ["cv"] true.
Definition paper2023 : paper := samplePaper "2301.00003" "2023" ["nlp"; "cv"] false.

(** A paper whose [tags] property is missing. *)
Definition paperNoTags : paper :=
  <["id" := JStr "2201.00004"]> (<["year" := JStr "2022"]> ∅).

(** A paper tagged ["gan"] and ["vae"]. *)
Definition paperGan : paper := samplePaper "1406.2661" "2014" ["gan"; "vae"] false.

(** A paper with an empty array of tags. *)
Definition paperUntagged : paper := <["tags" := JArr []]> paperNoTags.

(** A paper with a title. *)
Definition paperTitled : paper := <["title" := JStr "Deep learning"]> paper2019.

(** The words "deep" and "learning" with a tab between them. *)
Definition deepTabLearning : string :=
  "deep" +:+ String (ascii_of_nat 9) "learning".

Definition stateOf (sorted : list paper) (showFavorites : bool) : state :=
  mkState ∅ sorted [] showFavorites "lastOpenDate" 0 100 [] [].

Definition library : list paper := [paper2019; paper2021; paper2023].

(** [n] papers, numbered from 0. *)
Definition manyPapers (n : nat) : list paper :=
  List.map (fun i => <["id" := JNum (Z.of_nat i)]> (∅ : paper)) (seq 0 n).

(** A template that never throws. *)
Definition idTemplate (p : paper) : exn + string := inr (toString (prop p "id")).

(** A stored library: the three papers under their ids. *)
Definition store : gmap string paper :=
  <["1901.00001" := paper2019]>
    (<["2101.00002" := <["favoriteDate" := JStr "2024-01-01T00:00:00.000Z"]> paper2021]>
       (<["2301.00003" := paper2023]> ∅)).

Definition storeState : state :=
  mkState store library library false "favoriteDate" 0 100 [] [].




(** A bridge in the manner of AnkiConnect: it keeps the names of the decks
    and the notes, and refuses a note whose front is already in its deck
    unless the note allows duplicates. *)
Definition sameCard (n m : Anki.note) : bool :=
  String.eqb (Anki.deckName n) (Anki.deckName m)
  && String.eqb (Anki.Front (Anki.fields n)) (Anki.Front (Anki.fields m)).

Definition sampleBridge : Anki.bridge (list string * list Anki.note) :=
  fun s req =>
    let '(decks, notes) := s in
    match Anki.reqParams req with
    | Anki.NoParams =>
        if String.eqb (Anki.action req) "deckNames"
        then (Anki.Data (JArr (List.map JStr decks)) JNull, s)
        else (Anki.Data JNull (JStr "unsupported action"), s)
    | Anki.DeckParams deck =>
        if String.eqb (Anki.action req) "createDeck"
        then (Anki.Data (JNum 1) JNull, (decks ++ [deck], notes))
        else (Anki.Data JNull (JStr "unsupported action"), s)
    | Anki.NoteParams n =>
        if String.eqb (Anki.action req) "addNote"
        then
          if negb (Anki.allowDuplicate (Anki.options n)) && existsb (sameCard n) notes
          then (Anki.Data JNull (JStr Anki.duplicateMessage), s)
          else (Anki.Data (JNum (Z.of_nat (length notes))) JNull, (decks, notes ++ [n]))
        else (Anki.Data JNull (JStr "unsupported action"), s)
    end.

(** The [id]s of a list of papers, in its order. *)
Definition paperIds (l : list paper) : list jsval :=
  List.map (fun p => prop p "id") l.

End Samples.

(* ===================================================================== *)
(** * Further notions about queries *)
(* ===================================================================== *)

Module Queries.

(** The prefix with which the search handler marks a query of a kind. *)
Definition prefix (kind : queryKind) : string :=
  match kind with
  | TextQuery => ""
  | TagQuery => "t:"
  | YearQuery => "y:"
  | CodeQuery => "c:"
  end.

(** Every code unit of [s] is a decimal digit. *)
Fixpoint allDigits (s : string) : bool :=
  match s with
  | EmptyString => true
  | String c r =>
      match digitOf c with Some _ => true | None => false end && allDigits r
  end.

(** The number that a string of decimal digits denotes. *)
Definition decimal (s : string) : Z := readDigits 0 s.

End Queries.

Export Queries.

(* ===================================================================== *)
(** * Saving and the handlers of the table *)
(* ===================================================================== *)

Module Handlers.

(** [s.trimEnd()] and [s.trim()]. *)
Fixpoint trimEnd (s : string) : string :=
  match s with
  | EmptyString => EmptyString
  | String c r =>
      match trimEnd r with
      | EmptyString => if isWhiteSpace c then EmptyString else String c EmptyString
      | t => String c t
      end
  end.

Definition trim (s : string) : string := trimEnd (trimStart s).

(** The first and the last code unit of a string. *)
Definition firstChar (s : string) : option ascii :=
  match s with String c _ => Some c | EmptyString => None end.

Fixpoint lastChar (s : string) : option ascii :=
  match s with
  | EmptyString => None
  | String c EmptyString => Some c
  | String _ r => lastChar r
  end.

(** The body of [saveNote(id, note)] up to the write to storage. *)
Definition saveNote (id note : string) : M unit :=
  assignPaperProp id "note" (JStr note).

(** The body of [saveCodeLink(id, codeLink)] up to the write to storage. *)
Definition saveCodeLink (id codeLink : string) : M unit :=
  let codeLink := trim codeLink in
  assignPaperProp id "codeLink" (JStr codeLink).

(** The element an event of the table comes from: its [dataset.paperId], its
    [value] and its [dataset.originalValue] ([None] is [undefined]). *)
Record target : Type := mkTarget {
  paperId : option string;
  value : string;
  originalValue : option string
}.

(** [!paperId]. *)
Definition noPaperId (t : target) : bool :=
  match paperId t with
  | None => true
  | Some id => String.eqb id ""
  end.

Definition idOf (t : target) : string := default "" (paperId t).



Section Open.

(** The address to open, [paperToPDF(paper)] or [paperToAbs(paper)]
    according to the preferences; these are not part of memory.js, and may
    throw. *)
Variable paperUrl : paper -> exn + string.

(** The same on the object that [papers] inherits under a name. *)
Variable inheritedUrl : string -> exn + string.


End Open.

(** The tags of a comma-separated string:
    [newValue ? newValue.split(',').map(tag => tag.trim()).filter(tag => tag) : []]. *)
Definition parseTagList (newValue : string) : list string :=
  if negb (String.eqb newValue "")
  then List.filter (fun tag => negb (String.eqb tag ""))
         (List.map trim (split "," newValue))
  else [].

(** What an edit of the table leaves: the element with its
    [dataset.originalValue], and the feedback shown, if any. *)
Record edited : Type := mkEdited {
  element : target;
  feedback : option string
}.

(** [newValue === originalValue]. *)
Definition sameAsOriginal (newValue : string) (t : target) : bool :=
  match originalValue t with
  | Some o => String.eqb newValue o
  | None => false
  end.

(** [handleTagsEditTable(event)]. Under an inherited name the tags are set
    on the inherited object, and the edit is reported all the same. *)
Definition handleTagsEditTable (t : target) : M edited :=
  let newValue := trim (value t) in
  if noPaperId t || sameAsOriginal newValue t then mret (mkEdited t None)
  else
    st ← get;
    match papers st !! idOf t with
    | None =>
        if inherited (idOf t)
        then mret (mkEdited (mkTarget (paperId t) (value t) (Some newValue))
                     (Some "Tags updated!"))
        else mret (mkEdited t None)
    | Some _ =>
        assignPaperProp (idOf t) "tags" (JArr (List.map JStr (parseTagList newValue)));;
        mret (mkEdited (mkTarget (paperId t) (value t) (Some newValue))
                (Some "Tags updated!"))
    end.

(** [handleNoteEditTable(event)]. Under an inherited name the note is set
    on the inherited object, and the edit is reported all the same. *)
Definition handleNoteEditTable (t : target) : M edited :=
  let newValue := trim (value t) in
  if noPaperId t || sameAsOriginal newValue t then mret (mkEdited t None)
  else
    st ← get;
    match papers st !! idOf t with
    | None =>
        if inherited (idOf t)
        then mret (mkEdited (mkTarget (paperId t) (value t) (Some newValue))
                     (Some "Note updated!"))
        else mret (mkEdited t None)
    | Some _ =>
        assignPaperProp (idOf t) "note" (JStr newValue);;
        mret (mkEdited (mkTarget (paperId t) (value t) (Some newValue))
                (Some "Note updated!"))
    end.

(** The delay between a keystroke and the search, as [makeMemoryHTML]
    chooses it from the number of papers listed. *)
Definition searchDelay (st : state) : nat :=
  if (length (papersList st) <? 20)%nat then 0
  else if (length (papersList st) <? 100)%nat then 150
  else 300.

End Handlers.

Export Handlers.

Module Trimmed.

(** Neither end of the string is white space. *)
Definition trimmed (s : string) : Prop :=
  (forall c, firstChar s = Some c -> isWhiteSpace c = false) /\
  (forall c, lastChar s = Some c -> isWhiteSpace c = false).

(** A tag as the table's tag editor stores it: not empty, trimmed and free
    of commas. *)
Definition cleanTag (tag : string) : Prop :=
  tag <> "" /\ trimmed tag /\ hasChar "," tag = false.

(** The state after the first display and [k] triggers of
    [displayOnScroll] at the position [v]. *)
Definition afterScrolls (render : paper -> exn + string) (v : viewport) (k : nat)
    (st : state) : state :=
  Nat.iter k (exec (displayOnScroll render v)) (exec (displayMemoryTable render 0) st).

End Trimmed.

Export Trimmed.

(* ===================================================================== *)
(** * The rest of the AnkiConnect client, and the form that uses it *)
(* ===================================================================== *)

Module AnkiView.

Import Anki.

(** [try { m } catch (error) { h(error) }]. *)
Fixpoint catch {A} (m : prog A) (h : error -> prog A) : prog A :=
  match m with
  | Ret a => Ret a
  | Raise e => h e
  | Fetch req k => Fetch req (fun r => catch (k r) h)
  | Console msg k => Console msg (catch k h)
  end.

(** [error.message]. *)
Definition messageOf (e : error) : string :=
  match e with
  | FetchError reason => reason
  | Error msg => msg
  | TypeError what => what
  end.

Definition getAnkiConnectVersion : prog jsval := ankiRequest "version" NoParams.

Definition isAnkiConnectAvailable : prog bool :=
  catch (ankiRequest "version" NoParams;; Ret true)
        (fun _ => Console "AnkiConnect not available:" (Ret false)).

(** The object that [getAnkiStatus] returns. *)
Inductive status : Type :=
  | Available (version : jsval) (deckCount : nat) (hasArxivDeck : bool) (decks : jsval)
  | Unavailable (error : string).

(** [deckNames.length], of an array or a string. *)
Definition lengthOf (v : jsval) : nat :=
  match v with
  | JArr l => length l
  | JStr s => String.length s
  | _ => 0
  end.

Definition getAnkiStatus : prog status :=
  catch
    (version ← getAnkiConnectVersion;
     deckNames ← getDeckNames;
     hasArxivDeck ← includesArxiv deckNames;
     Ret (Available version (lengthOf deckNames) hasArxivDeck deckNames))
    (fun error => Ret (Unavailable (messageOf error))).

(** The reply to [deckNames] tells that there is no deck "arxiv". *)
Definition lacksArxiv (r : reply) : bool :=
  match r with
  | Data names err =>
      negb (toBoolean err) &&
      match includesArxiv names with
      | Ret present => negb present
      | _ => false
      end
  | _ => false
  end.

(** The reply carries a result and no error. *)
Definition answered (r : reply) : bool :=
  match r with
  | Data _ err => negb (toBoolean err)
  | _ => false
  end.

(** ** The short title *)

(** [s.split(/\s+/)]: the pieces between the runs of white space; [inRun]
    tells that the code unit before was white space. *)
Fixpoint splitRuns (inRun : bool) (s : string) : list string :=
  match s with
  | EmptyString => [EmptyString]
  | String c r =>
      if isWhiteSpace c
      then if inRun then splitRuns true r else EmptyString :: splitRuns true r
      else match splitRuns false r with
           | [] => [String c EmptyString]
           | w :: ws => String c w :: ws
           end
  end.

Definition splitWhiteSpace (s : string) : list string := splitRuns false s.

(** [createShortTitle(title)] for a string. *)
Definition createShortTitle (title : string) : string :=
  if String.eqb title "" then ""
  else
    let textToProcess :=
      if includes title ":"
      then trim (List.hd "" (split ":" title))
      else title in
    let words := splitWhiteSpace textToProcess in
    String.concat " " (slice 0 3 words).

(** How often [c] occurs in [s]. *)
Fixpoint countChar (c : ascii) (s : string) : nat :=
  match s with
  | EmptyString => 0
  | String a r => (if Ascii.eqb a c then 1 else 0) + countChar c r
  end.

(** ** Adding a card *)

(** What [showAnkiStatus(message, type)] shows. *)
Record shown : Type := mkShown { message : string; kind : string }.

(** The double quote, as a string. *)
Definition quote : string := String (ascii_of_nat 34) EmptyString.

(** The separator of the parts of the metadata (a bullet between spaces, in
    UTF-8). *)
Definition bullet : string := " • ".

Section Form.

(** [arxivIdFromPaperID], which is not part of anki-view.js. *)
Variable arxivIdFromPaperID : jsval -> jsval.

(** [createShortTitle(paper.title || 'Unknown Title')] on any value: what is
    not a string has no [split]. *)
Definition shortTitleOf (title : jsval) : prog string :=
  match (if toBoolean title then title else JStr "Unknown Title") with
  | JStr s => Ret (createShortTitle s)
  | JArr _ => Raise (TypeError "title.split is not a function")
  | _ => Raise (TypeError "title.includes is not a function")
  end.

(** The address of the link of the metadata, [None] for [null]. *)
Definition metadataUrl (p : paper) : option jsval :=
  if (match prop p "source" with JStr s => String.eqb s "arxiv" | _ => false end)
     && toBoolean (prop p "id")
  then
    let arxivId := arxivIdFromPaperID (prop p "id") in
    if toBoolean arxivId
    then Some (JStr ("https://arxiv.org/abs/" +:+ toString arxivId))
    else None
  else if toBoolean (prop p "url") then Some (prop p "url")
  else if toBoolean (prop p "pdfLink") then Some (prop p "pdfLink")
  else None.

(** [createShortPaperMetadata(paper)]; [None] is the paper [null]. *)
Definition createShortPaperMetadata (paper : option paper) : prog string :=
  match paper with
  | None => Raise (TypeError "Cannot read properties of null (reading 'title')")
  | Some p =>
      shortTitle ← shortTitleOf (prop p "title");
      let parts1 :=
        if negb (String.eqb shortTitle "")
        then ["<strong>" +:+ shortTitle +:+ "</strong>"] else [] in
      let parts2 :=
        if toBoolean (prop p "year") then parts1 ++ [toString (prop p "year")]
        else parts1 in
      let parts3 :=
        if toBoolean (prop p "venue") then parts2 ++ [toString (prop p "venue")]
        else parts2 in
      let parts4 :=
        match metadataUrl p with
        | Some url =>
            if toBoolean url
            then parts3 ++ ["<a href=" +:+ quote +:+ toString url +:+ quote
                            +:+ " target=" +:+ quote +:+ "_blank" +:+ quote
                            +:+ ">Link</a>"]
            else parts3
        | None => parts3
        end in
      Ret (if (0 <? length parts4)%nat
           then "<small>" +:+ String.concat bullet parts4 +:+ "</small>"
           else "")
  end.

(** The tags of the card: those typed, then the two default ones, then the
    paper's arXiv tag. *)
Definition cardTags (tags : string) (paper : option paper) : prog (list jsval) :=
  let tagList :=
    (if negb (String.eqb tags "")
     then List.filter (fun t => negb (String.eqb t "")) (List.map trim (split "," tags))
     else [])
    ++ ["arxiv"; "papermemory"] in
  match paper with
  | None => Raise (TypeError "Cannot read properties of null (reading 'source')")
  | Some p =>
      if (match prop p "source" with JStr s => String.eqb s "arxiv" | _ => false end)
         && toBoolean (prop p "id")
      then Ret (List.map JStr (tagList ++ ["arxiv:" +:+ toString (prop p "id")]))
      else Ret (List.map JStr tagList)
  end.

(** [handleAddToAnki()], given the values of the three fields of the form
    and [ankiViewState]; it returns what it shows, in order. Closing the
    view after a success is left out. *)
Definition handleAddToAnki (questionField answerField tagsField : string)
    (capturedImage : option string) (currentPaper : option paper)
    : prog (list shown) :=
  let question := trim questionField in
  let answer := trim answerField in
  let tags := trim tagsField in
  let hasImage :=
    match capturedImage with Some img => negb (String.eqb img "") | None => false end in
  if String.eqb question "" && negb hasImage
  then Ret [mkShown "Please add either a question or capture an image" "error"]
  else if String.eqb answer ""
  then Ret [mkShown "Please add an answer" "error"]
  else
    catch
      (shortMetadata ← createShortPaperMetadata currentPaper;
       let front1 :=
         if negb (String.eqb shortMetadata "") then shortMetadata +:+ "<br><br>" else "" in
       let front2 :=
         if hasImage
         then front1 +:+ "<img src=" +:+ quote +:+ default "" capturedImage +:+ quote
              +:+ "><br><br>"
         else front1 in
       let frontContent :=
         if negb (String.eqb question "") then front2 +:+ question else front2 in
       tagList ← cardTags tags currentPaper;
       addAnkiCard "arxiv" frontContent answer tagList currentPaper;;
       Ret [mkShown "Adding card to Anki..." "info";
            mkShown "Card added to Anki successfully!" "success"])
      (fun error =>
         Console "Failed to add card to Anki:"
           (Ret [mkShown "Adding card to Anki..." "info";
                 mkShown ("Failed to add card to Anki: " +:+ messageOf error) "error"])).

End Form.

End AnkiView.

Module AnkiFacts.

Import Anki.

(** The values a client function may return, over all replies. *)
Inductive returns {A} : prog A -> A -> Prop :=
  | returns_here a : returns (Ret a) a
  | returns_later req k r a : returns (k r) a -> returns (Fetch req k) a
  | returns_console msg k a : returns k a -> returns (Console msg k) a.

(** The number of white-space code units of [s]. *)
Fixpoint whiteSpaces (s : string) : nat :=
  match s with
  | EmptyString => 0
  | String c r => (if isWhiteSpace c then 1 else 0) + whiteSpaces r
  end.

(** A bridge that answers every request with the one deck "arxiv". *)
Definition obligingBridge : bridge unit :=
  fun s _ => (Data (JArr [JStr "arxiv"]) JNull, s).

End AnkiFacts.

Export AnkiFacts.

Import Samples.

(* ===================================================================== *)
(** * The primitives on examples *)
(* ===================================================================== *)

Example toLowerCase_ex : toLowerCase "T:GaN Vae" = "t:gan vae".
Proof. reflexivity. Qed.

Example split_ex : split " " "cli  ga" = ["cli"; ""; "ga"].
Proof. reflexivity. Qed.

Example split_empty_ex : split " " "" = [""].
Proof. reflexivity. Qed.

Example includes_ex : includes "gan" "ga" = true /\ includes "vae" "ga" = false.
Proof. split; reflexivity. Qed.

Example replaceFirst_ex : replaceFirst "t:" "" "t:a t:b" = "a t:b".
Proof. reflexivity. Qed.

Example parseInt_ex :
  parseInt (JStr " 2021abc") = Some 2021%Z /\ parseInt (JStr "abcd") = None /\
  parseInt (JNum 2019) = Some 2019%Z /\ parseInt JUndefined = None /\
  parseInt (JStr "-07") = Some (-7)%Z.
Proof. repeat split; reflexivity. Qed.

Example toDouble_ex :
  toDouble 9007199254740991 = 9007199254740991%Z /\
  toDouble 9007199254740993 = 9007199254740992%Z /\
  toDouble 9007199254740995 = 9007199254740996%Z /\
  parseInt (JStr "209007199254740993") = Some 209007199254740992%Z.
Proof. repeat split; vm_compute; reflexivity. Qed.

Example join_ex : join " " [JStr "nlp"; JNull; JNum 3] = "nlp  3".
Proof. reflexivity. Qed.

(* ===================================================================== *)
(** * Properties of the string primitives *)
(* ===================================================================== *)

Lemma append_nil (t : string) : "" +:+ t = t.
Proof. reflexivity. Qed.

Lemma append_cons (a : ascii) (s t : string) :
  String a s +:+ t = String a (s +:+ t).
Proof. reflexivity. Qed.

Ltac string_simpl := rewrite ?append_cons, ?append_nil in *; simpl in *.

Lemma startsWith_app (w post : string) : startsWith (w +:+ post) w = true.
Proof.
  induction w as [|a w IH]; string_simpl; [reflexivity |].
  now rewrite Ascii.eqb_refl, IH.
Qed.

Lemma startsWith_inv (s w : string) :
  startsWith s w = true -> exists post, s = w +:+ post.
Proof.
  revert s. induction w as [|a w IH]; intros s H; simpl in *.
  - now exists s.
  - destruct s as [|b s]; [discriminate |].
    apply andb_true_iff in H as [Hab Hr].
    apply Ascii.eqb_eq in Hab. subst b.
    destruct (IH _ Hr) as [post ->]. now exists post.
Qed.

Lemma includes_unfold (s w : string) :
  includes s w =
  startsWith s w || match s with EmptyString => false | String _ s' => includes s' w end.
Proof. destruct s; reflexivity. Qed.

Lemma includes_Substring (s w : string) : includes s w = true <-> Substring w s.
Proof.
  split.
  - induction s as [|c s IH]; rewrite includes_unfold; intros H;
      apply orb_true_iff in H as [H|H]; try discriminate.
    + apply startsWith_inv in H as [post ->]. now exists "", post.
    + apply startsWith_inv in H as [post ->]. now exists "", post.
    + destruct (IH H) as (pre & post & ->). now exists (String c pre), post.
  - intros (pre & post & ->).
    induction pre as [|c pre IH]; rewrite includes_unfold.
    + rewrite append_nil. now rewrite startsWith_app.
    + rewrite append_cons. rewrite IH. apply orb_true_r.
Qed.

Lemma includes_empty (s : string) : includes s "" = true.
Proof. apply includes_Substring. now exists "", s. Qed.

Lemma indexOfFrom_includes (s w : string) (i : Z) :
  (0 <= i)%Z -> (0 <=? indexOfFrom s w i)%Z = includes s w.
Proof.
  revert i. induction s as [|c s IH]; intros i Hi; simpl.
  - destruct (startsWith "" w); simpl; [now apply Z.leb_le | reflexivity].
  - destruct (startsWith (String c s) w); simpl; [now apply Z.leb_le |].
    apply IH. lia.
Qed.

Lemma indexOf_includes (s w : string) : (0 <=? indexOf s w)%Z = includes s w.
Proof. apply indexOfFrom_includes. lia. Qed.

#[global] Instance Substring_dec (w s : string) : Decision (Substring w s).
Proof.
  destruct (includes s w) eqn:E.
  - left. now apply includes_Substring.
  - right. intros H. apply includes_Substring in H. congruence.
Defined.

(** [split] is the inverse of joining with the separator, and no piece holds
    the separator. *)
Lemma split_nonempty (sep : ascii) (s : string) : split sep s <> [].
Proof.
  induction s as [|c s IH]; simpl; [discriminate |].
  destruct (Ascii.eqb c sep); [discriminate |].
  destruct (split sep s); [contradiction | discriminate].
Qed.

Lemma concat_cons_char (sep : string) (c : ascii) (w : string) (ws : list string) :
  String.concat sep (String c w :: ws) = String c (String.concat sep (w :: ws)).
Proof. destruct ws; reflexivity. Qed.

Lemma split_concat (sep : ascii) (s : string) :
  String.concat (String sep "") (split sep s) = s.
Proof.
  induction s as [|c s IH]; simpl; [reflexivity |].
  pose proof (split_nonempty sep s) as Hne.
  destruct (Ascii.eqb c sep) eqn:E.
  - apply Ascii.eqb_eq in E. subst c.
    destruct (split sep s) as [|w ws]; [contradiction |].
    change (String sep "" +:+ String.concat (String sep "") (w :: ws) = String sep s).
    now rewrite IH.
  - destruct (split sep s) as [|w ws]; [contradiction |].
    rewrite concat_cons_char. now rewrite IH.
Qed.

Lemma split_no_separator (sep : ascii) (s : string) :
  Forall (fun w => hasChar sep w = false) (split sep s).
Proof.
  induction s as [|c s IH]; simpl.
  - repeat constructor.
  - destruct (Ascii.eqb c sep) eqn:E.
    + constructor; [reflexivity | exact IH].
    + destruct (split sep s) as [|w ws]; [repeat constructor; simpl; now rewrite E |].
      inversion IH; subst. constructor; [simpl; now rewrite E | assumption].
Qed.


(* ===================================================================== *)
(** * Running the computations *)
(* ===================================================================== *)

Lemma bind_normal {A B} (m : M A) (f : A -> M B) (st st' : state) (a : A) :
  m st = (Normal a, st') -> (m ≫= f) st = f a st'.
Proof. intros H. unfold mbind, M_bind. now rewrite H. Qed.

Lemma bind_throw {A B} (m : M A) (f : A -> M B) (st st' : state) (e : exn) :
  m st = (Throw e, st') -> (m ≫= f) st = (Throw e, st').
Proof. intros H. unfold mbind, M_bind. now rewrite H. Qed.

Lemma addLogs_nil (st : state) : addLogs [] st = st.
Proof. destruct st. unfold addLogs, setConsole. simpl. now rewrite app_nil_r. Qed.

Lemma addLogs_addLogs (a b : list logEntry) (st : state) :
  addLogs b (addLogs a st) = addLogs (a ++ b) st.
Proof. unfold addLogs, setConsole. simpl. now rewrite app_assoc. Qed.

Lemma showFavorites_addLogs (ls : list logEntry) (st : state) :
  showFavorites (addLogs ls st) = showFavorites st.
Proof. reflexivity. Qed.

(** A loop that pushes the papers satisfying [P] and logs [logs p] at each
    paper computes the filter of its list. *)
Lemma forOf_filter (Q P : paper -> Prop) `{!forall p, Decision (P p)}
    (logs : paper -> list logEntry)
    (body : list paper -> paper -> M (list paper)) (fav : bool) (l : list paper) :
  (forall acc p st, Q p -> showFavorites st = fav ->
     body acc p st =
     (Normal (if decide (P p) then acc ++ [p] else acc), addLogs (logs p) st)) ->
  Forall Q l ->
  forall acc st, showFavorites st = fav ->
    forOf l acc body st =
    (Normal (acc ++ filter P l), addLogs (flat_map logs l) st).
Proof.
  intros Hbody HQ. induction HQ as [|p l Hp HQ IH]; intros acc st Hfav; simpl.
  - unfold mret, M_ret. now rewrite app_nil_r, addLogs_nil.
  - erewrite bind_normal by (apply Hbody; assumption).
    rewrite IH by (rewrite showFavorites_addLogs; assumption).
    rewrite addLogs_addLogs, filter_cons.
    destruct (decide (P p)); [now rewrite <- app_assoc | reflexivity].
Qed.

(** ** Tests on lists as propositions *)

Lemma forallb_Forall {A} (f : A -> bool) (P : A -> Prop) (l : list A) :
  (forall x, f x = true <-> P x) -> forallb f l = true <-> Forall P l.
Proof.
  intros H. rewrite forallb_forall, List.Forall_forall.
  split; intros G x Hx; apply H, G; assumption.
Qed.

Lemma existsb_Exists {A} (f : A -> bool) (P : A -> Prop) (l : list A) :
  (forall x, f x = true <-> P x) -> existsb f l = true <-> Exists P l.
Proof.
  intros H. rewrite existsb_exists, List.Exists_exists.
  split; intros (x & Hx & G); exists x; (split; [assumption | now apply H]).
Qed.

Lemma every_some_includes (words contents : list string) :
  forallb (fun w => existsb (fun c => includes c w) contents) words = true <->
  Forall (fun w => Exists (Substring w) contents) words.
Proof.
  apply forallb_Forall. intros w. apply existsb_Exists. intros c.
  apply includes_Substring.
Qed.

Lemma if_bool_decide {A} (b : bool) (P : Prop) `{!Decision P} (x y : A) :
  (b = true <-> P) -> (if b then x else y) = (if decide P then x else y).
Proof.
  intros H. destruct b, (decide P); try reflexivity.
  - exfalso. tauto.
  - exfalso. assert (false = true) by tauto. discriminate.
Qed.

(** [pushIfShown] pushes exactly when the favorites toggle lets the paper
    through. *)
Lemma pushIfShown_run (acc : list paper) (p : paper) (st : state) :
  pushIfShown acc p st =
  (Normal (if decide (Shown (showFavorites st) p) then acc ++ [p] else acc), st).
Proof.
  unfold pushIfShown, mbind, M_bind, get, mret, M_ret.
  assert (E : negb (showFavorites st) || toBoolean (prop p "favorite") = true <->
              Shown (showFavorites st) p).
  { unfold Shown, Favorite.
    destruct (showFavorites st), (toBoolean (prop p "favorite")); simpl;
      split; intros; try reflexivity; try discriminate; auto. }
  destruct (negb (showFavorites st) || toBoolean (prop p "favorite"));
    destruct (decide (Shown (showFavorites st) p)); try reflexivity.
  - exfalso. tauto.
  - exfalso. assert (false = true) by tauto. discriminate.
Qed.

(* ===================================================================== *)
(** * The four filters compute a filter of the sorted collection *)
(* ===================================================================== *)

#[global] Instance Matches_dec kind letters p : Decision (Matches kind letters p).
Proof. unfold Matches. apply _. Defined.

#[global] Instance Shown_dec fav p : Decision (Shown fav p).
Proof. unfold Shown, Favorite. apply _. Defined.

#[global] Instance yearHolds_dec c target year : Decision (yearHolds c target year).
Proof.
  unfold yearHolds, yearRelation.
  destruct target, year, c; apply _.
Defined.

#[global] Instance YearMatches_dec letters p : Decision (YearMatches letters p).
Proof. unfold YearMatches. apply _. Defined.

#[global] Instance Keeps_dec kind letters fav p : Decision (Keeps kind letters fav p).
Proof. destruct kind; simpl; apply _. Defined.

Lemma contentOf_run (p : paper) (key : string) (st : state) :
  contentOf p key st =
  (Normal (fieldText (prop p key)),
   addLogs (if malformed (prop p key)
            then [LogError ("searchMemory: non-string & non-array content for key " +:+ key);
                  LogPaper p]
            else []) st).
Proof.
  unfold contentOf, fieldText, malformed.
  destruct (prop p key); simpl; unfold mret, M_ret; rewrite ?addLogs_nil;
    try reflexivity;
    unfold mbind, M_bind, logError, log, emit, modify; simpl;
    unfold addLogs, setConsole; simpl; now rewrite <- app_assoc.
Qed.

Lemma mapM_contentOf (p : paper) (keys : list string) (st : state) :
  mapM (contentOf p) keys st =
  (Normal (List.map (fun key => fieldText (prop p key)) keys),
   addLogs (flat_map (fun key =>
      if malformed (prop p key)
      then [LogError ("searchMemory: non-string & non-array content for key " +:+ key);
            LogPaper p]
      else []) keys) st).
Proof.
  revert st. induction keys as [|key keys IH]; intros st; simpl.
  - unfold mret, M_ret. now rewrite addLogs_nil.
  - erewrite bind_normal by apply contentOf_run.
    erewrite bind_normal by apply IH.
    unfold mret, M_ret. now rewrite addLogs_addLogs.
Qed.

Lemma searchMemory_body (letters : string) (acc : list paper) (p : paper) (st : state) :
  (contents ← mapM (contentOf p) contentKeys;
   if forallb (fun w => existsb (fun c => includes c w) contents)
        (split " " (toLowerCase letters))
   then pushIfShown acc p
   else mret acc) st =
  (Normal (if decide (Keeps TextQuery letters (showFavorites st) p)
           then acc ++ [p] else acc),
   addLogs (contentLogs p) st).
Proof.
  erewrite bind_normal by apply mapM_contentOf.
  fold (contentLogs p).
  pose proof (every_some_includes (split " " (toLowerCase letters))
                (List.map (fun key => fieldText (prop p key)) contentKeys)) as E.
  change (Forall _ _) with (Matches TextQuery letters p) in E.
  destruct (forallb _ _).
  - rewrite pushIfShown_run. rewrite showFavorites_addLogs.
    simpl. destruct (decide (Shown (showFavorites st) p)) as [s|s];
      destruct (decide (Matches TextQuery letters p /\ Shown (showFavorites st) p)) as [k|k];
      try reflexivity; exfalso; tauto.
  - unfold mret, M_ret. simpl.
    destruct (decide (Matches TextQuery letters p /\ Shown (showFavorites st) p)) as [k|k];
      [| reflexivity].
    exfalso. destruct k as [k _]. apply E in k. discriminate.
Qed.

(** [searchMemory] always completes; it leaves in [papersList] the papers of
    [sortedPapers] it keeps, in their order, and on the console one pair of
    entries for each malformed field. *)
Lemma searchMemory_run (letters : string) (st : state) :
  searchMemory letters st =
  (Normal tt,
   setPapersList
     (filter (Keeps TextQuery letters (showFavorites st)) (sortedPapers st))
     (addLogs (searchLogs TextQuery letters (sortedPapers st)) st)).
Proof.
  unfold searchMemory.
  unfold mbind at 1, M_bind at 1, get at 1.
  erewrite bind_normal.
  2:{ apply (forOf_filter (fun _ => True)
               (Keeps TextQuery letters (showFavorites st)) contentLogs)
        with (fav := showFavorites st).
      - intros acc p st' _ Hfav. rewrite <- Hfav. apply searchMemory_body.
      - apply Forall_forall. intros; exact I.
      - reflexivity. }
  reflexivity.
Qed.

Lemma compare_yearHolds (c : condition) (y py : option Z) :
  compare c y py = true <-> yearHolds c y py.
Proof.
  unfold compare, yearHolds, yearRelation, numGt, numLt, numStrictEq.
  destruct c, y as [y|], py as [py|]; try (split; [discriminate | contradiction]).
  - apply Z.ltb_lt.
  - apply Z.ltb_lt.
  - apply Z.eqb_eq.
Qed.

Lemma searchMemoryByYear_body (letters : string) (acc : list paper) (p : paper)
    (st : state) :
  (if existsb (fun year => compare (yearCondition letters) year (parseInt (prop p "year")))
        (searchYears letters)
   then mret (acc ++ [p])
   else mret acc : M (list paper)) st =
  (Normal (if decide (YearMatches letters p) then acc ++ [p] else acc), addLogs [] st).
Proof.
  rewrite addLogs_nil.
  pose proof (existsb_Exists
    (fun year => compare (yearCondition letters) year (parseInt (prop p "year")))
    (fun target => yearHolds (yearCondition letters) target (paperYear p))
    (searchYears letters)
    (fun y => compare_yearHolds (yearCondition letters) y (paperYear p))) as E.
  fold (YearMatches letters p) in E.
  destruct (existsb _ _); destruct (decide (YearMatches letters p)) as [k|k];
    try reflexivity; exfalso.
  - apply k, E. reflexivity.
  - apply E in k. discriminate.
Qed.

Lemma flat_map_nil {A B} (l : list A) : flat_map (fun _ : A => @nil B) l = [].
Proof. induction l; simpl; auto. Qed.

(** [searchMemoryByYear] always completes; the favorites toggle plays no
    part in what it keeps. *)
Lemma searchMemoryByYear_run (letters : string) (st : state) :
  searchMemoryByYear letters st =
  (Normal tt,
   setPapersList
     (filter (Keeps YearQuery letters (showFavorites st)) (sortedPapers st))
     (addLogs (searchLogs YearQuery letters (sortedPapers st)) st)).
Proof.
  unfold searchMemoryByYear.
  unfold mbind at 1, M_bind at 1, emit at 1, modify at 1.
  unfold mbind at 1, M_bind at 1, get at 1.
  erewrite bind_normal.
  2:{ apply (forOf_filter (fun _ => True) (YearMatches letters) (fun _ => []))
        with (fav := showFavorites st).
      - intros acc p st' _ _. apply searchMemoryByYear_body.
      - apply Forall_forall. intros; exact I.
      - reflexivity. }
  rewrite flat_map_nil, addLogs_nil. reflexivity.
Qed.

Lemma mapM_tagToLowerCase (l : list jsval) (st : state) :
  forallb isString l = true ->
  mapM tagToLowerCase l st = (Normal (omap tagText l), st).
Proof.
  revert st. induction l as [|t l IH]; intros st H; simpl in *.
  - reflexivity.
  - apply andb_true_iff in H as [Ht Hl].
    destruct t; try discriminate. simpl.
    unfold mbind at 1, M_bind at 1, mret at 1, M_ret at 1.
    erewrite bind_normal by (apply IH; assumption). reflexivity.
Qed.

Lemma paperTagsOf_run (p : paper) (st : state) :
  wellShaped TagQuery p = true ->
  paperTagsOf p st = (Normal (occurrences TagQuery p), st).
Proof.
  unfold wellShaped, paperTagsOf, occurrences.
  destruct (prop p "tags"); try discriminate.
  apply mapM_tagToLowerCase.
Qed.

Lemma mapM_tagToLowerCase_throws (l : list jsval) (st : state) :
  forallb isString l = false ->
  exists e, mapM tagToLowerCase l st = (Throw e, st).
Proof.
  revert st. induction l as [|t l IH]; intros st H; simpl in *; [discriminate |].
  destruct (isString t) eqn:Et; simpl in H.
  - destruct t; try discriminate. simpl.
    unfold mbind at 1, M_bind at 1, mret at 1, M_ret at 1.
    destruct (IH st H) as [e He]. exists e.
    now erewrite bind_throw by exact He.
  - destruct t; try discriminate; simpl; eexists; reflexivity.
Qed.

Lemma paperTagsOf_throws (p : paper) (st : state) :
  wellShaped TagQuery p = false ->
  exists e, paperTagsOf p st = (Throw e, st).
Proof.
  unfold wellShaped, paperTagsOf.
  destruct (prop p "tags"); intros H; try (eexists; reflexivity).
  now apply mapM_tagToLowerCase_throws.
Qed.

Lemma tag_test (tags paperTags : list string) :
  forallb (fun t => existsb (fun pt => (0 <=? indexOf pt t)%Z) paperTags) tags = true <->
  Forall (fun w => Exists (Substring w) paperTags) tags.
Proof.
  apply forallb_Forall. intros w. apply existsb_Exists. intros c.
  rewrite indexOf_includes. apply includes_Substring.
Qed.

Lemma keep_or_not {A} (b : bool) (M S K : Prop) `{!Decision S, !Decision K}
    (x y : A) :
  (b = true <-> M) -> (K <-> M /\ S) ->
  (if b then (if decide S then x else y) else y) =
  (if decide K then x else y).
Proof.
  intros E EK. destruct b; destruct (decide S); destruct (decide K);
    try reflexivity; exfalso; try tauto.
  all: assert (false = true) by tauto; discriminate.
Qed.

Lemma searchMemoryByTags_body (letters : string) (acc : list paper) (p : paper)
    (st : state) :
  wellShaped TagQuery p = true ->
  (paperTags ← paperTagsOf p;
   if forallb (fun t => existsb (fun pt => (0 <=? indexOf pt t)%Z) paperTags)
        (split " " (toLowerCase (replaceFirst "t:" "" letters)))
   then pushIfShown acc p
   else mret acc) st =
  (Normal (if decide (Keeps TagQuery letters (showFavorites st) p)
           then acc ++ [p] else acc),
   addLogs [] st).
Proof.
  intros Hw. rewrite addLogs_nil.
  erewrite bind_normal by (apply paperTagsOf_run; assumption).
  pose proof (tag_test (split " " (toLowerCase (replaceFirst "t:" "" letters)))
                (occurrences TagQuery p)) as E.
  change (Forall _ _) with (Matches TagQuery letters p) in E.
  rewrite <- (keep_or_not _ _ (Shown (showFavorites st) p) _ _ _ E)
    by reflexivity.
  destruct (forallb _ _); [apply pushIfShown_run | reflexivity].
Qed.

(** On papers whose [tags] are arrays of strings [searchMemoryByTags]
    completes with the filter of the sorted collection. *)
Lemma searchMemoryByTags_run (letters : string) (st : state) :
  Forall (fun p => wellShaped TagQuery p = true) (sortedPapers st) ->
  searchMemoryByTags letters st =
  (Normal tt,
   setPapersList
     (filter (Keeps TagQuery letters (showFavorites st)) (sortedPapers st))
     (addLogs (searchLogs TagQuery letters (sortedPapers st)) st)).
Proof.
  intros Hw. unfold searchMemoryByTags.
  unfold mbind at 1, M_bind at 1, get at 1.
  erewrite bind_normal.
  2:{ apply (forOf_filter (fun p => wellShaped TagQuery p = true)
               (Keeps TagQuery letters (showFavorites st)) (fun _ => []))
        with (fav := showFavorites st).
      - intros acc p st' Hp Hfav. rewrite <- Hfav.
        now apply searchMemoryByTags_body.
      - exact Hw.
      - reflexivity. }
  rewrite flat_map_nil. reflexivity.
Qed.

Lemma paperCodeOf_run (p : paper) (st : state) :
  wellShaped CodeQuery p = true ->
  paperCodeOf p st = (Normal (codeText (prop p "codeLink")), st).
Proof.
  unfold wellShaped, paperCodeOf, codeText.
  destruct (prop p "codeLink") as [| |b|n|s|l]; simpl; try reflexivity;
    try discriminate.
  - destruct b; [discriminate | reflexivity].
  - destruct (n =? 0)%Z; [reflexivity | discriminate].
  - destruct (String.eqb s "") eqn:E; simpl; [| reflexivity].
    apply String.eqb_eq in E. now subst s.
Qed.

Lemma paperCodeOf_throws (p : paper) (st : state) :
  wellShaped CodeQuery p = false ->
  exists e, paperCodeOf p st = (Throw e, st).
Proof.
  unfold wellShaped, paperCodeOf.
  destruct (prop p "codeLink") as [| |b|n|s|l]; simpl; try discriminate.
  - destruct b; [eexists; reflexivity | discriminate].
  - destruct (n =? 0)%Z; [discriminate | eexists; reflexivity].
  - destruct (String.eqb s ""); discriminate.
  - eexists; reflexivity.
Qed.

Lemma code_test (words : list string) (code : string) :
  forallb (fun w => includes code w) words = true <->
  Forall (fun w => Exists (Substring w) [code]) words.
Proof.
  apply forallb_Forall. intros w. rewrite includes_Substring.
  split.
  - intros H. now constructor.
  - intros H. inversion H as [? ? H1|? ? H1]; subst; [exact H1 | inversion H1].
Qed.

Lemma searchMemoryByCode_body (letters : string) (acc : list paper) (p : paper)
    (st : state) :
  wellShaped CodeQuery p = true ->
  (paperCode ← paperCodeOf p;
   if forallb (fun w => includes paperCode w)
        (split " " (toLowerCase (replaceFirst "c:" "" letters)))
   then pushIfShown acc p
   else mret acc) st =
  (Normal (if decide (Keeps CodeQuery letters (showFavorites st) p)
           then acc ++ [p] else acc),
   addLogs [] st).
Proof.
  intros Hw. rewrite addLogs_nil.
  erewrite bind_normal by (apply paperCodeOf_run; assumption).
  pose proof (code_test (split " " (toLowerCase (replaceFirst "c:" "" letters)))
                (codeText (prop p "codeLink"))) as E.
  change (Forall _ _) with (Matches CodeQuery letters p) in E.
  rewrite <- (keep_or_not _ _ (Shown (showFavorites st) p) _ _ _ E)
    by reflexivity.
  destruct (forallb _ _); [apply pushIfShown_run | reflexivity].
Qed.

(** On papers whose [codeLink] is a string or falsy [searchMemoryByCode]
    completes with the filter of the sorted collection. *)
Lemma searchMemoryByCode_run (letters : string) (st : state) :
  Forall (fun p => wellShaped CodeQuery p = true) (sortedPapers st) ->
  searchMemoryByCode letters st =
  (Normal tt,
   setPapersList
     (filter (Keeps CodeQuery letters (showFavorites st)) (sortedPapers st))
     (addLogs (searchLogs CodeQuery letters (sortedPapers st)) st)).
Proof.
  intros Hw. unfold searchMemoryByCode.
  unfold mbind at 1, M_bind at 1, get at 1.
  erewrite bind_normal.
  2:{ apply (forOf_filter (fun p => wellShaped CodeQuery p = true)
               (Keeps CodeQuery letters (showFavorites st)) (fun _ => []))
        with (fav := showFavorites st).
      - intros acc p st' Hp Hfav. rewrite <- Hfav.
        now apply searchMemoryByCode_body.
      - exact Hw.
      - reflexivity. }
  rewrite flat_map_nil. reflexivity.
Qed.

(** Every filter, on papers of the shape it relies on, completes normally
    and stores the filter of the sorted collection. *)
Lemma search_run (kind : queryKind) (letters : string) (st : state) :
  Forall (fun p => wellShaped kind p = true) (sortedPapers st) ->
  search kind letters st =
  (Normal tt,
   setPapersList
     (filter (Keeps kind letters (showFavorites st)) (sortedPapers st))
     (addLogs (searchLogs kind letters (sortedPapers st)) st)).
Proof.
  destruct kind; intros Hw; simpl search.
  - apply searchMemory_run.
  - now apply searchMemoryByTags_run.
  - apply searchMemoryByYear_run.
  - now apply searchMemoryByCode_run.
Qed.

(** A loop whose body throws at some paper, and otherwise leaves the state
    alone, throws and leaves the state alone. *)
Lemma forOf_throws {B} (ok : paper -> bool) (body : B -> paper -> M B)
    (l : list paper) :
  (forall acc p st, ok p = true -> exists acc', body acc p st = (Normal acc', st)) ->
  (forall acc p st, ok p = false -> exists e, body acc p st = (Throw e, st)) ->
  forallb ok l = false ->
  forall acc st, exists e, forOf l acc body st = (Throw e, st).
Proof.
  intros Hok Hbad. induction l as [|p l IH]; intros H acc st; simpl in *;
    [discriminate |].
  destruct (ok p) eqn:E; simpl in H.
  - destruct (Hok acc p st E) as [acc' Hrun].
    destruct (IH H acc' st) as [e He]. exists e.
    now erewrite bind_normal by exact Hrun.
  - destruct (Hbad acc p st E) as [e He]. exists e.
    now erewrite bind_throw by exact He.
Qed.

(** A tag or code pass aborts, with [papersList] as it was, as soon as one
    paper of the sorted collection has not the shape the pass relies on. *)
Lemma search_throws (kind : queryKind) (letters : string) (st : state) :
  forallb (wellShaped kind) (sortedPapers st) = false ->
  exists e, search kind letters st = (Throw e, st).
Proof.
  destruct kind; intros H; simpl search.
  - exfalso. induction (sortedPapers st); simpl in H; [discriminate | auto].
  - unfold searchMemoryByTags. unfold mbind at 1, M_bind at 1, get at 1.
    match goal with
    | |- context [forOf ?l ?acc ?body] =>
        assert (exists e, forOf l acc body st = (Throw e, st)) as [e He]
    end.
    { apply (forOf_throws (wellShaped TagQuery)); [| | exact H].
      - intros acc p st' Hp. eexists.
        rewrite searchMemoryByTags_body by assumption. now rewrite addLogs_nil.
      - intros acc p st' Hp. destruct (paperTagsOf_throws p st' Hp) as [e He].
        exists e. now erewrite bind_throw by exact He. }
    exists e. now erewrite bind_throw by exact He.
  - exfalso. induction (sortedPapers st); simpl in H; [discriminate | auto].
  - unfold searchMemoryByCode. unfold mbind at 1, M_bind at 1, get at 1.
    match goal with
    | |- context [forOf ?l ?acc ?body] =>
        assert (exists e, forOf l acc body st = (Throw e, st)) as [e He]
    end.
    { apply (forOf_throws (wellShaped CodeQuery)); [| | exact H].
      - intros acc p st' Hp. eexists.
        rewrite searchMemoryByCode_body by assumption. now rewrite addLogs_nil.
      - intros acc p st' Hp. destruct (paperCodeOf_throws p st' Hp) as [e He].
        exists e. now erewrite bind_throw by exact He. }
    exists e. now erewrite bind_throw by exact He.
Qed.

Lemma forallb_wellShaped (kind : queryKind) (l : list paper) :
  forallb (wellShaped kind) l = true ->
  Forall (fun p => wellShaped kind p = true) l.
Proof. intros H. apply List.Forall_forall. now apply forallb_forall. Qed.

(** The filtered list of a completed pass. *)
Lemma search_papersList (kind : queryKind) (letters : string) (st : state) :
  forallb (wellShaped kind) (sortedPapers st) = true ->
  search kind letters st =
    (Normal tt, exec (search kind letters) st) /\
  papersList (exec (search kind letters) st) =
    filter (Keeps kind letters (showFavorites st)) (sortedPapers st) /\
  sortedPapers (exec (search kind letters) st) = sortedPapers st /\
  showFavorites (exec (search kind letters) st) = showFavorites st /\
  console (exec (search kind letters) st) =
    console st ++ searchLogs kind letters (sortedPapers st).
Proof.
  intros H. apply forallb_wellShaped in H.
  unfold exec. rewrite (search_run kind letters st H). simpl. auto.
Qed.

Lemma wellShaped_text (l : list paper) : forallb (wellShaped TextQuery) l = true.
Proof. induction l; simpl; auto. Qed.

Lemma wellShaped_year (l : list paper) : forallb (wellShaped YearQuery) l = true.
Proof. induction l; simpl; auto. Qed.

Lemma elem_paperIds (p : paper) (l : list paper) :
  p ∈ l -> prop p "id" ∈ Samples.paperIds l.
Proof.
  intros H. unfold Samples.paperIds. apply list_elem_of_In.
  apply (in_map (fun q : paper => prop q "id")). now apply list_elem_of_In.
Qed.

(* ===================================================================== *)
(** * The year filter *)
(* ===================================================================== *)

Lemma yearCondition_smaller (letters : string) :
  yearCondition letters = Smaller <-> Substring "<" letters.
Proof.
  unfold yearCondition. rewrite <- includes_Substring.
  destruct (includes letters "<"); [tauto |].
  destruct (includes letters ">"); split; discriminate.
Qed.

Lemma yearCondition_greater (letters : string) :
  yearCondition letters = Greater <->
  ~ Substring "<" letters /\ Substring ">" letters.
Proof.
  unfold yearCondition. rewrite <- !includes_Substring.
  destruct (includes letters "<"), (includes letters ">");
    intuition (try discriminate; try congruence).
Qed.

Lemma YearMatches_exists (letters : string) (p : paper) :
  YearMatches letters p <->
  exists target year,
    Some target ∈ searchYears letters /\ paperYear p = Some year /\
    match yearCondition letters with
    | Smaller => (year < target)%Z
    | Greater => (target < year)%Z
    | Equal => target = year
    end.
Proof.
  unfold YearMatches. rewrite Exists_exists. split.
  - intros (t & Hin & Hh). unfold yearHolds in Hh.
    destruct t as [target|]; [| contradiction].
    destruct (paperYear p) as [year|]; [| contradiction].
    exists target, year. auto.
  - intros (target & year & Hin & Hy & Hrel).
    exists (Some target). split; [assumption |].
    unfold yearHolds. now rewrite Hy.
Qed.

(** C1 (as the code has it). A year query always completes, and it keeps a
    paper of the sorted collection exactly when the year of the paper stands
    in the relation of the query's mode to some target year of the query: in
    "smaller" mode (the query contains '<') the paper's year is LESS than the
    target, in "greater" mode (it contains '>' and no '<') the paper's year
    is GREATER than the target, and otherwise the two are equal. *)
Theorem searchMemoryByYear_keeps (letters : string) (st : state) :
  outcome (searchMemoryByYear letters) st = Normal tt /\
  (yearCondition letters = Smaller <-> Substring "<" letters) /\
  (yearCondition letters = Greater <->
     ~ Substring "<" letters /\ Substring ">" letters) /\
  forall p : paper,
    p ∈ papersList (exec (searchMemoryByYear letters) st) <->
    p ∈ sortedPapers st /\
    exists target year,
      Some target ∈ searchYears letters /\ paperYear p = Some year /\
      match yearCondition letters with
      | Smaller => (year < target)%Z
      | Greater => (target < year)%Z
      | Equal => target = year
      end.
Proof.
  split; [| split; [| split]].
  - unfold outcome. now rewrite searchMemoryByYear_run.
  - apply yearCondition_smaller.
  - apply yearCondition_greater.
  - intros p.
    destruct (search_papersList YearQuery letters st (wellShaped_year _))
      as (_ & E & _).
    change (search YearQuery letters) with (searchMemoryByYear letters) in E.
    rewrite E, list_elem_of_filter. unfold Keeps.
    rewrite YearMatches_exists. tauto.
Qed.

(** C1, the claim as stated fails: on the query "y:<22" the paper of 2023 is
    dropped and the paper of 2021 is kept. *)
Lemma searchMemoryByYear_not_inverted :
  let result :=
    papersList (exec (searchMemoryByYear "y:<22") (stateOf [paper2021; paper2023] false)) in
  paperIds result = [JStr "2101.00002"] /\
  ~ (paper2023 ∈ result /\ paper2021 ∉ result).
Proof.
  assert (E : paperIds (papersList (exec (searchMemoryByYear "y:<22")
                (stateOf [paper2021; paper2023] false))) = [JStr "2101.00002"])
    by (vm_compute; reflexivity).
  cbv zeta. split; [exact E |].
  intros [H _]. apply elem_paperIds in H. rewrite E in H.
  apply list_elem_of_singleton in H. vm_compute in H. discriminate.
Qed.

(* ===================================================================== *)
(** * The favorites toggle *)
(* ===================================================================== *)

(** With the toggle on, the text, tag and code filters keep favorites only. *)
Lemma favorites_only_text_tag_code (kind : queryKind) (letters : string)
    (st : state) (p : paper) :
  kind <> YearQuery ->
  forallb (wellShaped kind) (sortedPapers st) = true ->
  showFavorites st = true ->
  p ∈ papersList (exec (search kind letters) st) ->
  Favorite p /\ forall b, prop p "favorite" = JBool b -> b = true.
Proof.
  intros Hk Hw Hfav Hin.
  destruct (search_papersList kind letters st Hw) as (_ & E & _).
  rewrite E in Hin. apply list_elem_of_filter in Hin as [HK _].
  assert (F : Favorite p).
  { destruct kind; try contradiction; destruct HK as [_ HS]; now apply HS. }
  split; [exact F |].
  intros b Hb. unfold Favorite in F. now rewrite Hb in F.
Qed.

(** C2, at the failing input. With the favorites toggle on, the year query
    "y:19" keeps the paper of 2019 although it is not a favorite, while the
    tag query "t:nlp" and the text query "1901", which also match that paper,
    drop it. *)
Theorem searchMemoryByYear_ignores_showFavorites :
  let st := stateOf [paper2019; paper2021] true in
  showFavorites st = true /\
  paperIds [paper2019] = [JStr "1901.00001"] /\
  prop paper2019 "favorite" = JBool false /\
  paperIds (papersList (exec (searchMemoryByYear "y:19") st)) = [JStr "1901.00001"] /\
  paperIds (papersList (exec (searchMemoryByTags "t:nlp") st)) = [] /\
  paperIds (papersList (exec (searchMemory "1901") st)) = [].
Proof. vm_compute. repeat split; reflexivity. Qed.

(* ===================================================================== *)
(** * Tokens and fields *)
(* ===================================================================== *)

(** C3. For a text, tag or code query over papers of the shape the filter
    relies on, the pass completes and the filtered list is the sorted
    collection filtered by: every token of the operand occurs as a substring
    in at least one field occurrence of the paper (the six searchable fields
    in lower case, arrays joined; each tag in lower case; the code link in
    lower case), together with the conjunct of the favorites toggle. The
    tokens are the pieces of the lowered operand between single spaces,
    empty pieces included: no other white space separates, and an empty
    operand has the empty token. *)
Theorem search_every_token_some_field (kind : queryKind) (letters : string)
    (st : state) :
  kind <> YearQuery ->
  forallb (wellShaped kind) (sortedPapers st) = true ->
  exists st',
    search kind letters st = (Normal tt, st') /\
    papersList st' =
      filter (fun p =>
                Forall (fun w => Exists (Substring w) (occurrences kind p))
                       (tokens kind letters)
                /\ (showFavorites st = true -> Favorite p))
             (sortedPapers st).
Proof.
  intros Hk Hw.
  destruct (search_papersList kind letters st Hw) as (Hrun & E & _).
  eexists. split; [exact Hrun |].
  rewrite E. apply list_filter_iff. intros p.
  destruct kind; try contradiction; reflexivity.
Qed.

Lemma search_every_token_some_field_witness :
  exists st',
    search TagQuery "t:ga" (stateOf [paperGan; paper2021] false) = (Normal tt, st') /\
    papersList st' =
      filter (fun p =>
                Forall (fun w => Exists (Substring w) (occurrences TagQuery p))
                       (tokens TagQuery "t:ga")
                /\ (showFavorites (stateOf [paperGan; paper2021] false) = true ->
                    Favorite p))
             (sortedPapers (stateOf [paperGan; paper2021] false)).
Proof.
  apply (search_every_token_some_field TagQuery "t:ga"
           (stateOf [paperGan; paper2021] false)).
  - discriminate.
  - vm_compute. reflexivity.
Defined.

Lemma MatchesWords_computed (kind : queryKind) (letters : string) (p : paper) :
  forallb (fun w => existsb (fun s => includes s w) (occurrences kind p))
    (whitespaceTokens kind letters) = true ->
  MatchesWords kind letters p.
Proof.
  intros H. unfold MatchesWords. apply List.Forall_forall. intros w Hw.
  rewrite forallb_forall in H. specialize (H w Hw).
  apply existsb_exists in H as (s & Hs & Hi).
  apply List.Exists_exists. exists s. split; [exact Hs |].
  now apply includes_Substring.
Qed.

(** The tokens are not the words between white space. A tag query with an
    empty operand has no word, so that every paper passes as the claim
    words it, and the code drops the paper without tags; a tab between two
    words of a text query separates them for the claim, and the code looks
    for the two words and the tab in one piece. *)
Lemma search_tokens_not_whitespace_separated :
  (whitespaceTokens TagQuery "t:" = [] /\
   tokens TagQuery "t:" = [""] /\
   MatchesWords TagQuery "t:" paperUntagged /\
   paperIds (papersList (exec (search TagQuery "t:") (stateOf [paperUntagged] false)))
   = []) /\
  (whitespaceTokens TextQuery deepTabLearning = ["deep"; "learning"] /\
   tokens TextQuery deepTabLearning = [deepTabLearning] /\
   MatchesWords TextQuery deepTabLearning paperTitled /\
   paperIds (papersList (exec (search TextQuery deepTabLearning)
                           (stateOf [paperTitled] false)))
   = []) /\
  ~ (forall (kind : queryKind) (letters : string) (st : state) (p : paper),
       kind <> YearQuery ->
       forallb (wellShaped kind) (sortedPapers st) = true ->
       showFavorites st = false ->
       p ∈ sortedPapers st ->
       (p ∈ papersList (exec (search kind letters) st) <->
        MatchesWords kind letters p)).
Proof.
  assert (M1 : MatchesWords TagQuery "t:" paperUntagged)
    by (apply MatchesWords_computed; vm_compute; reflexivity).
  assert (E1 : paperIds (papersList (exec (search TagQuery "t:")
                 (stateOf [paperUntagged] false))) = [])
    by (vm_compute; reflexivity).
  split; [| split].
  - split; [vm_compute; reflexivity |]. split; [vm_compute; reflexivity |].
    split; [exact M1 | exact E1].
  - split; [vm_compute; reflexivity |]. split; [vm_compute; reflexivity |].
    split; [apply MatchesWords_computed; vm_compute; reflexivity |].
    vm_compute. reflexivity.
  - intros H.
    specialize (H TagQuery "t:" (stateOf [paperUntagged] false) paperUntagged).
    destruct H as [_ H].
    + discriminate.
    + vm_compute. reflexivity.
    + reflexivity.
    + apply list_elem_of_here.
    + specialize (H M1). apply elem_paperIds in H. rewrite E1 in H.
      inversion H.
Qed.

(** Tag matching is by substring and conjunctive: the token "ga" matches the
    tags gan, vae; the tokens "ga seg" do not. *)
Lemma tag_query_substring_example :
  paperIds (papersList (exec (searchMemoryByTags "t:ga") (stateOf [paperGan] false)))
    = [JStr "1406.2661"] /\
  paperIds (papersList (exec (searchMemoryByTags "t:ga seg") (stateOf [paperGan] false)))
    = [].
Proof. vm_compute. split; reflexivity. Qed.

(* ===================================================================== *)
(** * Empty operands *)
(* ===================================================================== *)

Lemma filter_all {A} (P : A -> Prop) `{!forall x, Decision (P x)} (l : list A) :
  (forall x, P x) -> filter P l = l.
Proof.
  intros HP. induction l as [|x l IH]; [reflexivity |].
  rewrite filter_cons. destruct (decide (P x)) as [|n]; [now rewrite IH | now destruct n].
Qed.

Lemma filter_none {A} (P : A -> Prop) `{!forall x, Decision (P x)} (l : list A) :
  (forall x, ~ P x) -> filter P l = [].
Proof.
  intros HP. induction l as [|x l IH]; [reflexivity |].
  rewrite filter_cons. destruct (decide (P x)) as [y|]; [now destruct (HP x) | exact IH].
Qed.

Lemma toLowerCase_empty : toLowerCase "" = "".
Proof. reflexivity. Qed.

Lemma Matches_empty_text (letters : string) (p : paper) :
  operand TextQuery letters = "" -> Matches TextQuery letters p.
Proof.
  intros H. unfold Matches, tokens. rewrite H. simpl.
  constructor; [| constructor].
  constructor. now exists "", (fieldText (prop p "title")).
Qed.

Lemma Matches_empty_code (letters : string) (p : paper) :
  operand CodeQuery letters = "" -> Matches CodeQuery letters p.
Proof.
  intros H. unfold Matches, tokens. rewrite H. simpl.
  constructor; [| constructor].
  constructor. now exists "", (codeText (prop p "codeLink")).
Qed.

Lemma Matches_empty_tag (letters : string) (p : paper) :
  operand TagQuery letters = "" ->
  Matches TagQuery letters p <-> occurrences TagQuery p <> [].
Proof.
  intros H. unfold Matches, tokens. rewrite H. simpl split.
  split.
  - intros HF. inversion HF as [|? ? HE _]; subst.
    intros E. rewrite E in HE. inversion HE.
  - intros Hne. constructor; [| constructor].
    destruct (occurrences TagQuery p) as [|t ts]; [contradiction |].
    constructor. now exists "", t.
Qed.

(** C4 (as the code has it). A text query or a code query with an empty
    operand, over papers of the shape the filter relies on, completes and
    leaves the whole sorted collection when the favorites toggle is off, and
    the favorites of the sorted collection when it is on. A tag query with
    an empty operand leaves, of these, the papers that have a tag; a year
    query without a target year leaves no paper. *)
Theorem search_empty_operand (letters : string) (st : state) :
  (forall kind,
     kind = TextQuery \/ kind = CodeQuery ->
     operand kind letters = "" ->
     forallb (wellShaped kind) (sortedPapers st) = true ->
     search kind letters st = (Normal tt, exec (search kind letters) st) /\
     (showFavorites st = false ->
        papersList (exec (search kind letters) st) = sortedPapers st) /\
     (showFavorites st = true ->
        papersList (exec (search kind letters) st) =
        filter Favorite (sortedPapers st))) /\
  (operand TagQuery letters = "" ->
   forallb (wellShaped TagQuery) (sortedPapers st) = true ->
   search TagQuery letters st = (Normal tt, exec (search TagQuery letters) st) /\
   papersList (exec (search TagQuery letters) st) =
     filter (fun p => occurrences TagQuery p <> [] /\
                      (showFavorites st = true -> Favorite p))
       (sortedPapers st)) /\
  (searchYears letters = [] ->
   search YearQuery letters st = (Normal tt, exec (search YearQuery letters) st) /\
   papersList (exec (search YearQuery letters) st) = []).
Proof.
  split; [| split].
  - intros kind Hkind Hop Hw.
    destruct (search_papersList kind letters st Hw) as (Hrun & E & _).
    split; [exact Hrun |]. rewrite E.
    assert (HM : forall p, Matches kind letters p).
    { intros p. destruct Hkind as [-> | ->];
        [now apply Matches_empty_text | now apply Matches_empty_code]. }
    split; intros Hfav; rewrite Hfav.
    + apply filter_all. intros p.
      destruct Hkind as [-> | ->]; (split; [apply HM | intros ?; discriminate]).
    + apply list_filter_iff. intros p. unfold Shown.
      destruct Hkind as [-> | ->]; simpl;
        (split; [intros [_ HS]; now apply HS
                | intros F; split; [apply HM | intros _; exact F]]).
  - intros Hop Hw.
    destruct (search_papersList TagQuery letters st Hw) as (Hrun & E & _).
    split; [exact Hrun |]. rewrite E.
    apply list_filter_iff. intros p. simpl. unfold Shown.
    rewrite (Matches_empty_tag letters p Hop). tauto.
  - intros Hy.
    destruct (search_papersList YearQuery letters st (wellShaped_year _))
      as (Hrun & E & _).
    split; [exact Hrun |]. rewrite E.
    apply filter_none. intros p. simpl. unfold YearMatches. rewrite Hy.
    intros H. inversion H.
Qed.

Lemma search_empty_operand_witness :
  search TextQuery "" (stateOf library true) =
    (Normal tt, exec (search TextQuery "") (stateOf library true)) /\
  papersList (exec (search TextQuery "") (stateOf library true)) =
    filter Favorite (sortedPapers (stateOf library true)) /\
  papersList (exec (search TagQuery "t:") (stateOf [paper2019; paperGan] false)) =
    filter (fun p => occurrences TagQuery p <> [] /\
                     (showFavorites (stateOf [paper2019; paperGan] false) = true ->
                      Favorite p))
       (sortedPapers (stateOf [paper2019; paperGan] false)) /\
  papersList (exec (search YearQuery "y:") (stateOf library false)) = [].
Proof.
  destruct (search_empty_operand "" (stateOf library true)) as (H1 & _ & _).
  assert (W1 : forallb (wellShaped TextQuery) (sortedPapers (stateOf library true)) = true)
    by (vm_compute; reflexivity).
  destruct (H1 TextQuery (or_introl eq_refl) eq_refl W1) as (Hrun & _ & Hon).
  destruct (search_empty_operand "t:" (stateOf [paper2019; paperGan] false))
    as (_ & H2 & _).
  assert (W2 : forallb (wellShaped TagQuery)
                 (sortedPapers (stateOf [paper2019; paperGan] false)) = true)
    by (vm_compute; reflexivity).
  destruct (H2 eq_refl W2) as (_ & Htag).
  destruct (search_empty_operand "y:" (stateOf library false)) as (_ & _ & H3).
  destruct (H3 eq_refl) as (_ & Hyear).
  split; [exact Hrun |]. split; [exact (Hon eq_refl) |].
  split; [exact Htag | exact Hyear].
Defined.

(** C4, the claim as stated fails: with the favorites toggle off, the year
    query "y:", which has no year token, leaves no paper of a collection of
    three; and the tag query "t:" drops a paper whose list of tags is
    empty. *)
Lemma search_empty_operand_not_identity :
  paperIds (sortedPapers (stateOf library false)) =
    [JStr "1901.00001"; JStr "2101.00002"; JStr "2301.00003"] /\
  paperIds (papersList (exec (searchMemoryByYear "y:") (stateOf library false))) = [] /\
  papersList (exec (searchMemoryByYear "y:") (stateOf library false))
    <> sortedPapers (stateOf library false) /\
  paperIds (papersList (exec (searchMemoryByTags "t:")
              (stateOf [paper2019; <["tags" := JArr []]> paperNoTags] false)))
    = [JStr "1901.00001"].
Proof.
  assert (E : paperIds (papersList (exec (searchMemoryByYear "y:")
                 (stateOf library false))) = [])
    by (vm_compute; reflexivity).
  split; [vm_compute; reflexivity |].
  split; [exact E |].
  split; [| vm_compute; reflexivity].
  intros H. rewrite H in E. vm_compute in E. discriminate.
Qed.

(* ===================================================================== *)
(** * Order *)
(* ===================================================================== *)

(** C7. A filter pass of any kind, with the favorites toggle on or off, over
    papers of the shape the filter relies on, completes; its filtered list is
    a subsequence of the sorted collection, in the order of that collection,
    and the sorted collection itself is left as it was. *)
Theorem search_preserves_order (kind : queryKind) (letters : string) (st : state) :
  forallb (wellShaped kind) (sortedPapers st) = true ->
  exists st',
    search kind letters st = (Normal tt, st') /\
    papersList st' `sublist_of` sortedPapers st /\
    sortedPapers st' = sortedPapers st.
Proof.
  intros Hw.
  destruct (search_papersList kind letters st Hw) as (Hrun & E & Hs & _).
  eexists. split; [exact Hrun |]. split; [| exact Hs].
  rewrite E. apply sublist_filter.
Qed.

Lemma search_preserves_order_witness :
  exists st',
    search YearQuery "y:21, 23" (stateOf library true) = (Normal tt, st') /\
    papersList st' `sublist_of` sortedPapers (stateOf library true) /\
    sortedPapers st' = sortedPapers (stateOf library true).
Proof.
  apply (search_preserves_order YearQuery "y:21, 23" (stateOf library true)).
  vm_compute. reflexivity.
Defined.

(* ===================================================================== *)
(** * Favorites *)
(* ===================================================================== *)

Lemma assignPaperProp_run (id key : string) (v : jsval) (st : state) (p : paper) :
  papers st !! id = Some p ->
  assignPaperProp id key v st =
  (Normal tt, setPapers (<[id := <[key := v]> p]> (papers st)) st).
Proof.
  intros H. unfold assignPaperProp, mbind, M_bind, get. now rewrite H.
Qed.



Lemma prop_insert_eq (p : paper) (key : string) (v : jsval) :
  prop (<[key := v]> p) key = v.
Proof. unfold prop. now rewrite lookup_insert_eq. Qed.

Lemma prop_insert_ne (p : paper) (key key' : string) (v : jsval) :
  key <> key' -> prop (<[key := v]> p) key' = prop p key'.
Proof. intros H. unfold prop. now rewrite lookup_insert_ne. Qed.

(** C6 (as the code has it). Saving the favorite flag of a stored paper
    completes and sets [favoriteDate] to the current timestamp whichever way
    the flag is toggled: the stored paper has the new flag and the new date,
    its other properties and the other papers are as before. *)
Theorem saveFavoriteItem_dates_every_toggle (now id : string) (favorite : bool)
    (st : state) (p : paper) :
  papers st !! id = Some p ->
  exists st' p',
    saveFavoriteItem now id favorite st = (Normal tt, st') /\
    papers st' !! id = Some p' /\
    prop p' "favorite" = JBool favorite /\
    prop p' "favoriteDate" = JStr now /\
    (forall key, key <> "favorite" -> key <> "favoriteDate" ->
       prop p' key = prop p key) /\
    (forall id', id' <> id -> papers st' !! id' = papers st !! id').
Proof.
  intros H. unfold saveFavoriteItem.
  eexists. exists (<["favoriteDate" := JStr now]> (<["favorite" := JBool favorite]> p)).
  split.
  - erewrite bind_normal by (apply assignPaperProp_run; exact H).
    apply assignPaperProp_run. simpl. apply lookup_insert_eq.
  - simpl. split; [apply lookup_insert_eq |].
    split; [rewrite prop_insert_ne by discriminate; apply prop_insert_eq |].
    split; [apply prop_insert_eq |].
    split.
    + intros key H1 H2. now rewrite !prop_insert_ne by congruence.
    + intros id' Hne. now rewrite !lookup_insert_ne by congruence.
Qed.

Lemma saveFavoriteItem_dates_every_toggle_witness :
  exists st' p',
    saveFavoriteItem "2025-06-01T10:00:00.000Z" "2101.00002" false storeState
      = (Normal tt, st') /\
    papers st' !! "2101.00002" = Some p' /\
    prop p' "favorite" = JBool false /\
    prop p' "favoriteDate" = JStr "2025-06-01T10:00:00.000Z" /\
    (forall key, key <> "favorite" -> key <> "favoriteDate" ->
       prop p' key =
       prop (<["favoriteDate" := JStr "2024-01-01T00:00:00.000Z"]> paper2021) key) /\
    (forall id', id' <> "2101.00002" ->
       papers st' !! id' = papers storeState !! id').
Proof.
  apply (saveFavoriteItem_dates_every_toggle "2025-06-01T10:00:00.000Z"
           "2101.00002" false storeState).
  vm_compute. reflexivity.
Defined.

(** C6, the claim as stated fails: un-favoriting the paper 2101.00002 leaves
    it with a favorite-date, the time of the un-favoriting. *)
Lemma saveFavoriteItem_keeps_a_date :
  let st' := exec (saveFavoriteItem "2025-06-01T10:00:00.000Z" "2101.00002" false)
               storeState in
  prop (default ∅ (papers st' !! "2101.00002")) "favorite" = JBool false /\
  prop (default ∅ (papers st' !! "2101.00002")) "favoriteDate"
    = JStr "2025-06-01T10:00:00.000Z" /\
  prop (default ∅ (papers st' !! "2101.00002")) "favoriteDate" <> JUndefined.
Proof.
  assert (E : prop (default ∅ (papers (exec (saveFavoriteItem
                "2025-06-01T10:00:00.000Z" "2101.00002" false) storeState)
                !! "2101.00002")) "favoriteDate" = JStr "2025-06-01T10:00:00.000Z")
    by (vm_compute; reflexivity).
  cbv zeta. split; [vm_compute; reflexivity |].
  split; [exact E |]. rewrite E. discriminate.
Qed.


(* ===================================================================== *)
(** * Display *)
(* ===================================================================== *)

Section DisplayFacts.

Variable render : paper -> exn + string.

Lemma renderedRows_app (l1 l2 : list paper) :
  renderedRows render (l1 ++ l2) = renderedRows render l1 ++ renderedRows render l2.
Proof. unfold renderedRows. apply flat_map_app. Qed.

Lemma renderedRows_cons (p : paper) (l : list paper) :
  renderedRows render (p :: l) = renderedRows render [p] ++ renderedRows render l.
Proof. apply (renderedRows_app [p] l). Qed.

Lemma renderLogs_cons (p : paper) (l : list paper) :
  renderLogs render (p :: l) = renderLogs render [p] ++ renderLogs render l.
Proof. unfold renderLogs. apply (flat_map_app _ [p] l). Qed.

Lemma pushItemHTML_run (table : list string) (p : paper) (st : state) :
  pushItemHTML render table p st =
  (Normal (table ++ renderedRows render [p]), addLogs (renderLogs render [p]) st).
Proof.
  unfold pushItemHTML, tryCatch, renderedRows, renderLogs. simpl.
  destruct (render p) as [e|html]; simpl.
  - unfold throw, mbind, M_bind, emit, log, modify, mret, M_ret. simpl.
    rewrite app_nil_r. unfold addLogs, setConsole. simpl.
    now rewrite <- !app_assoc.
  - unfold mret, M_ret. now rewrite addLogs_nil.
Qed.

Lemma forOf_pushItemHTML (l : list paper) (table : list string) (st : state) :
  forOf l table (pushItemHTML render) st =
  (Normal (table ++ renderedRows render l), addLogs (renderLogs render l) st).
Proof.
  revert table st. induction l as [|p l IH]; intros table st.
  - simpl. unfold mret, M_ret. now rewrite app_nil_r, addLogs_nil.
  - rewrite (renderedRows_cons p l), (renderLogs_cons p l). simpl forOf.
    erewrite bind_normal by apply pushItemHTML_run.
    rewrite IH, addLogs_addLogs.
    now rewrite <- app_assoc.
Qed.

(** The first page: the table is cleared, the cursor reset, and the rows
    of the first [memoryItemsPerPage] papers are set. *)
Lemma displayMemoryTable_first (st : state) :
  displayMemoryTable render 0 st =
  (Normal tt,
   setMemoryTable
     (renderedRows render (take (memoryItemsPerPage st) (papersList st)))
     (addLogs (renderLogs render (take (memoryItemsPerPage st) (papersList st)))
        (setCurrentMemoryPagination 0 (setMemoryTable [] st)))).
Proof.
  unfold displayMemoryTable. simpl Nat.eqb. cbv iota.
  unfold mbind at 1, M_bind at 1. unfold mbind at 1, M_bind at 1, modify at 1.
  unfold modify at 1. unfold mbind at 1, M_bind at 1, get at 1.
  erewrite bind_normal by apply forOf_pushItemHTML.
  unfold modify, slice. simpl.
  rewrite Nat.add_0_r, Nat.sub_0_r. reflexivity.
Qed.

(** A later page: the rows of its slice are appended to the table. *)
Lemma displayMemoryTable_next (pagination : nat) (st : state) :
  pagination <> 0 ->
  displayMemoryTable render pagination st =
  (Normal tt,
   let page := slice (pagination * memoryItemsPerPage st)
                 ((pagination + 1) * memoryItemsPerPage st) (papersList st) in
   setMemoryTable (memoryTable st ++ renderedRows render page)
     (addLogs (renderLogs render page) st)).
Proof.
  intros Hp. unfold displayMemoryTable.
  destruct (Nat.eqb_spec pagination 0) as [|_]; [contradiction |].
  unfold mbind at 1, M_bind at 1, mret at 1, M_ret at 1.
  unfold mbind at 1, M_bind at 1, get at 1.
  erewrite bind_normal by apply forOf_pushItemHTML.
  unfold modify. simpl. reflexivity.
Qed.

(** A trigger of [displayOnScroll] near the bottom moves the cursor and
    displays the next page exactly when [cursor * memoryItemsPerPage] is
    below the length of the filtered list; otherwise it does nothing. *)
Lemma displayOnScroll_run (v : viewport) (st : state) :
  nearBottom v ->
  displayOnScroll render v st =
  if (currentMemoryPagination st * memoryItemsPerPage st <? length (papersList st))%nat
  then displayMemoryTable render (currentMemoryPagination st + 1)
         (setCurrentMemoryPagination (currentMemoryPagination st + 1) st)
  else (Normal tt, st).
Proof.
  intros [Ht Hnear]. apply Z.ltb_lt in Hnear.
  unfold displayOnScroll. rewrite Ht, Hnear.
  unfold mbind at 1, M_bind at 1, get at 1.
  cbv beta iota delta [negb andb].
  destruct (_ <? _)%nat; [| reflexivity].
  unfold mbind, M_bind, modify, get. reflexivity.
Qed.

Lemma displayOnScroll_away (v : viewport) (st : state) :
  ~ nearBottom v -> displayOnScroll render v st = (Normal tt, st).
Proof.
  intros H. unfold displayOnScroll, nearBottom in *.
  destruct (tableElement v); [| reflexivity].
  unfold mbind at 1, M_bind at 1, get at 1.
  cbv beta iota delta [negb].
  destruct (Z.ltb_spec (Z.abs (bottom v - height v)) (height v)); [tauto |].
  reflexivity.
Qed.

End DisplayFacts.

Section Pagination.

Variable render : paper -> exn + string.

Lemma displayMemoryTable_paged (st : state) :
  paged render (papersList st) (memoryItemsPerPage st) 0
    (exec (displayMemoryTable render 0) st).
Proof.
  unfold exec, paged. rewrite displayMemoryTable_first. simpl.
  rewrite Nat.add_0_r. auto.
Qed.

(** One trigger near the bottom: while [c * n] is below the length of the
    list the cursor moves on and the next slice is appended; from then on
    the trigger changes nothing. *)
Lemma displayOnScroll_paged (v : viewport) (l : list paper) (n c : nat)
    (st : state) :
  nearBottom v -> paged render l n c st ->
  if (c * n <? length l)%nat
  then paged render l n (c + 1) (exec (displayOnScroll render v) st)
  else exec (displayOnScroll render v) st = st.
Proof.
  intros Hv (Hl & Hn & Hc & Ht). unfold exec.
  rewrite (displayOnScroll_run render v st Hv), Hc, Hn, Hl.
  destruct (c * n <? length l)%nat eqn:E; [| reflexivity].
  rewrite displayMemoryTable_next by lia. simpl.
  unfold paged. simpl. rewrite Hl, Hn, Ht.
  repeat split; try reflexivity.
  rewrite <- renderedRows_app. f_equal. unfold slice.
  replace ((c + 1 + 1) * n - (c + 1) * n) with n by lia.
  rewrite take_take_drop. f_equal. lia.
Qed.

End Pagination.

(** C5, at the failing input. With 250 papers in the filtered list and 100
    papers a page, the first display and two triggers near the bottom render
    100, 200 and 250 rows, each row once and none missing. No row remains
    beyond (2 + 1) * 100, yet the third trigger is no no-op: it moves the
    cursor to 3 (and appends an empty slice); only the fourth trigger
    changes nothing. *)
Theorem displayOnScroll_one_page_too_far (render : paper -> exn + string)
    (v : viewport) (st : state) :
  nearBottom v ->
  memoryItemsPerPage st = 100 ->
  length (papersList st) = 250 ->
  let l := papersList st in
  let s0 := exec (displayMemoryTable render 0) st in
  let s1 := exec (displayOnScroll render v) s0 in
  let s2 := exec (displayOnScroll render v) s1 in
  let s3 := exec (displayOnScroll render v) s2 in
  let s4 := exec (displayOnScroll render v) s3 in
  (memoryTable s0 = renderedRows render (take 100 l) /\ currentMemoryPagination s0 = 0) /\
  (memoryTable s1 = renderedRows render (take 200 l) /\ currentMemoryPagination s1 = 1) /\
  (memoryTable s2 = renderedRows render l /\ currentMemoryPagination s2 = 2) /\
  length l <= (currentMemoryPagination s2 + 1) * memoryItemsPerPage s2 /\
  (memoryTable s3 = renderedRows render l /\ currentMemoryPagination s3 = 3) /\
  s3 <> s2 /\
  s4 = s3.
Proof.
  intros Hv Hn Hlen l s0 s1 s2 s3 s4.
  pose proof (displayMemoryTable_paged render st) as P0.
  fold s0 l in P0. rewrite Hn in P0.
  pose proof (displayOnScroll_paged render v l 100 0 s0 Hv P0) as P1.
  unfold l in P1 at 1. rewrite Hlen in P1. simpl in P1. fold s1 in P1.
  pose proof (displayOnScroll_paged render v l 100 1 s1 Hv P1) as P2.
  unfold l in P2 at 1. rewrite Hlen in P2. simpl in P2. fold s2 in P2.
  pose proof (displayOnScroll_paged render v l 100 2 s2 Hv P2) as P3.
  unfold l in P3 at 1. rewrite Hlen in P3. simpl in P3. fold s3 in P3.
  pose proof (displayOnScroll_paged render v l 100 3 s3 Hv P3) as P4.
  unfold l in P4 at 1. rewrite Hlen in P4. simpl in P4. fold s4 in P4.
  destruct P0 as (_ & _ & C0 & T0), P1 as (_ & _ & C1 & T1),
    P2 as (_ & N2 & C2 & T2), P3 as (_ & _ & C3 & T3).
  simpl in T0, T1, T2, T3.
  rewrite (take_ge l 300) in T2 by (unfold l; lia).
  rewrite (take_ge l 400) in T3 by (unfold l; lia).
  repeat split; try assumption.
  - rewrite C2, N2. unfold l. lia.
  - intros E. rewrite E in C3. rewrite C2 in C3. discriminate.
Qed.

Lemma displayOnScroll_one_page_too_far_witness :
  let st := mkState ∅ [] (manyPapers 250) false "lastOpenDate" 0 100 [] [] in
  let v := mkViewport true 580 600 in
  let s0 := exec (displayMemoryTable idTemplate 0) st in
  let s1 := exec (displayOnScroll idTemplate v) s0 in
  let s2 := exec (displayOnScroll idTemplate v) s1 in
  let s3 := exec (displayOnScroll idTemplate v) s2 in
  length (memoryTable s2) = 250 /\
  currentMemoryPagination s2 = 2 /\ currentMemoryPagination s3 = 3.
Proof.
  pose proof (displayOnScroll_one_page_too_far idTemplate (mkViewport true 580 600)
                (mkState ∅ [] (manyPapers 250) false "lastOpenDate" 0 100 [] []))
    as H.
  destruct H as (_ & _ & (T2 & C2) & _ & (_ & C3) & _).
  - split; [reflexivity | vm_compute; reflexivity].
  - reflexivity.
  - vm_compute. reflexivity.
  - cbv zeta. split; [| split; [exact C2 | exact C3]].
    rewrite T2. vm_compute. reflexivity.
Defined.

(* ===================================================================== *)
(** * Malformed fields *)
(* ===================================================================== *)

Lemma fieldText_malformed (v : jsval) : malformed v = true -> fieldText v = "".
Proof. destruct v; simpl; intros H; try reflexivity; discriminate. Qed.

Lemma prop_sanitize_keys (p0 p : paper) (keys : list string) (k : string) :
  prop (foldr (fun key q => if malformed (prop p0 key) then <[key := JStr ""]> q else q)
          p keys) k =
  if bool_decide (k ∈ keys) && malformed (prop p0 k) then JStr "" else prop p k.
Proof.
  induction keys as [|key keys IH]; simpl; [reflexivity |].
  destruct (decide (key = k)) as [->|Hne].
  - rewrite bool_decide_eq_true_2 by constructor. simpl.
    destruct (malformed (prop p0 k)) eqn:E.
    + apply prop_insert_eq.
    + rewrite IH. now rewrite andb_false_r.
  - assert (Hdec : bool_decide (k ∈ key :: keys) = bool_decide (k ∈ keys)).
    { apply bool_decide_ext. rewrite elem_of_cons. intuition congruence. }
    rewrite Hdec.
    destruct (malformed (prop p0 key)); [rewrite prop_insert_ne by exact Hne |];
      exact IH.
Qed.

Lemma fieldText_sanitize (p : paper) (k : string) :
  fieldText (prop (sanitize p) k) = fieldText (prop p k).
Proof.
  unfold sanitize. rewrite prop_sanitize_keys.
  destruct (bool_decide (k ∈ contentKeys)); simpl; [| reflexivity].
  destruct (malformed (prop p k)) eqn:E; [| reflexivity].
  now rewrite (fieldText_malformed (prop p k)) by exact E.
Qed.

Lemma favorite_sanitize (p : paper) :
  prop (sanitize p) "favorite" = prop p "favorite".
Proof.
  unfold sanitize. rewrite prop_sanitize_keys.
  rewrite bool_decide_eq_false_2; [reflexivity |].
  unfold contentKeys. rewrite !elem_of_cons, elem_of_nil.
  intuition discriminate.
Qed.

Lemma Keeps_text_sanitize (letters : string) (fav : bool) (p : paper) :
  Keeps TextQuery letters fav (sanitize p) <-> Keeps TextQuery letters fav p.
Proof.
  unfold Keeps, Matches, Shown, Favorite, occurrences.
  rewrite favorite_sanitize.
  assert (E : List.map (fun key => fieldText (prop (sanitize p) key)) contentKeys =
              List.map (fun key => fieldText (prop p key)) contentKeys).
  { apply map_ext. intros k. apply fieldText_sanitize. }
  now rewrite E.
Qed.

Lemma contentLogs_malformed (p : paper) (key : string) :
  key ∈ contentKeys -> malformed (prop p key) = true ->
  LogError ("searchMemory: non-string & non-array content for key " +:+ key)
    ∈ contentLogs p /\
  LogPaper p ∈ contentLogs p.
Proof.
  intros Hk Hm. unfold contentLogs.
  split; apply list_elem_of_In, in_flat_map; exists key;
    (split; [now apply list_elem_of_In |]); rewrite Hm; simpl; auto.
Qed.

(** C9 (as the code has it). A text query never aborts. Each searchable
    field (title, author, note, tags, id, venue) of a paper that is neither
    a string nor an array is logged, with the paper, and counts as the empty
    string: the paper is kept exactly when the paper with those fields set
    to the empty string would be. What is kept of the other papers does not
    depend on that paper: the filtered list of a collection is the filtered
    lists of its parts, one after the other. *)
Theorem searchMemory_tolerates_malformed_fields (letters : string) (st : state) :
  outcome (searchMemory letters) st = Normal tt /\
  console (exec (searchMemory letters) st) =
    console st ++ flat_map contentLogs (sortedPapers st) /\
  (forall p key,
     p ∈ sortedPapers st -> key ∈ contentKeys -> malformed (prop p key) = true ->
     LogError ("searchMemory: non-string & non-array content for key " +:+ key)
       ∈ console (exec (searchMemory letters) st) /\
     LogPaper p ∈ console (exec (searchMemory letters) st)) /\
  papersList (exec (searchMemory letters) st) =
    filter (fun p => Keeps TextQuery letters (showFavorites st) (sanitize p))
      (sortedPapers st) /\
  (forall before bad after,
     sortedPapers st = before ++ bad :: after ->
     papersList (exec (searchMemory letters) st) =
       papersList (exec (searchMemory letters) (setSortedPapers before st)) ++
       papersList (exec (searchMemory letters) (setSortedPapers [bad] st)) ++
       papersList (exec (searchMemory letters) (setSortedPapers after st))).
Proof.
  unfold outcome, exec. rewrite searchMemory_run. simpl.
  split; [reflexivity |]. split; [reflexivity |]. split; [| split].
  - intros p key Hp Hk Hm.
    destruct (contentLogs_malformed p key Hk Hm) as [H1 H2].
    split; apply elem_of_app; right; apply list_elem_of_In, in_flat_map;
      exists p; (split; [now apply list_elem_of_In |]); now apply list_elem_of_In.
  - apply list_filter_iff. intros p. symmetry. apply Keeps_text_sanitize.
  - intros before bad after E.
    rewrite !searchMemory_run. simpl. rewrite E.
    rewrite filter_app. f_equal.
    change (bad :: after) with ([bad] ++ after). now rewrite filter_app.
Qed.

Lemma searchMemory_tolerates_malformed_fields_witness :
  LogError "searchMemory: non-string & non-array content for key title"
    ∈ console (exec (searchMemory "nlp") (stateOf [paperNoTags; paper2019] false)) /\
  LogPaper paperNoTags
    ∈ console (exec (searchMemory "nlp") (stateOf [paperNoTags; paper2019] false)).
Proof.
  destruct (searchMemory_tolerates_malformed_fields "nlp"
              (stateOf [paperNoTags; paper2019] false)) as (_ & _ & H & _).
  apply (H paperNoTags "title").
  - apply list_elem_of_here.
  - apply list_elem_of_here.
  - vm_compute. reflexivity.
Defined.

(** C9, the claim as stated fails for a tag query: one paper without [tags]
    aborts the pass with a TypeError; nothing is logged and the filtered list
    is not computed, although the other paper carries the tag asked for. *)
Lemma searchMemoryByTags_aborts_on_malformed_tags :
  let st := stateOf [paperNoTags; paper2019] false in
  prop paperNoTags "tags" = JUndefined /\
  outcome (searchMemoryByTags "t:nlp") st =
    Throw (Memory.TypeError "Cannot read properties of undefined (reading 'map')") /\
  console (exec (searchMemoryByTags "t:nlp") st) = [] /\
  paperIds (papersList (exec (searchMemoryByTags "t:nlp") st)) = [] /\
  paperIds (papersList (exec (searchMemoryByTags "t:nlp") (stateOf [paper2019] false)))
    = [JStr "1901.00001"].
Proof. vm_compute. repeat split; reflexivity. Qed.

(* ===================================================================== *)
(** * Sorting and reversal *)
(* ===================================================================== *)




Section SortFacts.

Variable le : paper -> paper -> bool.
Hypothesis le_total : forall a b, le a b = true \/ le b a = true.
Hypothesis le_trans : forall a b c, le a b = true -> le b c = true -> le a c = true.





End SortFacts.






(* ===================================================================== *)
(** * The notes posted to the flashcard bridge *)
(* ===================================================================== *)

Import Anki.

Lemma posts_bind_inv {A B} (m : prog A) (f : A -> prog B) (req : request) :
  posts (bind m f) req -> posts m req \/ exists a, posts (f a) req.
Proof.
  induction m as [a|e|r k IH|msg k IH]; simpl; intros H.
  - right. now exists a.
  - inversion H.
  - inversion H; subst.
    + left. constructor.
    + match goal with
      | Hp : posts (bind (k ?r0) f) req |- _ =>
          destruct (IH r0 Hp) as [Hl | Hr];
            [left; now apply posts_later with r0 | now right]
      end.
  - inversion H; subst.
    match goal with
    | Hp : posts (bind k f) req |- _ =>
        destruct (IH Hp) as [Hl | Hr]; [left; now constructor | now right]
    end.
Qed.

Lemma posts_ankiRequest (a : string) (p : params) (req : request) :
  posts (ankiRequest a p) req -> req = mkRequest a 6 p.
Proof.
  unfold ankiRequest. intros H. inversion H; subst; [reflexivity |].
  match goal with
  | Hp : posts (match ?r0 with _ => _ end) req |- _ =>
      destruct r0 as [reason|code|result err]; unfold failed in Hp;
        [| | destruct (toBoolean err)]
  end;
  repeat match goal with
         | Hp : posts (Console _ _) _ |- _ => inversion Hp; subst; clear Hp
         | Hp : posts (Raise _) _ |- _ => inversion Hp
         | Hp : posts (Ret _) _ |- _ => inversion Hp
         end.
Qed.

Lemma posts_includesArxiv (v : jsval) (req : request) :
  ~ posts (includesArxiv v) req.
Proof. destruct v; simpl; intros H; inversion H. Qed.

Lemma posts_ensureArxivDeck (req : request) :
  posts ensureArxivDeck req ->
  req = mkRequest "deckNames" 6 NoParams \/
  req = mkRequest "createDeck" 6 (DeckParams "arxiv").
Proof.
  unfold ensureArxivDeck, getDeckNames, createDeck. intros H.
  apply posts_bind_inv in H as [H | [names H]].
  - left. now apply posts_ankiRequest.
  - apply posts_bind_inv in H as [H | [present H]].
    + now apply posts_includesArxiv in H.
    + destruct (negb present).
      * apply posts_bind_inv in H as [H | [r H]].
        -- right. now apply posts_ankiRequest.
        -- inversion H; subst.
           match goal with Hp : posts (Ret _) _ |- _ => inversion Hp end.
      * inversion H.
Qed.

Lemma posts_prelude (deck : string) (req : request) :
  posts (if String.eqb deck "arxiv" then ensureArxivDeck else Ret tt) req ->
  action req = "deckNames" \/ action req = "createDeck".
Proof.
  destruct (String.eqb deck "arxiv"); intros H; [| inversion H].
  apply posts_ensureArxivDeck in H as [-> | ->]; simpl; auto.
Qed.

Lemma wellFormedAddNote_makeNote (deck : string) (f : noteFields) (tags : list jsval) :
  wellFormedAddNote (mkRequest "addNote" 6 (NoteParams (makeNote deck f tags))).
Proof. intros _. eexists. split; [reflexivity |]. repeat split. Qed.

Lemma wellFormedAddNote_other (req : request) :
  action req = "deckNames" \/ action req = "createDeck" -> wellFormedAddNote req.
Proof. intros [H | H] E; rewrite H in E; discriminate. Qed.

Lemma posts_addAnkiCard (deck front back : string) (tags : list jsval)
    (p : option paper) (req : request) :
  posts (addAnkiCard deck front back tags p) req -> wellFormedAddNote req.
Proof.
  unfold addAnkiCard. intros H.
  apply posts_bind_inv in H as [H | [u H]].
  - now apply wellFormedAddNote_other, (posts_prelude deck).
  - apply posts_ankiRequest in H as ->. apply wellFormedAddNote_makeNote.
Qed.

Lemma posts_addAnkiCardPlain (deck front back : string) (tags : list jsval)
    (req : request) :
  posts (addAnkiCardPlain deck front back tags) req -> wellFormedAddNote req.
Proof.
  unfold addAnkiCardPlain. intros H.
  apply posts_bind_inv in H as [H | [u H]].
  - now apply wellFormedAddNote_other, (posts_prelude deck).
  - apply posts_ankiRequest in H as ->. apply wellFormedAddNote_makeNote.
Qed.

(** What a run sends was posted by the function. *)
Lemma sent_posts {S A} (b : bridge S) (m : prog A) (s : S) (req : request) :
  In req (sent (run b m s)) -> posts m req.
Proof.
  revert s. induction m as [a|e|r k IH|msg k IH]; intros s H; simpl in H.
  - contradiction.
  - contradiction.
  - destruct (b s r) as [rep s'] eqn:E. simpl in H. destruct H as [<- | H].
    + constructor.
    + apply posts_later with rep. now apply (IH rep s').
  - constructor. now apply (IH s).
Qed.

(** A run of [m >>= f] is the run of [m] followed, when [m] returns, by the
    run of [f] from the state of the bridge that [m] left. *)
Lemma run_bind {S A B} (b : bridge S) (m : prog A) (f : A -> prog B) (s : S) :
  run b (bind m f) s =
  match returned (run b m s) with
  | inl e => mkRun (inl e) (sent (run b m s)) (printed (run b m s))
               (bridgeState (run b m s))
  | inr a =>
      let r2 := run b (f a) (bridgeState (run b m s)) in
      mkRun (returned r2) (sent (run b m s) ++ sent r2)
        (printed (run b m s) ++ printed r2) (bridgeState r2)
  end.
Proof.
  revert s. induction m as [a|e|r k IH|msg k IH]; intros s; simpl.
  - now destruct (run b (f a) s).
  - reflexivity.
  - destruct (b s r) as [rep s']. simpl. rewrite IH.
    now destruct (returned (run b (k rep) s')).
  - rewrite IH. now destruct (returned (run b k s)).
Qed.

Lemma failsOnlyRefused_bind {A B} (m : prog A) (f : A -> prog B) :
  failsOnlyRefused m -> (forall a, failsOnlyRefused (f a)) ->
  failsOnlyRefused (bind m f).
Proof.
  intros Hm Hf S b s. unfold refused. rewrite run_bind.
  destruct (returned (run b m s)) as [e|a] eqn:E; simpl; intros H.
  - destruct (Hm S b s) as (s0 & req & Hin & Hr); [congruence |].
    now exists s0, req.
  - destruct (Hf a S b _ H) as (s0 & req & Hin & Hr).
    exists s0, req. split; [apply in_or_app; now right | exact Hr].
Qed.

Lemma failsOnlyRefused_ankiRequest (a : string) (p : params) :
  failsOnlyRefused (ankiRequest a p).
Proof.
  intros S b s. unfold refused, ankiRequest, failed. simpl.
  destruct (b s (mkRequest a 6 p)) as [rep s'] eqn:E.
  destruct rep as [reason|code|result err]; simpl.
  - discriminate.
  - discriminate.
  - destruct (toBoolean err) eqn:T; simpl; [| discriminate].
    intros H. injection H as H.
    exists s, (mkRequest a 6 p). split; [now left |]. rewrite E. simpl. auto.
Qed.

Lemma failsOnlyRefused_ensureArxivDeck : failsOnlyRefused ensureArxivDeck.
Proof.
  unfold ensureArxivDeck. apply failsOnlyRefused_bind.
  - apply failsOnlyRefused_ankiRequest.
  - intros names. apply failsOnlyRefused_bind.
    + intros S b s. destruct names; simpl; discriminate.
    + intros present. destruct (negb present).
      * apply failsOnlyRefused_bind; [apply failsOnlyRefused_ankiRequest |].
        intros r S b s. simpl. discriminate.
      * intros S b s. simpl. discriminate.
Qed.

Lemma failsOnlyRefused_prelude (deck : string) :
  failsOnlyRefused (if String.eqb deck "arxiv" then ensureArxivDeck else Ret tt).
Proof.
  destruct (String.eqb deck "arxiv"); [apply failsOnlyRefused_ensureArxivDeck |].
  intros S b s. simpl. discriminate.
Qed.

Lemma not_refused_when_honoured {S A} (b : bridge S) (m : prog A) (s : S) :
  honoursAllowDuplicate b ->
  (forall req, posts m req -> wellFormedAddNote req) ->
  ~ refused b m s.
Proof.
  intros Hb Hm (s0 & req & Hin & Hr).
  destruct (Hb s0 req Hr) as (n & Ha & Hp & Hdup).
  destruct (Hm req (sent_posts b m s req Hin) Ha) as (n' & Hp' & _ & Hallow & _).
  rewrite Hp in Hp'. injection Hp' as ->. congruence.
Qed.

(** C10. Whatever the bridge replies, every request that either version of
    [addAnkiCard] posts with the action "addNote" carries a note of model
    "Basic" whose options allow duplicates, with the deck as the scope of
    duplicates; so does every request sent in a run against a bridge. A
    bridge that refuses as duplicates only notes that disallow them never
    makes [addAnkiCard] fail as a duplicate. *)
Theorem addAnkiCard_notes_allow_duplicates (deck front back : string)
    (tags : list jsval) (p : option paper) :
  (forall req, posts (addAnkiCard deck front back tags p) req ->
     wellFormedAddNote req) /\
  (forall req, posts (addAnkiCardPlain deck front back tags) req ->
     wellFormedAddNote req) /\
  (forall S (b : bridge S) (s : S),
     Forall wellFormedAddNote (sent (run b (addAnkiCard deck front back tags p) s)) /\
     Forall wellFormedAddNote (sent (run b (addAnkiCardPlain deck front back tags) s))) /\
  (forall S (b : bridge S) (s : S),
     honoursAllowDuplicate b ->
     returned (run b (addAnkiCard deck front back tags p) s)
       <> inl (Error duplicateMessage) /\
     returned (run b (addAnkiCardPlain deck front back tags) s)
       <> inl (Error duplicateMessage)).
Proof.
  split; [apply posts_addAnkiCard |]. split; [apply posts_addAnkiCardPlain |].
  split.
  - intros S b s. split; apply List.Forall_forall; intros req Hin.
    + eapply posts_addAnkiCard, sent_posts, Hin.
    + eapply posts_addAnkiCardPlain, sent_posts, Hin.
  - intros S b s Hb. split; intros H.
    + apply (not_refused_when_honoured b (addAnkiCard deck front back tags p) s Hb
               (posts_addAnkiCard deck front back tags p)).
      revert H. apply failsOnlyRefused_bind.
      * apply failsOnlyRefused_prelude.
      * intros u. apply failsOnlyRefused_ankiRequest.
    + apply (not_refused_when_honoured b (addAnkiCardPlain deck front back tags) s Hb
               (posts_addAnkiCardPlain deck front back tags)).
      revert H. apply failsOnlyRefused_bind.
      * apply failsOnlyRefused_prelude.
      * intros u. apply failsOnlyRefused_ankiRequest.
Qed.

Lemma sampleBridge_honours : honoursAllowDuplicate sampleBridge.
Proof.
  intros [decks notes] req. unfold sampleBridge.
  destruct req as [a v [|deck|n]]; simpl.
  - destruct (String.eqb a "deckNames"); simpl; intros [H1 H2]; discriminate.
  - destruct (String.eqb a "createDeck"); simpl; intros [H1 H2]; discriminate.
  - destruct (String.eqb a "addNote") eqn:Ea; simpl.
    + destruct (allowDuplicate (options n)) eqn:Ed; simpl.
      * intros [H1 H2]; discriminate.
      * destruct (existsb (sameCard n) notes); simpl; intros [H1 H2];
          [| discriminate].
        exists n. apply String.eqb_eq in Ea. auto.
    + intros [H1 H2]; discriminate.
Qed.

Lemma addAnkiCard_notes_allow_duplicates_witness :
  returned (run sampleBridge
              (addAnkiCard "arxiv" "What is a GAN?" "A generative model." []
                 (Some paperGan))
              ([], [makeNote "arxiv" (mkFields "What is a GAN?" "seen") []]))
    <> inl (Error duplicateMessage) /\
  List.map action
    (sent (run sampleBridge
             (addAnkiCard "arxiv" "What is a GAN?" "A generative model." []
                (Some paperGan))
             ([], [makeNote "arxiv" (mkFields "What is a GAN?" "seen") []])))
    = ["deckNames"; "createDeck"; "addNote"].
Proof.
  destruct (addAnkiCard_notes_allow_duplicates "arxiv" "What is a GAN?"
              "A generative model." [] (Some paperGan)) as (_ & _ & _ & H).
  split.
  - apply (H _ sampleBridge _ sampleBridge_honours).
  - vm_compute. reflexivity.
Defined.

(* ===================================================================== *)
(** * More on the filters *)
(* ===================================================================== *)

Lemma forallb_true_or_false {A} (f : A -> bool) (l : list A) :
  forallb f l = true \/ forallb f l = false.
Proof. destruct (forallb f l); auto. Qed.

(** X1. A filter pass of any kind completes exactly when every paper of the
    sorted collection has the shape the filter relies on. When it completes
    it has changed the filtered list and the console only; when it throws it
    has changed nothing at all. *)
Theorem search_completes_or_changes_nothing (kind : queryKind) (letters : string)
    (st : state) :
  (outcome (search kind letters) st = Normal tt <->
   forallb (wellShaped kind) (sortedPapers st) = true) /\
  (outcome (search kind letters) st = Normal tt ->
   exec (search kind letters) st =
   setPapersList (papersList (exec (search kind letters) st))
     (setConsole (console (exec (search kind letters) st)) st)) /\
  (forall e, outcome (search kind letters) st = Throw e ->
   exec (search kind letters) st = st).
Proof.
  destruct (forallb_true_or_false (wellShaped kind) (sortedPapers st)) as [H | H].
  - pose proof (search_run kind letters st (forallb_wellShaped _ _ H)) as R.
    unfold outcome, exec. rewrite R. simpl.
    split; [tauto |]. split; [| discriminate].
    intros _. now destruct st.
  - destruct (search_throws kind letters st H) as [e R].
    unfold outcome, exec. rewrite R. simpl.
    split; [split; [discriminate | congruence] |].
    split; [discriminate | reflexivity].
Qed.

Lemma search_completes_or_changes_nothing_witness :
  exec (search TagQuery "t:nlp") (stateOf [paperNoTags; paper2019] true) =
  stateOf [paperNoTags; paper2019] true.
Proof.
  destruct (search_completes_or_changes_nothing TagQuery "t:nlp"
              (stateOf [paperNoTags; paper2019] true)) as (_ & _ & H).
  apply (H (Memory.TypeError "Cannot read properties of undefined (reading 'map')")).
  vm_compute. reflexivity.
Defined.

Lemma Forall_filter_keep {A} (P Q : A -> Prop) `{!forall x, Decision (P x)}
    (l : list A) :
  Forall Q l -> Forall Q (filter P l).
Proof.
  intros HQ. apply List.Forall_forall. intros x Hx.
  apply list_elem_of_In, list_elem_of_filter in Hx as [_ Hx].
  rewrite List.Forall_forall in HQ. now apply HQ, list_elem_of_In.
Qed.

Lemma filter_idemp {A} (P : A -> Prop) `{!forall x, Decision (P x)} (l : list A) :
  filter P (filter P l) = filter P l.
Proof.
  induction l as [|x l IH]; [reflexivity |].
  rewrite filter_cons. destruct (decide (P x)) as [Hx|Hx]; [| exact IH].
  rewrite filter_cons. destruct (decide (P x)); [now rewrite IH | contradiction].
Qed.

(** X2. Filtering is idempotent: running the same query, with the same
    favorites toggle, over the filtered list gives that list again. *)
Theorem search_idempotent (kind : queryKind) (letters : string) (st : state) :
  forallb (wellShaped kind) (sortedPapers st) = true ->
  let filtered := papersList (exec (search kind letters) st) in
  search kind letters (setSortedPapers filtered st) =
    (Normal tt, exec (search kind letters) (setSortedPapers filtered st)) /\
  papersList (exec (search kind letters) (setSortedPapers filtered st)) = filtered.
Proof.
  intros Hw filtered.
  destruct (search_papersList kind letters st Hw) as (_ & E & _).
  assert (Hw' : forallb (wellShaped kind)
                  (sortedPapers (setSortedPapers filtered st)) = true).
  { simpl. unfold filtered. rewrite E. apply forallb_forall. intros p Hp.
    apply list_elem_of_In, list_elem_of_filter in Hp as [_ Hp].
    rewrite forallb_forall in Hw. now apply Hw, list_elem_of_In. }
  destruct (search_papersList kind letters _ Hw') as (Hrun & E' & _).
  split; [exact Hrun |]. rewrite E'. simpl.
  unfold filtered. rewrite E. apply filter_idemp.
Qed.

Lemma search_idempotent_witness :
  let filtered := papersList (exec (search TagQuery "t:nlp") (stateOf library false)) in
  papersList (exec (search TagQuery "t:nlp")
                (setSortedPapers filtered (stateOf library false))) = filtered.
Proof.
  apply (search_idempotent TagQuery "t:nlp" (stateOf library false)).
  vm_compute. reflexivity.
Defined.

(** ** The case of the letters *)

Lemma replaceFirst_prefix (pat s : string) :
  replaceFirst pat "" (pat +:+ s) = s.
Proof.
  assert (D : forall p t, dropChars (String.length p) (p +:+ t) = t).
  { induction p as [|c p IH]; intros t; [reflexivity |].
    rewrite append_cons. simpl. apply IH. }
  destruct (pat +:+ s) as [|c r] eqn:E.
  - destruct pat; [| rewrite append_cons in E; discriminate].
    rewrite append_nil in E. now subst s.
  - unfold replaceFirst; fold replaceFirst. rewrite <- E, startsWith_app.
    rewrite append_nil. apply D.
Qed.

(** X3. The case of the letters of the operand does not matter: two text,
    tag or code queries whose operands are equal once lowered do the same to
    every state. *)
Theorem search_ignores_case (kind : queryKind) (q1 q2 : string) (st : state) :
  kind <> YearQuery ->
  toLowerCase q1 = toLowerCase q2 ->
  search kind (prefix kind +:+ q1) st = search kind (prefix kind +:+ q2) st.
Proof.
  intros Hk H. destruct kind; try contradiction; simpl search; simpl prefix.
  - unfold searchMemory. rewrite !append_nil. now rewrite H.
  - unfold searchMemoryByTags. rewrite !replaceFirst_prefix. now rewrite H.
  - unfold searchMemoryByCode. rewrite !replaceFirst_prefix. now rewrite H.
Qed.

Lemma search_ignores_case_witness :
  search TagQuery ("t:" +:+ "NLP cv") (stateOf library false) =
  search TagQuery ("t:" +:+ "nlp CV") (stateOf library false).
Proof.
  apply (search_ignores_case TagQuery "NLP cv" "nlp CV" (stateOf library false)).
  - discriminate.
  - reflexivity.
Defined.

(** ** One more word *)

Lemma string_app_assoc (a b c : string) : (a +:+ b) +:+ c = a +:+ (b +:+ c).
Proof.
  induction a as [|x a IH]; [reflexivity |].
  rewrite !append_cons. now rewrite IH.
Qed.

Lemma toLowerCase_app (a b : string) :
  toLowerCase (a +:+ b) = toLowerCase a +:+ toLowerCase b.
Proof.
  induction a as [|x a IH]; [reflexivity |].
  rewrite append_cons. simpl. rewrite append_cons. now rewrite IH.
Qed.

Lemma split_app (sep : ascii) (a b : string) :
  split sep (a +:+ String sep b) = split sep a ++ split sep b.
Proof.
  induction a as [|x a IH].
  - rewrite append_nil. simpl. now rewrite Ascii.eqb_refl.
  - rewrite append_cons. simpl. rewrite IH.
    destruct (Ascii.eqb x sep); [reflexivity |].
    pose proof (split_nonempty sep a) as Hne.
    destruct (split sep a); [contradiction | reflexivity].
Qed.

Lemma replaceFirst_unfold (pat rep s : string) :
  replaceFirst pat rep s =
  if startsWith s pat then rep +:+ dropChars (String.length pat) s
  else match s with
       | EmptyString => EmptyString
       | String c r => String c (replaceFirst pat rep r)
       end.
Proof. destruct s; reflexivity. Qed.

(** Removing the first "t:" or "c:" of a string followed by a space and
    more letters removes it from the string or from the letters that
    follow: what stands before the space is cut as it is alone. *)
Lemma replaceFirst_app_space (p1 p2 : ascii) (l w : string) :
  p1 <> " "%char -> p2 <> " "%char ->
  exists w',
    replaceFirst (String p1 (String p2 "")) "" (l +:+ String " " w) =
    replaceFirst (String p1 (String p2 "")) "" l +:+ String " " w'.
Proof.
  intros H1 H2. induction l as [|c l IH].
  - rewrite append_nil.
    exists (replaceFirst (String p1 (String p2 "")) "" w).
    rewrite (replaceFirst_unfold _ _ (String " " w)). simpl startsWith.
    destruct (Ascii.eqb_spec p1 " "); [contradiction |]. reflexivity.
  - rewrite append_cons.
    rewrite (replaceFirst_unfold _ _ (String c (l +:+ String " " w))).
    rewrite (replaceFirst_unfold _ _ (String c l)).
    destruct l as [|d l].
    + rewrite append_nil in *. simpl startsWith.
      destruct (Ascii.eqb_spec p2 " "); [contradiction |].
      rewrite !andb_false_r.
      destruct IH as [w' IH]. exists w'.
      rewrite append_cons. f_equal. exact IH.
    + rewrite append_cons in *. simpl startsWith.
      destruct (Ascii.eqb p1 c && (Ascii.eqb p2 d && true)) eqn:E.
      * exists w. simpl. now rewrite !append_nil.
      * destruct IH as [w' IH]. exists w'.
        rewrite append_cons. f_equal. exact IH.
Qed.

Lemma tokens_one_more_word (kind : queryKind) (letters w : string) :
  kind <> YearQuery ->
  exists more, tokens kind (letters +:+ String " " w) = tokens kind letters ++ more.
Proof.
  intros Hk. unfold tokens.
  assert (E : exists w', operand kind (letters +:+ String " " w) =
                         operand kind letters +:+ String " " w').
  { destruct kind; try contradiction; simpl operand.
    - now exists w.
    - apply replaceFirst_app_space; discriminate.
    - apply replaceFirst_app_space; discriminate. }
  destruct E as [w' ->].
  exists (split " " (toLowerCase w')).
  rewrite toLowerCase_app. simpl toLowerCase.
  change (lowerChar " ") with " "%char. apply split_app.
Qed.

Lemma filter_sublist_mono {A} (P Q : A -> Prop)
    `{!forall x, Decision (P x), !forall x, Decision (Q x)} (l : list A) :
  (forall x, P x -> Q x) -> filter P l `sublist_of` filter Q l.
Proof.
  intros HPQ. induction l as [|x l IH]; [constructor |].
  rewrite !filter_cons.
  destruct (decide (P x)) as [Hp|Hp]; destruct (decide (Q x)) as [Hq|Hq].
  - now constructor.
  - destruct (Hq (HPQ x Hp)).
  - now constructor.
  - exact IH.
Qed.

(** X4. One more word narrows the search: the filtered list of a text, tag
    or code query followed by a space and further letters is a subsequence
    of the filtered list of the query itself. *)
Theorem search_one_more_word_narrows (kind : queryKind) (letters w : string)
    (st : state) :
  kind <> YearQuery ->
  forallb (wellShaped kind) (sortedPapers st) = true ->
  papersList (exec (search kind (letters +:+ String " " w)) st)
    `sublist_of` papersList (exec (search kind letters) st).
Proof.
  intros Hk Hw.
  destruct (search_papersList kind letters st Hw) as (_ & E & _).
  destruct (search_papersList kind (letters +:+ String " " w) st Hw) as (_ & E' & _).
  rewrite E, E'. apply filter_sublist_mono. intros p.
  destruct (tokens_one_more_word kind letters w Hk) as [more Ht].
  destruct kind; try contradiction; simpl; unfold Matches; rewrite Ht;
    intros [HM HS]; (split; [| exact HS]); now apply Forall_app in HM as [HM _].
Qed.

Lemma search_one_more_word_narrows_witness :
  papersList (exec (search TagQuery ("t:nlp" +:+ String " " "cv")) (stateOf library false))
    `sublist_of` papersList (exec (search TagQuery "t:nlp") (stateOf library false)).
Proof.
  apply (search_one_more_word_narrows TagQuery "t:nlp" "cv" (stateOf library false)).
  - discriminate.
  - vm_compute. reflexivity.
Defined.

(** ** The target years *)

Lemma digit_char (c : ascii) (a : Z) :
  digitOf c = Some a ->
  isAngle c = false /\ lowerChar c = c /\ Ascii.eqb c "," = false /\
  Ascii.eqb c " " = false /\ isWhiteSpace c = false /\
  Ascii.eqb c "-" = false /\ Ascii.eqb c "+" = false.
Proof.
  destruct c as [[] [] [] [] [] [] [] []]; vm_compute; intros H;
    try discriminate; repeat split.
Qed.

Lemma allDigits_cons (c : ascii) (r : string) :
  allDigits (String c r) = true -> (exists a, digitOf c = Some a) /\ allDigits r = true.
Proof.
  simpl. destruct (digitOf c) as [a|]; simpl; [| discriminate].
  intros H. split; [now exists a | exact H].
Qed.

Lemma digits_unchanged (d : string) :
  allDigits d = true ->
  removeAll isAngle d = d /\ toLowerCase d = d /\ replaceAllChar "," " " d = d /\
  split " " d = [d].
Proof.
  induction d as [|c d IH]; intros H; [repeat split |].
  apply allDigits_cons in H as [[a Ha] Hd].
  destruct (IH Hd) as (I1 & I2 & I3 & I4).
  destruct (digit_char c a Ha) as (C1 & C2 & C3 & C4 & _).
  simpl. rewrite C1, C2, C3, C4, I1, I2, I3, I4. repeat split.
Qed.

Lemma readDigits_acc (acc : Z) (d : string) :
  allDigits d = true ->
  readDigits acc d = (acc * 10 ^ Z.of_nat (String.length d) + readDigits 0 d)%Z.
Proof.
  revert acc. induction d as [|c d IH]; intros acc H.
  - simpl. lia.
  - apply allDigits_cons in H as [[a Ha] Hd].
    simpl readDigits. rewrite Ha.
    rewrite (IH (10 * acc + a)%Z Hd), (IH (10 * 0 + a)%Z Hd).
    change (String.length (String c d)) with (S (String.length d)).
    rewrite Nat2Z.inj_succ, Z.pow_succ_r by lia. lia.
Qed.

Lemma toDouble_small (n : Z) : (n < 2 ^ 53)%Z -> toDouble n = n.
Proof.
  intros H. unfold toDouble.
  destruct (Z.ltb_spec n (2 ^ 53)) as [_ | Hge]; [reflexivity | lia].
Qed.

Lemma digitOf_range (c : ascii) (a : Z) :
  digitOf c = Some a -> (0 <= a <= 9)%Z.
Proof.
  unfold digitOf. destruct (_ && _) eqn:E; [| discriminate].
  intros [= <-]. apply andb_true_iff in E as [E1 E2].
  apply Nat.leb_le in E1, E2. lia.
Qed.

Lemma readDigits_range (d : string) :
  allDigits d = true ->
  (0 <= readDigits 0 d < 10 ^ Z.of_nat (String.length d))%Z.
Proof.
  induction d as [|c d IH]; intros H; [simpl; lia |].
  apply allDigits_cons in H as [[a Ha] Hd].
  simpl readDigits. rewrite Ha, (readDigits_acc _ d Hd).
  change (String.length (String c d)) with (S (String.length d)).
  rewrite Nat2Z.inj_succ, Z.pow_succ_r by lia.
  pose proof (digitOf_range c a Ha). specialize (IH Hd). nia.
Qed.

Lemma parseIntStr_digits (d : string) :
  d <> "" -> allDigits d = true -> parseIntStr d = Some (toDouble (decimal d)).
Proof.
  intros Hne H. destruct d as [|c d]; [contradiction |].
  apply allDigits_cons in H as [[a Ha] Hd].
  destruct (digit_char c a Ha) as (_ & _ & _ & _ & C5 & C6 & C7).
  unfold parseIntStr, decimal. simpl trimStart. rewrite C5.
  assert (E : match String c d with
              | String "-" r => Z.opp <$> parseUnsigned r
              | String "+" r => parseUnsigned r
              | t => parseUnsigned t
              end = parseUnsigned (String c d)).
  { destruct c as [[] [] [] [] [] [] [] []]; try reflexivity; discriminate. }
  rewrite E. cbn [parseUnsigned readDigits]. rewrite Ha. reflexivity.
Qed.

(** X5. How a year is read: the query "y:" followed by decimal digits has
    one target year, the double nearest to the number that the digits
    denote, four digits as they stand and any other number of digits with
    "20" put before them. With at most fourteen digits the double is that
    number itself, so that "21" is 2021 (and "5" is 205). *)
Theorem searchYears_of_digits (d : string) :
  d <> "" -> allDigits d = true ->
  let year :=
    if (String.length d =? 4)%nat then decimal d
    else (20 * 10 ^ Z.of_nat (String.length d) + decimal d)%Z in
  searchYears ("y:" +:+ d) = [Some (toDouble year)] /\
  ((String.length d <= 14)%nat -> searchYears ("y:" +:+ d) = [Some year]).
Proof.
  intros Hne H year.
  assert (G : searchYears ("y:" +:+ d) = [Some (toDouble year)]).
  { unfold searchYears.
    rewrite replaceFirst_prefix.
    destruct (digits_unchanged d H) as (E1 & E2 & E3 & E4).
    rewrite E1, E2, E3, E4.
    assert (F : List.filter (fun y => (0 <? String.length y)%nat) [d] = [d])
      by (destruct d; [contradiction | reflexivity]).
    rewrite F. cbn [List.map]. unfold year.
    destruct (String.length d =? 4)%nat.
    - now rewrite parseIntStr_digits.
    - rewrite parseIntStr_digits.
      + unfold decimal. rewrite !append_cons, append_nil.
        change (readDigits 0 (String "2" (String "0" d))) with (readDigits 20 d).
        now rewrite readDigits_acc.
      + rewrite append_cons. discriminate.
      + rewrite !append_cons, append_nil. exact H. }
  split; [exact G |].
  intros Hlen. rewrite G, toDouble_small; [reflexivity |].
  pose proof (readDigits_range d H) as R. fold (decimal d) in R.
  assert (P : (10 ^ Z.of_nat (String.length d) <= 10 ^ 14)%Z)
    by (apply Z.pow_le_mono_r; lia).
  assert (Q : (21 * 10 ^ 14 < 2 ^ 53)%Z) by (vm_compute; reflexivity).
  unfold year. destruct (String.length d =? 4)%nat; lia.
Qed.

Lemma searchYears_of_digits_witness :
  searchYears ("y:" +:+ "21") = [Some 2021%Z] /\
  searchYears ("y:" +:+ "1998") = [Some 1998%Z] /\
  searchYears ("y:" +:+ "5") = [Some 205%Z] /\
  searchYears ("y:" +:+ "9007199254740993") = [Some 209007199254740992%Z].
Proof.
  split; [| split; [| split]].
  - apply (searchYears_of_digits "21"); [discriminate | reflexivity | simpl; lia].
  - apply (searchYears_of_digits "1998"); [discriminate | reflexivity | simpl; lia].
  - apply (searchYears_of_digits "5"); [discriminate | reflexivity | simpl; lia].
  - apply (searchYears_of_digits "9007199254740993"); [discriminate | reflexivity].
Defined.

Lemma removeAll_app (f : ascii -> bool) (a b : string) :
  removeAll f (a +:+ b) = removeAll f a +:+ removeAll f b.
Proof.
  induction a as [|x a IH]; [reflexivity |].
  rewrite append_cons. simpl. destruct (f x); [exact IH |].
  rewrite append_cons. now rewrite IH.
Qed.

Lemma replaceAllChar_app (x y : ascii) (a b : string) :
  replaceAllChar x y (a +:+ b) = replaceAllChar x y a +:+ replaceAllChar x y b.
Proof.
  induction a as [|c a IH]; [reflexivity |].
  rewrite append_cons. simpl. rewrite append_cons. now rewrite IH.
Qed.

(** The targets of a query of two comma-separated parts are the targets of
    the first part followed by those of the second. *)
Lemma searchYears_comma (a b : string) :
  searchYears ("y:" +:+ a +:+ "," +:+ b) =
  searchYears ("y:" +:+ a) ++ searchYears ("y:" +:+ b).
Proof.
  unfold searchYears. rewrite !replaceFirst_prefix.
  rewrite removeAll_app. rewrite (append_cons "," "" b), append_nil.
  simpl removeAll at 2. rewrite toLowerCase_app. simpl toLowerCase at 2.
  rewrite replaceAllChar_app. simpl replaceAllChar at 2.
  change (if Ascii.eqb (lowerChar ",") "," then " "%char else lowerChar ",")
    with " "%char.
  rewrite split_app. now rewrite List.filter_app, !List.map_app.
Qed.

(** X6. A list of years is a disjunction: when the query "y:a,b" and the
    queries "y:a" and "y:b" have the same mode, it keeps a paper exactly when
    one of the two keeps it. *)
Theorem searchMemoryByYear_comma_is_or (a b : string) (st : state) (p : paper) :
  yearCondition ("y:" +:+ a +:+ "," +:+ b) = yearCondition ("y:" +:+ a) ->
  yearCondition ("y:" +:+ a +:+ "," +:+ b) = yearCondition ("y:" +:+ b) ->
  p ∈ papersList (exec (searchMemoryByYear ("y:" +:+ a +:+ "," +:+ b)) st) <->
  p ∈ papersList (exec (searchMemoryByYear ("y:" +:+ a)) st) \/
  p ∈ papersList (exec (searchMemoryByYear ("y:" +:+ b)) st).
Proof.
  intros Ha Hb.
  assert (E : forall letters,
            papersList (exec (searchMemoryByYear letters) st) =
            filter (YearMatches letters) (sortedPapers st)).
  { intros letters.
    destruct (search_papersList YearQuery letters st (wellShaped_year _))
      as (_ & E & _). exact E. }
  rewrite !E, !list_elem_of_filter. unfold YearMatches.
  rewrite searchYears_comma, Exists_app, <- Ha, <- Hb. tauto.
Qed.

Lemma searchMemoryByYear_comma_is_or_witness :
  paper2021 ∈ papersList (exec (searchMemoryByYear ("y:" +:+ "19" +:+ "," +:+ "21"))
                            (stateOf library false)) <->
  paper2021 ∈ papersList (exec (searchMemoryByYear ("y:" +:+ "19")) (stateOf library false)) \/
  paper2021 ∈ papersList (exec (searchMemoryByYear ("y:" +:+ "21")) (stateOf library false)).
Proof.
  apply (searchMemoryByYear_comma_is_or "19" "21" (stateOf library false) paper2021);
    vm_compute; reflexivity.
Defined.

(* ===================================================================== *)
(** * Scrolling through the whole list *)
(* ===================================================================== *)

Lemma displayOnScroll_keeps_paged (render : paper -> exn + string) (v : viewport)
    (l : list paper) (n c : nat) (st : state) :
  nearBottom v -> paged render l n c st ->
  exists c',
    paged render l n c' (exec (displayOnScroll render v) st) /\
    ((c' = c + 1 /\ c * n < length l) \/
     (c' = c /\ length l <= c * n /\ exec (displayOnScroll render v) st = st)).
Proof.
  intros Hv Hp. pose proof (displayOnScroll_paged render v l n c st Hv Hp) as H.
  destruct (Nat.ltb_spec (c * n) (length l)) as [Hlt | Hge].
  - exists (c + 1). split; [exact H | left; split; [reflexivity | exact Hlt]].
  - exists c. rewrite H. split; [exact Hp | right; repeat split; assumption].
Qed.

Lemma afterScrolls_paged (render : paper -> exn + string) (v : viewport) (k : nat)
    (st : state) :
  nearBottom v ->
  exists c,
    paged render (papersList st) (memoryItemsPerPage st) c (afterScrolls render v k st) /\
    (c = k \/ length (papersList st) <= c * memoryItemsPerPage st).
Proof.
  intros Hv. induction k as [|k IH].
  - exists 0. split; [apply displayMemoryTable_paged | now left].
  - destruct IH as (c & Hp & Hc).
    unfold afterScrolls in *. simpl Nat.iter.
    destruct (displayOnScroll_keeps_paged render v _ _ c _ Hv Hp)
      as (c' & Hp' & [[-> Hlt] | (-> & Hge & _)]).
    + exists (c + 1). split; [exact Hp' |]. destruct Hc as [-> | Hc]; lia.
    + exists c. split; [exact Hp' | now right].
Qed.

(** X7. Scrolling shows the whole list, each paper once and in order: for
    every page size and every filtered list, after the first display and
    [k] triggers near the bottom the table holds the rows of the first
    [(cursor + 1) * memoryItemsPerPage] papers and nothing else; and once
    [(k + 1) * memoryItemsPerPage] reaches the length of the list, it holds
    the rows of the whole list. *)
Theorem scrolling_shows_every_paper_once (render : paper -> exn + string)
    (v : viewport) (k : nat) (st : state) :
  nearBottom v ->
  let st' := afterScrolls render v k st in
  papersList st' = papersList st /\
  memoryTable st' =
    renderedRows render
      (take ((currentMemoryPagination st' + 1) * memoryItemsPerPage st) (papersList st)) /\
  (length (papersList st) <= (k + 1) * memoryItemsPerPage st ->
   memoryTable st' = renderedRows render (papersList st)).
Proof.
  intros Hv st'.
  destruct (afterScrolls_paged render v k st Hv) as (c & (Hl & Hn & Hc & Ht) & Hk).
  fold st' in Hl, Hn, Hc, Ht. rewrite Hc.
  split; [exact Hl |]. split; [exact Ht |].
  intros Hlen. rewrite Ht. f_equal. apply take_ge.
  destruct Hk as [-> | Hk]; [exact Hlen | lia].
Qed.

Lemma scrolling_shows_every_paper_once_witness :
  let st := mkState ∅ [] (manyPapers 7) false "lastOpenDate" 0 3 [] [] in
  memoryTable (afterScrolls idTemplate (mkViewport true 580 600) 2 st) =
  renderedRows idTemplate (papersList st).
Proof.
  pose proof (scrolling_shows_every_paper_once idTemplate (mkViewport true 580 600) 2
                (mkState ∅ [] (manyPapers 7) false "lastOpenDate" 0 3 [] [])) as H.
  destruct H as (_ & _ & H).
  - split; [reflexivity | vm_compute; reflexivity].
  - apply H. vm_compute. lia.
Defined.

(** X8. A paper whose template throws costs its own row only: the first
    display never throws; the paper is skipped and logged, with the error,
    and the rows of the papers before and after it on the page are set as
    if it were not there. *)
Theorem displayMemoryTable_skips_failing_template (render : paper -> exn + string)
    (st : state) (before after : list paper) (bad : paper) (e : exn) :
  take (memoryItemsPerPage st) (papersList st) = before ++ bad :: after ->
  render bad = inl e ->
  outcome (displayMemoryTable render 0) st = Normal tt /\
  memoryTable (exec (displayMemoryTable render 0) st) =
    renderedRows render before ++ renderedRows render after /\
  LogExn e ∈ console (exec (displayMemoryTable render 0) st) /\
  LogPaper bad ∈ console (exec (displayMemoryTable render 0) st).
Proof.
  intros Hpage Hbad. unfold outcome, exec.
  rewrite displayMemoryTable_first. simpl. rewrite Hpage.
  split; [reflexivity |].
  assert (R : renderedRows render [bad] = []).
  { unfold renderedRows. simpl. now rewrite Hbad. }
  assert (L : renderLogs render [bad] =
              [LogText "displayMemoryTable error:"; LogExn e; LogPaper bad]).
  { unfold renderLogs. simpl. now rewrite Hbad. }
  split.
  - rewrite renderedRows_app, (renderedRows_cons render bad after), R. reflexivity.
  - assert (Hlogs : renderLogs render (before ++ bad :: after) =
                    renderLogs render before ++
                    [LogText "displayMemoryTable error:"; LogExn e; LogPaper bad] ++
                    renderLogs render after).
    { unfold renderLogs at 1. rewrite flat_map_app.
      fold (renderLogs render before). f_equal.
      rewrite <- L. apply (renderLogs_cons render bad after). }
    rewrite Hlogs.
    split; apply elem_of_app; right; apply elem_of_app; right;
      apply elem_of_app; left.
    + apply list_elem_of_In. simpl. auto.
    + apply list_elem_of_In. simpl. auto.
Qed.

Lemma displayMemoryTable_skips_failing_template_witness :
  let render := fun p : paper =>
    match prop p "id" with
    | JNum 1 => inl (Memory.TypeError "no template")
    | v => inr (toString v)
    end in
  memoryTable (exec (displayMemoryTable render 0)
                 (mkState ∅ [] (manyPapers 3) false "lastOpenDate" 0 100 [] []))
  = renderedRows render (manyPapers 1) ++ renderedRows render (drop 2 (manyPapers 3)).
Proof.
  cbv zeta.
  eapply (displayMemoryTable_skips_failing_template _
            (mkState ∅ [] (manyPapers 3) false "lastOpenDate" 0 100 [] [])
            (manyPapers 1) (drop 2 (manyPapers 3))
            (<["id" := JNum 1]> (∅ : paper)) (Memory.TypeError "no template")).
  - reflexivity.
  - vm_compute. reflexivity.
Defined.

(* ===================================================================== *)
(** * Trimming *)
(* ===================================================================== *)

Lemma trimEnd_cons (c : ascii) (r : string) :
  trimEnd (String c r) =
  match trimEnd r with
  | EmptyString => if isWhiteSpace c then EmptyString else String c EmptyString
  | t => String c t
  end.
Proof. reflexivity. Qed.

Lemma trimStart_first (s : string) (c : ascii) :
  firstChar (trimStart s) = Some c -> isWhiteSpace c = false.
Proof.
  induction s as [|x s IH]; simpl; [discriminate |].
  destruct (isWhiteSpace x) eqn:E; [exact IH |].
  simpl. intros H. injection H as <-. exact E.
Qed.

Lemma trimEnd_last (s : string) (c : ascii) :
  lastChar (trimEnd s) = Some c -> isWhiteSpace c = false.
Proof.
  induction s as [|x s IH]; [discriminate |].
  rewrite trimEnd_cons. destruct (trimEnd s) as [|y t] eqn:E.
  - destruct (isWhiteSpace x) eqn:Ex; simpl; [discriminate |].
    intros H. injection H as <-. exact Ex.
  - simpl. exact IH.
Qed.

Lemma trimEnd_first (s : string) (c : ascii) :
  firstChar (trimEnd s) = Some c -> firstChar s = Some c.
Proof.
  destruct s as [|x s]; [discriminate |].
  rewrite trimEnd_cons. destruct (trimEnd s); [destruct (isWhiteSpace x) |];
    simpl; auto; discriminate.
Qed.

Lemma trim_trimmed (s : string) : trimmed (trim s).
Proof.
  unfold trimmed, trim. split; intros c H.
  - apply trimEnd_first in H. now apply trimStart_first in H.
  - now apply trimEnd_last in H.
Qed.

Lemma trimStart_id (s : string) :
  (forall c, firstChar s = Some c -> isWhiteSpace c = false) -> trimStart s = s.
Proof.
  destruct s as [|x s]; [reflexivity |]. intros H. simpl.
  now rewrite (H x eq_refl).
Qed.

Lemma trimEnd_idemp (s : string) : trimEnd (trimEnd s) = trimEnd s.
Proof.
  induction s as [|x s IH]; [reflexivity |].
  rewrite trimEnd_cons. destruct (trimEnd s) as [|y t] eqn:E.
  - destruct (isWhiteSpace x) eqn:Ex; [reflexivity |].
    rewrite trimEnd_cons. simpl. now rewrite Ex.
  - rewrite trimEnd_cons. now rewrite IH.
Qed.

Lemma trim_idemp (s : string) : trim (trim s) = trim s.
Proof.
  unfold trim at 1. rewrite trimStart_id; [| apply trim_trimmed].
  unfold trim. apply trimEnd_idemp.
Qed.

Lemma hasChar_trimStart (c : ascii) (s : string) :
  hasChar c s = false -> hasChar c (trimStart s) = false.
Proof.
  induction s as [|x s IH]; [reflexivity |]. simpl. intros H.
  apply orb_false_iff in H as [H1 H2].
  destruct (isWhiteSpace x); [now apply IH |]. simpl. now rewrite H1, H2.
Qed.

Lemma hasChar_trimEnd (c : ascii) (s : string) :
  hasChar c s = false -> hasChar c (trimEnd s) = false.
Proof.
  induction s as [|x s IH]; [reflexivity |]. intros H. simpl in H.
  apply orb_false_iff in H as [H1 H2]. specialize (IH H2).
  rewrite trimEnd_cons. destruct (trimEnd s) as [|y t].
  - destruct (isWhiteSpace x); [reflexivity |]. simpl. now rewrite H1.
  - simpl. simpl in IH. now rewrite H1, IH.
Qed.

Lemma hasChar_trim (c : ascii) (s : string) :
  hasChar c s = false -> hasChar c (trim s) = false.
Proof. intros H. unfold trim. now apply hasChar_trimEnd, hasChar_trimStart. Qed.

(** The tags read from a comma-separated string are clean. *)
Lemma parseTagList_clean (newValue : string) :
  Forall cleanTag (parseTagList newValue).
Proof.
  unfold parseTagList. destruct (negb (String.eqb newValue "")); [| constructor].
  apply List.Forall_forall. intros tag Hin.
  apply filter_In in Hin as [Hin Hne]. apply in_map_iff in Hin as (piece & <- & Hp).
  split; [| split].
  - intros E. rewrite E in Hne. discriminate.
  - apply trim_trimmed.
  - apply hasChar_trim.
    pose proof (split_no_separator "," newValue) as HS.
    rewrite List.Forall_forall in HS. now apply HS.
Qed.

(* ===================================================================== *)
(** * Saving a property of a stored paper *)
(* ===================================================================== *)

Lemma setPapers_same (st : state) : setPapers (papers st) st = st.
Proof. now destruct st. Qed.

Lemma assignPaperProp_again (id key : string) (v : jsval) (st : state) (p : paper) :
  papers st !! id = Some p -> prop p key = v -> p !! key = Some v ->
  assignPaperProp id key v st = (Normal tt, st).
Proof.
  intros H _ Hk. rewrite (assignPaperProp_run id key v st p H).
  rewrite (insert_id p key v Hk), (insert_id (papers st) id p H).
  now rewrite setPapers_same.
Qed.

(** X9. Saving a code link stores it trimmed: the stored paper has the
    link without white space at either end, a string, so that the code
    filter accepts the paper; its other properties and the other papers are
    as before; and saving the stored link again changes nothing. *)
Theorem saveCodeLink_stores_trimmed (id codeLink : string) (st : state) (p : paper) :
  papers st !! id = Some p ->
  exists st' p',
    saveCodeLink id codeLink st = (Normal tt, st') /\
    papers st' !! id = Some p' /\
    prop p' "codeLink" = JStr (trim codeLink) /\
    trimmed (trim codeLink) /\
    wellShaped CodeQuery p' = true /\
    (forall key, key <> "codeLink" -> prop p' key = prop p key) /\
    (forall id', id' <> id -> papers st' !! id' = papers st !! id') /\
    saveCodeLink id (trim codeLink) st' = (Normal tt, st').
Proof.
  intros H. unfold saveCodeLink.
  eexists. exists (<["codeLink" := JStr (trim codeLink)]> p).
  split; [apply assignPaperProp_run; exact H |]. simpl.
  split; [apply lookup_insert_eq |].
  split; [apply prop_insert_eq |].
  split; [apply trim_trimmed |].
  split; [unfold wellShaped; rewrite prop_insert_eq; apply orb_true_r |].
  split; [intros key Hk; now rewrite prop_insert_ne by congruence |].
  split; [intros id' Hne; now rewrite lookup_insert_ne by congruence |].
  rewrite trim_idemp. eapply assignPaperProp_again.
  - simpl. apply lookup_insert_eq.
  - apply prop_insert_eq.
  - apply lookup_insert_eq.
Qed.

Lemma saveCodeLink_stores_trimmed_witness :
  exists st' p',
    saveCodeLink "1901.00001" "  https://github.com/a/b " storeState = (Normal tt, st') /\
    papers st' !! "1901.00001" = Some p' /\
    prop p' "codeLink" = JStr (trim "  https://github.com/a/b ") /\
    trim "  https://github.com/a/b " = "https://github.com/a/b".
Proof.
  destruct (saveCodeLink_stores_trimmed "1901.00001" "  https://github.com/a/b "
              storeState paper2019) as (st' & p' & H1 & H2 & H3 & _).
  - vm_compute. reflexivity.
  - exists st', p'. split; [exact H1 |]. split; [exact H2 |].
    split; [exact H3 | reflexivity].
Defined.

(* ===================================================================== *)
(** * The handlers of the table *)
(* ===================================================================== *)

Lemma noPaperId_false (t : target) :
  noPaperId t = false -> paperId t = Some (idOf t) /\ idOf t <> "".
Proof.
  unfold noPaperId, idOf. destruct (paperId t) as [id|]; [| discriminate].
  simpl. intros H. split; [reflexivity |]. intros E. rewrite E in H. discriminate.
Qed.




Section OpenFacts.

Variable paperUrl : paper -> exn + string.
Variable inheritedUrl : string -> exn + string.



End OpenFacts.


Lemma forallb_isString_JStr (l : list string) :
  forallb isString (List.map JStr l) = true.
Proof. induction l; simpl; auto. Qed.

Lemma sameAsOriginal_false (newValue : string) (t : target) :
  originalValue t <> Some newValue -> sameAsOriginal newValue t = false.
Proof.
  unfold sameAsOriginal. destruct (originalValue t) as [o|]; [| reflexivity].
  intros H. apply String.eqb_neq. congruence.
Qed.

Lemma handleTagsEditTable_run (t : target) (st : state) (p : paper) :
  noPaperId t = false ->
  sameAsOriginal (trim (value t)) t = false ->
  papers st !! idOf t = Some p ->
  handleTagsEditTable t st =
  (Normal (mkEdited (mkTarget (paperId t) (value t) (Some (trim (value t))))
             (Some "Tags updated!")),
   setPapers (<[idOf t := <["tags" := JArr (List.map JStr (parseTagList (trim (value t))))]> p]>
                (papers st)) st).
Proof.
  intros Hn Hs Hp. unfold handleTagsEditTable. rewrite Hn, Hs.
  cbv beta iota delta [orb]. unfold mbind at 1, M_bind at 1, get at 1. rewrite Hp.
  now erewrite bind_normal by (apply assignPaperProp_run; exact Hp).
Qed.

(** X12. Editing the tags in the table stores clean tags. For a stored
    paper and a value that differs, once trimmed, from the original one, the
    handler completes, reports "Tags updated!" and leaves as the paper's
    tags the pieces of the value between the commas, each trimmed, none
    empty and none with a comma: an array of strings, which the tag filter
    accepts. The other properties and the other papers are as before, the
    element remembers the trimmed value, and the same edit made again is
    recognised as no change: nothing is stored and nothing reported. *)
Theorem handleTagsEditTable_stores_clean_tags (t : target) (st : state) (p : paper) :
  noPaperId t = false ->
  papers st !! idOf t = Some p ->
  originalValue t <> Some (trim (value t)) ->
  let t' := mkTarget (paperId t) (value t) (Some (trim (value t))) in
  exists st' p',
    handleTagsEditTable t st = (Normal (mkEdited t' (Some "Tags updated!")), st') /\
    papers st' !! idOf t = Some p' /\
    prop p' "tags" = JArr (List.map JStr (parseTagList (trim (value t)))) /\
    Forall cleanTag (parseTagList (trim (value t))) /\
    wellShaped TagQuery p' = true /\
    (forall key, key <> "tags" -> prop p' key = prop p key) /\
    (forall id', id' <> idOf t -> papers st' !! id' = papers st !! id') /\
    handleTagsEditTable t' st' = (Normal (mkEdited t' None), st').
Proof.
  intros Hn Hp Ho t'.
  rewrite (handleTagsEditTable_run t st p Hn (sameAsOriginal_false _ _ Ho) Hp).
  eexists. exists (<["tags" := JArr (List.map JStr (parseTagList (trim (value t))))]> p).
  split; [reflexivity |]. simpl.
  split; [apply lookup_insert_eq |].
  split; [apply prop_insert_eq |].
  split; [apply parseTagList_clean |].
  split; [unfold wellShaped; rewrite prop_insert_eq; apply forallb_isString_JStr |].
  split; [intros key Hk; now rewrite prop_insert_ne by congruence |].
  split; [intros id' Hne; now rewrite lookup_insert_ne by congruence |].
  assert (S : sameAsOriginal (trim (value t')) t' = true).
  { unfold sameAsOriginal, t'. simpl. apply String.eqb_refl. }
  unfold handleTagsEditTable. rewrite S, orb_true_r. reflexivity.
Qed.

Lemma handleTagsEditTable_stores_clean_tags_witness :
  exists st' p',
    handleTagsEditTable (mkTarget (Some "1901.00001") " nlp, , deep learning ,cv " (Some "nlp"))
      storeState
    = (Normal (mkEdited (mkTarget (Some "1901.00001") " nlp, , deep learning ,cv "
                           (Some (trim " nlp, , deep learning ,cv ")))
                 (Some "Tags updated!")), st') /\
    papers st' !! "1901.00001" = Some p' /\
    prop p' "tags" = JArr (List.map JStr (parseTagList (trim " nlp, , deep learning ,cv "))) /\
    parseTagList (trim " nlp, , deep learning ,cv ") = ["nlp"; "deep learning"; "cv"].
Proof.
  destruct (handleTagsEditTable_stores_clean_tags
              (mkTarget (Some "1901.00001") " nlp, , deep learning ,cv " (Some "nlp"))
              storeState paper2019) as (st' & p' & H1 & H2 & H3 & _).
  - reflexivity.
  - vm_compute. reflexivity.
  - vm_compute. discriminate.
  - exists st', p'. split; [exact H1 |]. split; [exact H2 |].
    split; [exact H3 | reflexivity].
Defined.


(* ===================================================================== *)
(** * The requests of the client, one by one *)
(* ===================================================================== *)

Import AnkiView.

Lemma run_ankiRequest {S} (b : bridge S) (a : string) (p : params) (s : S) :
  sent (run b (ankiRequest a p) s) = [mkRequest a 6 p] /\
  bridgeState (run b (ankiRequest a p) s) = snd (b s (mkRequest a 6 p)) /\
  (forall result, returned (run b (ankiRequest a p) s) = inr result ->
     answered (fst (b s (mkRequest a 6 p))) = true) /\
  (answered (fst (b s (mkRequest a 6 p))) = true ->
     exists result, returned (run b (ankiRequest a p) s) = inr result).
Proof.
  unfold ankiRequest, failed. simpl.
  destruct (b s (mkRequest a 6 p)) as [r s']. simpl.
  destruct r as [reason|code|result err]; simpl;
    [| | destruct (toBoolean err); simpl];
    repeat split; try discriminate; try (intros; discriminate); eauto.
Qed.

(** X13. The deck "arxiv" is created only when it is missing: whatever the
    bridge, [ensureArxivDeck] asks for the names of the decks, and then asks
    to create "arxiv" exactly when the answer came without error and does
    not list it; it posts nothing else. *)
Theorem ensureArxivDeck_creates_only_when_missing {S} (b : bridge S) (s : S) :
  sent (run b ensureArxivDeck s) =
  mkRequest "deckNames" 6 NoParams ::
  (if lacksArxiv (fst (b s (mkRequest "deckNames" 6 NoParams)))
   then [mkRequest "createDeck" 6 (DeckParams "arxiv")]
   else []).
Proof.
  unfold ensureArxivDeck, getDeckNames, createDeck, ankiRequest, failed. simpl.
  destruct (b s (mkRequest "deckNames" 6 NoParams)) as [r s']. simpl.
  destruct r as [reason|code|names err]; simpl; try reflexivity.
  destruct (toBoolean err); simpl; [reflexivity |].
  destruct names as [| |x|n|str|l]; simpl; try reflexivity.
  - destruct (includes str "arxiv"); simpl; [reflexivity |].
    destruct (b s' (mkRequest "createDeck" 6 (DeckParams "arxiv"))) as [r2 s2].
    simpl. destruct r2 as [| |res2 err2]; simpl; try reflexivity.
    destruct (toBoolean err2); reflexivity.
  - destruct (existsb _ l); simpl; [reflexivity |].
    destruct (b s' (mkRequest "createDeck" 6 (DeckParams "arxiv"))) as [r2 s2].
    simpl. destruct r2 as [| |res2 err2]; simpl; try reflexivity.
    destruct (toBoolean err2); reflexivity.
Qed.

(** X14. The note is posted last, once, and only when the deck is there:
    for the deck "arxiv", what [addAnkiCard] sends is what [ensureArxivDeck]
    sends, followed by the one request "addNote" if [ensureArxivDeck]
    returned and by nothing if it threw, the error then being that of
    [addAnkiCard]; for any other deck the request "addNote" is all that is
    sent. *)
Theorem addAnkiCard_posts_the_note_last {S} (b : bridge S) (s : S)
    (deck front back : string) (tags : list jsval) (p : option paper) :
  let f := match p with
           | Some p' => mkFields front (back +:+ paperMetadata p')
           | None => mkFields front back
           end in
  let noteRequest := mkRequest "addNote" 6 (NoteParams (makeNote deck f tags)) in
  (deck = "arxiv" ->
   sent (run b (addAnkiCard deck front back tags p) s) =
     sent (run b ensureArxivDeck s) ++
     (match returned (run b ensureArxivDeck s) with
      | inr _ => [noteRequest]
      | inl _ => []
      end) /\
   (forall e, returned (run b ensureArxivDeck s) = inl e ->
      returned (run b (addAnkiCard deck front back tags p) s) = inl e)) /\
  (deck <> "arxiv" ->
   sent (run b (addAnkiCard deck front back tags p) s) = [noteRequest]).
Proof.
  intros f noteRequest. unfold addAnkiCard. fold f. fold noteRequest.
  change (mbind ?g ?m) with (bind m g). split.
  - intros ->. simpl String.eqb. cbv iota.
    unfold mbind, prog_bind. rewrite run_bind.
    destruct (returned (run b ensureArxivDeck s)) as [e|u] eqn:E;
      cbv zeta; cbn [sent returned].
    + split; [symmetry; apply app_nil_r | intros e' He; congruence].
    + split; [| discriminate]. f_equal.
      apply (run_ankiRequest b "addNote" _ _).
  - intros Hne. apply String.eqb_neq in Hne. rewrite Hne.
    unfold mbind, prog_bind. simpl bind.
    apply (run_ankiRequest b "addNote" _ _).
Qed.

Lemma run_catch {S A} (b : bridge S) (m : prog A) (h : error -> prog A) (s : S) :
  run b (catch m h) s =
  match returned (run b m s) with
  | inr a => run b m s
  | inl e =>
      let r2 := run b (h e) (bridgeState (run b m s)) in
      mkRun (returned r2) (sent (run b m s) ++ sent r2)
        (printed (run b m s) ++ printed r2) (bridgeState r2)
  end.
Proof.
  revert s. induction m as [a|e|r k IH|msg k IH]; intros s; simpl.
  - reflexivity.
  - destruct (run b (h e) s); reflexivity.
  - destruct (b s r) as [rep s']. simpl. rewrite IH.
    destruct (run b (k rep) s') as [ret sn pr bs]. simpl.
    destruct ret; reflexivity.
  - rewrite IH. destruct (run b k s) as [ret sn pr bs]. simpl.
    destruct ret; reflexivity.
Qed.

(** X15. Asking whether AnkiConnect is there never throws: against any
    bridge, [isAnkiConnectAvailable] posts the one request "version" and
    returns [true] exactly when it was answered with a result and no
    error. *)
Theorem isAnkiConnectAvailable_never_throws {S} (b : bridge S) (s : S) :
  sent (run b isAnkiConnectAvailable s) = [mkRequest "version" 6 NoParams] /\
  returned (run b isAnkiConnectAvailable s) =
    inr (answered (fst (b s (mkRequest "version" 6 NoParams)))).
Proof.
  unfold isAnkiConnectAvailable, ankiRequest, failed. simpl.
  destruct (b s (mkRequest "version" 6 NoParams)) as [r s']. simpl.
  destruct r as [reason|code|result err]; simpl; try (split; reflexivity).
  destruct (toBoolean err); split; reflexivity.
Qed.

(** X16. The status never throws either: against any bridge,
    [getAnkiStatus] returns. When it reports the bridge available, it has
    posted the requests "version" and "deckNames" and nothing else, the
    version was answered without error, the names are an array or a string
    and it has counted them. When it reports the bridge unavailable, the
    version was not answered or both requests were posted. *)
Theorem getAnkiStatus_never_throws {S} (b : bridge S) (s : S) :
  exists st,
    returned (run b getAnkiStatus s) = inr st /\
    (forall v n h d, st = Available v n h d ->
       sent (run b getAnkiStatus s) =
         [mkRequest "version" 6 NoParams; mkRequest "deckNames" 6 NoParams] /\
       answered (fst (b s (mkRequest "version" 6 NoParams))) = true /\
       n = lengthOf d /\ includesArxiv d = Ret h) /\
    (forall msg, st = Unavailable msg ->
       answered (fst (b s (mkRequest "version" 6 NoParams))) = false \/
       length (sent (run b getAnkiStatus s)) = 2).
Proof.
  unfold getAnkiStatus, getAnkiConnectVersion, getDeckNames, ankiRequest, failed.
  simpl.
  destruct (b s (mkRequest "version" 6 NoParams)) as [r s']. simpl.
  destruct r as [reason|code|version err]; simpl;
    try (eexists; split; [reflexivity | split; [discriminate | auto]]).
  destruct (toBoolean err); simpl;
    try (eexists; split; [reflexivity | split; [discriminate | auto]]).
  destruct (b s' (mkRequest "deckNames" 6 NoParams)) as [r2 s2]. simpl.
  destruct r2 as [reason|code|names err2]; simpl;
    try (eexists; split; [reflexivity | split; [discriminate | auto]]).
  destruct (toBoolean err2); simpl;
    try (eexists; split; [reflexivity | split; [discriminate | auto]]).
  destruct names as [| |x|n|str|l]; simpl;
    try (eexists; split; [reflexivity | split; [discriminate | auto]]).
  - eexists. split; [reflexivity |]. split; [| discriminate].
    intros v n h d H. injection H as <- <- <- <-. auto.
  - eexists. split; [reflexivity |]. split; [| discriminate].
    intros v n h d H. injection H as <- <- <- <-. auto.
Qed.

Lemma addAnkiCard_posts_the_note_last_witness :
  sent (run sampleBridge (addAnkiCard "notes" "front" "back" [] None) ([], []))
  = [mkRequest "addNote" 6 (NoteParams (makeNote "notes" (mkFields "front" "back") []))].
Proof.
  apply (addAnkiCard_posts_the_note_last sampleBridge ([], []) "notes" "front" "back"
           [] None).
  discriminate.
Defined.

Lemma getAnkiStatus_never_throws_witness :
  exists st,
    returned (run obligingBridge getAnkiStatus tt) = inr st /\
    st = Available (JArr [JStr "arxiv"]) 1 true (JArr [JStr "arxiv"]) /\
    sent (run obligingBridge getAnkiStatus tt) =
      [mkRequest "version" 6 NoParams; mkRequest "deckNames" 6 NoParams].
Proof.
  destruct (getAnkiStatus_never_throws obligingBridge tt) as (st & H1 & H2 & _).
  exists st. split; [exact H1 |].
  assert (E : st = Available (JArr [JStr "arxiv"]) 1 true (JArr [JStr "arxiv"])).
  { vm_compute in H1. now injection H1 as <-. }
  split; [exact E |].
  destruct (H2 _ _ _ _ E) as (H & _). exact H.
Defined.

(* ===================================================================== *)
(** * Adding a card from the form *)
(* ===================================================================== *)

Lemma posts_bind_returns {A B} (m : prog A) (f : A -> prog B) (req : request) :
  posts (bind m f) req ->
  posts m req \/ exists a, returns m a /\ posts (f a) req.
Proof.
  induction m as [a|e|r k IH|msg k IH]; simpl; intros H.
  - right. exists a. split; [constructor | exact H].
  - inversion H.
  - inversion H; subst.
    + left. constructor.
    + match goal with
      | Hp : posts (bind (k ?r0) f) req |- _ =>
          destruct (IH r0 Hp) as [Hl | (a & Ha & Hr)];
            [left; now apply posts_later with r0
            | right; exists a; split; [now apply returns_later with r0 | exact Hr]]
      end.
  - inversion H; subst.
    match goal with
    | Hp : posts (bind k f) req |- _ =>
        destruct (IH Hp) as [Hl | (a & Ha & Hr)];
          [left; now constructor
          | right; exists a; split; [now constructor | exact Hr]]
    end.
Qed.

Lemma posts_catch_inv {A} (m : prog A) (h : error -> prog A) (req : request) :
  posts (catch m h) req -> posts m req \/ exists e, posts (h e) req.
Proof.
  induction m as [a|e|r k IH|msg k IH]; simpl; intros H.
  - inversion H.
  - right. now exists e.
  - inversion H; subst.
    + left. constructor.
    + match goal with
      | Hp : posts (catch (k ?r0) h) req |- _ =>
          destruct (IH r0 Hp) as [Hl | Hr];
            [left; now apply posts_later with r0 | now right]
      end.
  - inversion H; subst.
    match goal with
    | Hp : posts (catch k h) req |- _ =>
        destruct (IH Hp) as [Hl | Hr]; [left; now constructor | now right]
    end.
Qed.

Lemma catch_returns {S A} (b : bridge S) (m : prog A) (h : error -> prog A) (s : S) :
  (forall e s', exists a, returned (run b (h e) s') = inr a) ->
  exists a, returned (run b (catch m h) s) = inr a.
Proof.
  intros Hh. rewrite run_catch.
  destruct (returned (run b m s)) as [e|a] eqn:E.
  - simpl. apply Hh.
  - exists a. exact E.
Qed.

Lemma startsWith_refl (w : string) : startsWith w w = true.
Proof.
  induction w as [|c w IH]; simpl; [reflexivity |].
  now rewrite Ascii.eqb_refl, IH.
Qed.

Section FormFacts.

Variable arxivIdFromPaperID : jsval -> jsval.

Lemma posts_shortTitleOf (v : jsval) (req : request) :
  ~ posts (shortTitleOf v) req.
Proof.
  unfold shortTitleOf. intros H.
  destruct (if toBoolean v then v else JStr "Unknown Title"); inversion H.
Qed.

Lemma posts_createShortPaperMetadata (p : option paper) (req : request) :
  ~ posts (createShortPaperMetadata arxivIdFromPaperID p) req.
Proof.
  unfold createShortPaperMetadata. destruct p as [p|]; intros H; [| inversion H].
  apply posts_bind_returns in H as [H | (a & _ & H)].
  - now apply posts_shortTitleOf in H.
  - inversion H.
Qed.

Lemma cardTags_cases (tags : string) (p : option paper) :
  (exists e, cardTags tags p = Raise e) \/
  (exists tl, cardTags tags p = Ret tl /\
              In (JStr "arxiv") tl /\ In (JStr "papermemory") tl).
Proof.
  unfold cardTags. destruct p as [p|]; [| left; eexists; reflexivity].
  right. destruct (_ && _); eexists; (split; [reflexivity |]);
    rewrite ?List.map_app; simpl; split; apply in_or_app.
  - left. apply in_or_app. right. simpl. auto.
  - left. apply in_or_app. right. simpl. auto.
  - right. simpl. auto.
  - right. simpl. auto.
Qed.

(** X17. Adding a card from the form. Whatever the bridge does,
    [handleAddToAnki] never throws: it ends by showing a status. Without an
    answer, or with neither a question nor an image, it shows one error and
    sends nothing. Every note it sends goes to the deck "arxiv", has the
    trimmed answer at the start of its back, carries the tags "arxiv" and
    "papermemory", and is a "Basic" note that allows duplicates. *)
Theorem handleAddToAnki_validates_and_never_throws {S} (b : bridge S) (s : S)
    (q a t : string) (img : option string) (paper : option paper) :
  let h := handleAddToAnki arxivIdFromPaperID q a t img paper in
  (exists shownList, returned (run b h s) = inr shownList) /\
  ((trim q = "" /\ (img = None \/ img = Some "")) \/ trim a = "" ->
   sent (run b h s) = [] /\
   exists msg, returned (run b h s) = inr [mkShown msg "error"]) /\
  (forall req, In req (sent (run b h s)) -> action req = "addNote" ->
   exists n,
     reqParams req = NoteParams n /\ deckName n = "arxiv" /\
     startsWith (Back (fields n)) (trim a) = true /\
     In (JStr "arxiv") (tags n) /\ In (JStr "papermemory") (tags n) /\
     basicDuplicable n).
Proof.
  intros h. unfold h, handleAddToAnki.
  set (hasImage := match img with
                   | Some i => negb (String.eqb i "")
                   | None => false
                   end).
  destruct (String.eqb (trim q) "" && negb hasImage) eqn:V1.
  { simpl. split; [eauto |]. split; [eauto |]. intros req []. }
  destruct (String.eqb (trim a) "") eqn:V2.
  { simpl. split; [eauto |]. split; [eauto |]. intros req []. }
  split; [| split].
  - apply catch_returns. intros e s'. simpl. eauto.
  - intros [[Hq Hi] | Ha].
    + rewrite Hq in V1. simpl in V1.
      assert (hasImage = false) as Hh
        by (unfold hasImage; destruct Hi as [-> | ->]; reflexivity).
      rewrite Hh in V1. discriminate.
    + rewrite Ha in V2. discriminate.
  - intros req Hin Hact. apply sent_posts in Hin.
    apply posts_catch_inv in Hin as [Hin | [e Hin]].
    2:{ inversion Hin; subst.
        match goal with Hp : posts (Ret _) _ |- _ => inversion Hp end. }
    change (mbind ?g ?m) with (bind m g) in Hin.
    apply posts_bind_returns in Hin as [Hin | (sm & _ & Hin)];
      [now apply posts_createShortPaperMetadata in Hin |].
    change (mbind ?g ?m) with (bind m g) in Hin.
    apply posts_bind_returns in Hin as [Hin | (tl & Hret & Hin)].
    { destruct (cardTags_cases (trim t) paper) as [[e He] | (tl & He & _)];
        rewrite He in Hin; inversion Hin. }
    assert (In (JStr "arxiv") tl /\ In (JStr "papermemory") tl) as [T1 T2].
    { destruct (cardTags_cases (trim t) paper) as [[e He] | (tl' & He & T)];
        rewrite He in Hret; inversion Hret; subst; exact T. }
    change (mbind ?g ?m) with (bind m g) in Hin.
    apply posts_bind_returns in Hin as [Hin | (u & _ & Hin)]; [| inversion Hin].
    unfold addAnkiCard in Hin.
    change (mbind ?g ?m) with (bind m g) in Hin.
    apply posts_bind_inv in Hin as [Hin | [u Hin]].
    + apply (posts_prelude "arxiv") in Hin. destruct Hin as [H | H];
        rewrite H in Hact; discriminate.
    + apply posts_ankiRequest in Hin. subst req. simpl.
      eexists. split; [reflexivity |]. simpl.
      split; [reflexivity |].
      split; [destruct paper; simpl; [apply startsWith_app | apply startsWith_refl] |].
      split; [exact T1 |]. split; [exact T2 |]. repeat split.
Qed.

End FormFacts.

Lemma handleAddToAnki_validates_and_never_throws_witness :
  (sent (run sampleBridge
           (handleAddToAnki (fun v => v) "  " "an answer" "" None None) ([], [])) = [] /\
   exists msg,
     returned (run sampleBridge
                 (handleAddToAnki (fun v => v) "  " "an answer" "" None None) ([], []))
     = inr [mkShown msg "error"]) /\
  (exists n,
     reqParams (List.last
                  (sent (run obligingBridge
                           (handleAddToAnki (fun v => v) "q" " a " "" None (Some paperGan))
                           tt))
                  (mkRequest "" 0 NoParams))
     = NoteParams n /\ deckName n = "arxiv" /\
     startsWith (Back (fields n)) (trim " a ") = true /\
     In (JStr "arxiv") (tags n) /\ In (JStr "papermemory") (tags n) /\
     basicDuplicable n).
Proof.
  split.
  - pose proof (handleAddToAnki_validates_and_never_throws (fun v => v) sampleBridge
                  ([], []) "  " "an answer" "" None None) as H.
    cbv zeta in H. destruct H as (_ & H & _). apply H.
    left. split; [vm_compute; reflexivity | left; reflexivity].
  - pose proof (handleAddToAnki_validates_and_never_throws (fun v => v) obligingBridge
                  tt "q" " a " "" None (Some paperGan)) as H.
    cbv zeta in H. destruct H as (_ & _ & H). apply H.
    + vm_compute. right. left. reflexivity.
    + vm_compute. reflexivity.
Defined.

(* ===================================================================== *)
(** * The short title of a card *)
(* ===================================================================== *)

Lemma hasChar_app (c : ascii) (s t : string) :
  hasChar c (s +:+ t) = hasChar c s || hasChar c t.
Proof.
  induction s as [|a s IH]; [reflexivity |].
  rewrite append_cons. simpl. now rewrite IH, orb_assoc.
Qed.

Lemma whiteSpaces_app (s t : string) :
  whiteSpaces (s +:+ t) = whiteSpaces s + whiteSpaces t.
Proof.
  induction s as [|a s IH]; [reflexivity |].
  rewrite append_cons. simpl. rewrite IH. lia.
Qed.

Lemma includes_hasChar (c : ascii) (s : string) :
  includes s (String c EmptyString) = hasChar c s.
Proof.
  induction s as [|a s IH]; [reflexivity |].
  simpl. rewrite IH, andb_true_r. now rewrite (Ascii.eqb_sym c a).
Qed.

Lemma hasChar_split_hd (c : ascii) (s : string) :
  hasChar c (List.hd "" (split c s)) = false.
Proof.
  induction s as [|a s IH]; [reflexivity |].
  simpl. destruct (Ascii.eqb a c) eqn:E; [reflexivity |].
  destruct (split c s) as [|w ws]; simpl; [now rewrite E |].
  simpl in IH. now rewrite E, IH.
Qed.

Lemma hasChar_splitRuns (c : ascii) (b : bool) (s : string) :
  hasChar c s = false ->
  List.Forall (fun w => hasChar c w = false) (splitRuns b s).
Proof.
  revert b. induction s as [|a s IH]; intros b H.
  - simpl. now constructor.
  - simpl in H. apply orb_false_iff in H as [H1 H2]. simpl.
    destruct (isWhiteSpace a).
    + destruct b; [now apply IH | constructor; [reflexivity | now apply IH]].
    + specialize (IH false H2). destruct (splitRuns false s) as [|w ws].
      * constructor; [simpl; now rewrite H1 | constructor].
      * inversion IH; subst. constructor; [simpl | assumption].
        rewrite H1. assumption.
Qed.

Lemma whiteSpaces_splitRuns (b : bool) (s : string) :
  List.Forall (fun w => whiteSpaces w = 0) (splitRuns b s).
Proof.
  revert b. induction s as [|a s IH]; intros b.
  - simpl. now constructor.
  - simpl. destruct (isWhiteSpace a) eqn:E.
    + destruct b; [apply IH | constructor; [reflexivity | apply IH]].
    + specialize (IH false). destruct (splitRuns false s) as [|w ws].
      * constructor; [simpl; now rewrite E | constructor].
      * inversion IH; subst. constructor; [simpl | assumption].
        rewrite E. assumption.
Qed.

Lemma splitRuns_no_whiteSpace (s : string) :
  whiteSpaces s = 0 -> splitRuns false s = [s].
Proof.
  induction s as [|a s IH]; [reflexivity |].
  simpl. destruct (isWhiteSpace a); [discriminate |]. simpl.
  intros H. now rewrite (IH H).
Qed.

Lemma concat_cons2 (sep x y : string) (l : list string) :
  String.concat sep (x :: y :: l) = x +:+ sep +:+ String.concat sep (y :: l).
Proof. reflexivity. Qed.

Lemma hasChar_concat (c : ascii) (ws : list string) :
  hasChar c " " = false ->
  List.Forall (fun w => hasChar c w = false) ws ->
  hasChar c (String.concat " " ws) = false.
Proof.
  intros Hc. induction 1 as [|w ws Hw Hws IH]; [reflexivity |].
  destruct ws as [|y ws]; [exact Hw |].
  rewrite concat_cons2, !hasChar_app, Hw, Hc, IH. reflexivity.
Qed.

Lemma whiteSpaces_concat (ws : list string) :
  List.Forall (fun w => whiteSpaces w = 0) ws ->
  whiteSpaces (String.concat " " ws) = length ws - 1.
Proof.
  induction 1 as [|w ws Hw Hws IH]; [reflexivity |].
  destruct ws as [|y ws]; [simpl; lia |].
  rewrite concat_cons2, !whiteSpaces_app, Hw, IH. simpl. lia.
Qed.

Lemma Forall_slice {A} (P : A -> Prop) (i j : nat) (l : list A) :
  List.Forall P l -> List.Forall P (slice i j l).
Proof.
  intros H. unfold slice. now apply Forall_take, Forall_drop.
Qed.

(** X18. The short title of a card: [createShortTitle] never returns a
    colon, and what it returns has at most two white-space code units (three
    words joined by single spaces). A title without colon and without white
    space is its own short title. *)
Theorem createShortTitle_three_words_no_colon (title : string) :
  hasChar ":" (createShortTitle title) = false /\
  whiteSpaces (createShortTitle title) <= 2 /\
  (hasChar ":" title = false -> whiteSpaces title = 0 ->
   createShortTitle title = title).
Proof.
  unfold createShortTitle.
  destruct (String.eqb_spec title "") as [-> | Hne].
  { split; [reflexivity |]. split; [simpl; lia | reflexivity]. }
  change (includes title ":") with (includes title (String ":"%char EmptyString)).
  rewrite includes_hasChar.
  split; [| split].
  - apply hasChar_concat; [reflexivity |]. apply Forall_slice.
    apply hasChar_splitRuns.
    destruct (hasChar ":" title) eqn:E; [| exact E].
    apply hasChar_trim, hasChar_split_hd.
  - rewrite whiteSpaces_concat by (apply Forall_slice, whiteSpaces_splitRuns).
    unfold slice. rewrite length_take. lia.
  - intros -> Hw. unfold splitWhiteSpace. rewrite (splitRuns_no_whiteSpace _ Hw).
    reflexivity.
Qed.

Lemma createShortTitle_three_words_no_colon_witness :
  createShortTitle "Transformers" = "Transformers".
Proof.
  apply (createShortTitle_three_words_no_colon "Transformers"); reflexivity.
Defined.

(* ===================================================================== *)
(** * Notes, and ids of no stored paper *)
(* ===================================================================== *)

Lemma handleNoteEditTable_run (t : target) (st : state) (p : paper) :
  noPaperId t = false ->
  sameAsOriginal (trim (value t)) t = false ->
  papers st !! idOf t = Some p ->
  handleNoteEditTable t st =
  (Normal (mkEdited (mkTarget (paperId t) (value t) (Some (trim (value t))))
             (Some "Note updated!")),
   setPapers (<[idOf t := <["note" := JStr (trim (value t))]> p]> (papers st)) st).
Proof.
  intros Hn Hs Hp. unfold handleNoteEditTable. rewrite Hn, Hs.
  cbv beta iota delta [orb]. unfold mbind at 1, M_bind at 1, get at 1. rewrite Hp.
  now erewrite bind_normal by (apply assignPaperProp_run; exact Hp).
Qed.

(** X19. Editing a note in the table stores it trimmed, where [saveNote]
    stores it as given. For a stored paper and a value that differs, once
    trimmed, from the original one, the handler completes, reports
    "Note updated!" and leaves the trimmed value as the paper's note; the
    other properties and the other papers are as before, and the same edit
    made again stores and reports nothing. [saveNote] on the same paper
    leaves the value untrimmed. *)
Theorem handleNoteEditTable_stores_trimmed_note (t : target) (st : state) (p : paper) :
  noPaperId t = false ->
  papers st !! idOf t = Some p ->
  originalValue t <> Some (trim (value t)) ->
  let t' := mkTarget (paperId t) (value t) (Some (trim (value t))) in
  exists st' p',
    handleNoteEditTable t st = (Normal (mkEdited t' (Some "Note updated!")), st') /\
    papers st' !! idOf t = Some p' /\
    prop p' "note" = JStr (trim (value t)) /\
    trimmed (trim (value t)) /\
    (forall key, key <> "note" -> prop p' key = prop p key) /\
    (forall id', id' <> idOf t -> papers st' !! id' = papers st !! id') /\
    handleNoteEditTable t' st' = (Normal (mkEdited t' None), st') /\
    exists st'' p'',
      saveNote (idOf t) (value t) st = (Normal tt, st'') /\
      papers st'' !! idOf t = Some p'' /\
      prop p'' "note" = JStr (value t).
Proof.
  intros Hn Hp Ho t'.
  rewrite (handleNoteEditTable_run t st p Hn (sameAsOriginal_false _ _ Ho) Hp).
  eexists. exists (<["note" := JStr (trim (value t))]> p).
  split; [reflexivity |]. simpl.
  split; [apply lookup_insert_eq |].
  split; [apply prop_insert_eq |].
  split; [apply trim_trimmed |].
  split; [intros key Hk; now rewrite prop_insert_ne by congruence |].
  split; [intros id' Hne; now rewrite lookup_insert_ne by congruence |].
  split.
  - assert (S : sameAsOriginal (trim (value t')) t' = true).
    { unfold sameAsOriginal, t'. simpl. apply String.eqb_refl. }
    unfold handleNoteEditTable. rewrite S, orb_true_r. reflexivity.
  - unfold saveNote. rewrite (assignPaperProp_run _ _ _ _ _ Hp).
    eexists. eexists. split; [reflexivity |]. simpl.
    split; [apply lookup_insert_eq | apply prop_insert_eq].
Qed.

Lemma handleNoteEditTable_stores_trimmed_note_witness :
  exists st' p',
    handleNoteEditTable (mkTarget (Some "1901.00001") "  read again " (Some "")) storeState
    = (Normal (mkEdited (mkTarget (Some "1901.00001") "  read again "
                           (Some (trim "  read again ")))
                 (Some "Note updated!")), st') /\
    papers st' !! "1901.00001" = Some p' /\
    prop p' "note" = JStr (trim "  read again ") /\
    trim "  read again " = "read again".
Proof.
  destruct (handleNoteEditTable_stores_trimmed_note
              (mkTarget (Some "1901.00001") "  read again " (Some ""))
              storeState paper2019) as (st' & p' & H1 & H2 & H3 & _).
  - reflexivity.
  - vm_compute. reflexivity.
  - vm_compute. discriminate.
  - exists st', p'. split; [exact H1 |]. split; [exact H2 |].
    split; [exact H3 | reflexivity].
Defined.



